(** * Isida chat bot: conversation and session engine

    A shallow embedding of [isida_bot.py] (class [IsidaTelegramBot]) and the
    properties of its game sessions, teach directive, mood state, response
    resolver and persistence gateway.

    Python [str] values are lists of Unicode code points, so that [len],
    indexing, slicing and [in] mean what they mean in Python.  The handlers
    are state transformers on the bot object; a handler returns the new
    state together with what it did (a reply, nothing, or a raised
    exception).  Random draws are an explicit argument of the handler. *)

From Stdlib Require Import ZArith NArith String Ascii DecimalString DecimalZ DecimalPos.
From stdpp Require Import gmap list.

Local Open Scope Z_scope.

(** ** Python strings *)

Abbreviation pystr := (list N).

(** UTF-8 decoding of a source literal into code points. *)
Fixpoint utf8_go (pending : nat) (acc : N) (s : string) : pystr :=
  match s with
  | EmptyString => []
  | String a s' =>
      let b := N_of_ascii a in
      match pending with
      | O =>
          if (b <? 128)%N then b :: utf8_go 0 0 s'
          else if (b <? 224)%N then utf8_go 1 (b - 192) s'
          else if (b <? 240)%N then utf8_go 2 (b - 224) s'
          else utf8_go 3 (b - 240) s'
      | S O => (acc * 64 + (b - 128))%N :: utf8_go 0 0 s'
      | S p => utf8_go p (acc * 64 + (b - 128))%N s'
      end
  end.

Definition py (s : string) : pystr := utf8_go 0 0 s.
Arguments py s%_string.

(** The line feed of Python's ["\n"]. *)
Definition nl : pystr := [10%N].

(** [str(n)] for an integer. *)
Definition str_of_Z (z : Z) : pystr :=
  py (NilZero.string_of_int (Z.to_int z)).

(** The Unicode tables behind the [str] and [re] builtins the bot calls.
    They belong to the Python runtime, not to the bot; the development is
    parametric in them. *)
Class PyUnicode := {
  (** [Py_UNICODE_ISSPACE]: what [str.split()], [str.strip()] and the
      regular expression class [\s] treat as white space *)
  isspace : N -> bool;
  (** [str.lower], [str.upper], [str.capitalize], [str.isalpha] *)
  lower : pystr -> pystr;
  upper : pystr -> pystr;
  capitalize : pystr -> pystr;
  isalpha : pystr -> bool;
  (** [int(s)]; [None] stands for [ValueError] *)
  py_int : pystr -> option Z;
  (** comparison of a text character with a cased pattern literal under
      [re.IGNORECASE] *)
  re_ieq : N -> N -> bool;
  (** lower-casing never empties a string *)
  lower_nonempty : forall s, s <> [] -> lower s <> [];
  (** [int(str(n)) == n] *)
  py_int_str : forall z, py_int (str_of_Z z) = Some z;
}.

Section Strings.
Context `{PyUnicode}.

(** [s.split()]: maximal runs of non-space characters. [cur] is the run
    being read, most recent character first. *)
Fixpoint split_go (cur : pystr) (s : pystr) : list pystr :=
  match s with
  | [] => match cur with [] => [] | _ => [rev cur] end
  | c :: s' =>
      if isspace c
      then match cur with
           | [] => split_go [] s'
           | _ => rev cur :: split_go [] s'
           end
      else split_go (c :: cur) s'
  end.

Definition split (s : pystr) : list pystr := split_go [] s.

Fixpoint lstrip (s : pystr) : pystr :=
  match s with
  | c :: s' => if isspace c then lstrip s' else s
  | [] => []
  end.

(** [s.strip()] *)
Definition strip (s : pystr) : pystr := rev (lstrip (rev (lstrip s))).
End Strings.

(** [sep.join(parts)] *)
Fixpoint join (sep : pystr) (parts : list pystr) : pystr :=
  match parts with
  | [] => []
  | [p] => p
  | p :: rest => p ++ sep ++ join sep rest
  end.

(** [s.startswith(p)] *)
Fixpoint startswith (s p : pystr) : bool :=
  match p, s with
  | [], _ => true
  | _ :: _, [] => false
  | a :: p', c :: s' => if decide (a = c) then startswith s' p' else false
  end.

(** [sub in s] on strings: [sub] occurs as a contiguous slice of [s]. *)
Fixpoint contains (sub s : pystr) : bool :=
  startswith s sub ||
  match s with
  | [] => false
  | _ :: s' => contains sub s'
  end.

(** [s.replace(old, "")] for a non-empty [old]: every non-overlapping
    occurrence, scanning left to right, is dropped. [skip] counts the
    characters of the occurrence still to drop. *)
Fixpoint remove_all_go (old : pystr) (skip : nat) (s : pystr) : pystr :=
  match s with
  | [] => []
  | c :: s' =>
      match skip with
      | S k => remove_all_go old k s'
      | O =>
          if startswith s old
          then remove_all_go old (pred (length old)) s'
          else c :: remove_all_go old 0 s'
      end
  end.

Definition remove_all (old s : pystr) : pystr := remove_all_go old 0 s.

(** [l[i]] with Python's negative indices; [None] stands for
    [IndexError]. *)
Definition py_index {A} (l : list A) (i : Z) : option A :=
  if i <? 0
  then if - i <=? Z.of_nat (length l) then l !! Z.to_nat (Z.of_nat (length l) + i) else None
  else l !! Z.to_nat i.

(** [random.choice(l)] with the draw [rnd] made explicit; [None] stands
    for the [IndexError] of an empty list. *)
Definition choice {A} (rnd : nat) (l : list A) : option A :=
  l !! (rnd mod length l)%nat.

(** [s] is disclosed by [reply]: it occurs in it verbatim. *)
Definition discloses (s reply : pystr) : Prop :=
  exists pre post, reply = pre ++ s ++ post.

(** ** The bot object *)

(** [class BotMood(Enum)] *)
Inductive BotMood := NEUTRAL | HAPPY | ANGRY | FLIRTY | SAD | SARCASTIC.

Definition BotMood_value (m : BotMood) : pystr :=
  match m with
  | NEUTRAL => py "neutral"
  | HAPPY => py "happy"
  | ANGRY => py "angry"
  | FLIRTY => py "flirty"
  | SAD => py "sad"
  | SARCASTIC => py "sarcastic"
  end.

Definition all_moods : list BotMood :=
  [NEUTRAL; HAPPY; ANGRY; FLIRTY; SAD; SARCASTIC].

(** [BotMood(value)]: the member with that value; [None] stands for
    [ValueError]. *)
Definition BotMood_of_value (v : pystr) : option BotMood :=
  list_find (fun m => BotMood_value m = v) all_moods ≫= (fun p => Some p.2).

(** The dictionaries stored in [active_games], one shape per game. *)
Record cities_game := {
  last_city : pystr;
  used_cities : list pystr;
  player_turn : bool;
}.

Record hangman_game := {
  word : pystr;
  guessed : list pystr;
  attempts : Z;
  used_letters : list pystr;
}.

Record guess_game := {
  number : Z;
  guess_attempts : Z;
}.

Record riddle_game := {
  question : pystr;
  answer : pystr;
}.

Inductive game :=
| GCities (g : cities_game)
| GHangman (g : hangman_game)
| GGuess (g : guess_game)
| GRiddle (g : riddle_game).

(** A compiled pattern of [response_patterns]: each alternative of the
    group is a sequence of literal characters and [.*]. *)
Inductive atom :=
| Lit (c : N)
| DotStar.

(** An entry of [user_data]. *)
Record user := {
  name : pystr;
  username : option pystr;
  first_seen : pystr;
  message_count : Z;
  last_active : pystr;
}.

(** [self.stats] *)
Record stats_t := {
  total_messages : Z;
  unique_users : Z;
  games_played : Z;
  commands_used : gmap pystr Z;
}.

(** The mutable attributes of [IsidaTelegramBot] and its [admin_ids]. *)
Record bot := {
  admin_ids : list Z;
  use_postgres : bool;
  learned_responses : gmap pystr (list pystr);
  user_data : gmap pystr user;
  stats : stats_t;
  active_games : gmap pystr game;
  conversation_history : gmap pystr (list pystr);
  current_mood : BotMood;
  response_patterns : list (list (list atom) * list (pystr * nat));
}.

Definition set_active_games (f : gmap pystr game -> gmap pystr game) (b : bot) : bot :=
  {| admin_ids := admin_ids b;
     use_postgres := use_postgres b;
     learned_responses := learned_responses b;
     user_data := user_data b;
     stats := stats b;
     active_games := f (active_games b);
     conversation_history := conversation_history b;
     current_mood := current_mood b;
     response_patterns := response_patterns b |}.

Definition set_stats (f : stats_t -> stats_t) (b : bot) : bot :=
  {| admin_ids := admin_ids b;
     use_postgres := use_postgres b;
     learned_responses := learned_responses b;
     user_data := user_data b;
     stats := f (stats b);
     active_games := active_games b;
     conversation_history := conversation_history b;
     current_mood := current_mood b;
     response_patterns := response_patterns b |}.

Definition set_learned (f : gmap pystr (list pystr) -> gmap pystr (list pystr)) (b : bot) : bot :=
  {| admin_ids := admin_ids b;
     use_postgres := use_postgres b;
     learned_responses := f (learned_responses b);
     user_data := user_data b;
     stats := stats b;
     active_games := active_games b;
     conversation_history := conversation_history b;
     current_mood := current_mood b;
     response_patterns := response_patterns b |}.

Definition set_mood (m : BotMood) (b : bot) : bot :=
  {| admin_ids := admin_ids b;
     use_postgres := use_postgres b;
     learned_responses := learned_responses b;
     user_data := user_data b;
     stats := stats b;
     active_games := active_games b;
     conversation_history := conversation_history b;
     current_mood := m;
     response_patterns := response_patterns b |}.

(** [self.stats["games_played"] += 1] *)
Definition count_game (st : stats_t) : stats_t :=
  {| total_messages := total_messages st;
     unique_users := unique_users st;
     games_played := games_played st + 1;
     commands_used := commands_used st |}.

(** The part of an incoming [Message] the handlers read. *)
Record message := {
  from_user_id : Z;
  full_name : pystr;
  from_username : option pystr;
  text : pystr;
}.

Inductive exn := IndexError | KeyError | ValueError | AttributeError | DataError.

(** What a handler did besides changing the bot: sent [message.answer],
    edited the message under a keyboard ([edit_text]), showed an alert
    ([callback.answer(..., show_alert=True)]), returned without answering,
    or raised. *)
Inductive outcome :=
| Answer (reply : pystr)
| Edited (new_text : pystr)
| Alert (notice : pystr)
| Silent
| Raised (e : exn).

(** The result of a helper that returns a value and may raise. *)
Inductive ret (A : Type) :=
| Ret (a : A)
| Exc (e : exn).
Arguments Ret {A} a.
Arguments Exc {A} e.

Notation "'try' x ← o 'else' r ; k" :=
  (match o with Some x => k | None => r end)
  (at level 10, x name, o at level 100, r at level 100, k at level 200,
   only parsing).

(** [s[i]] as a one-character string. *)
Definition str_at (s : pystr) (i : Z) : option pystr :=
  (fun c => [c]) <$> py_index s i.

(** ** Game replies *)

Definition bold (s : pystr) : pystr := py "<b>" ++ s ++ py "</b>".

Definition cities_repeat_reply : pystr :=
  py "Этот город уже был! 😠 Попробуй другой.".

Definition cities_letter_reply (letter_upper : pystr) : pystr :=
  py "Город должен начинаться на букву '" ++ letter_upper ++ py "'!".

Definition cities_next_reply (user_city next_cap letter_upper : pystr) : pystr :=
  py "Отлично! Твой город: " ++ bold user_city ++ nl ++
  py "Мой город: " ++ bold next_cap ++ nl ++
  py "Тебе на букву '" ++ bold letter_upper ++ py "'!".

Definition cities_win_reply (user_city : pystr) : pystr :=
  py "Твой город: " ++ bold user_city ++ nl ++
  py "Я не могу придумать город... Поздравляю, ты выиграл! 🎉".

Definition cities_start_reply (first_cap letter_upper : pystr) : pystr :=
  py "🎮 " ++ bold (py "Игра в города начата!") ++ nl ++
  py "Я начинаю: " ++ bold first_cap ++ nl ++
  py "Тебе на букву '" ++ bold letter_upper ++ py "'!".

Definition hangman_one_letter_reply : pystr :=
  py "Пожалуйста, введите одну букву! 🔤".

Definition hangman_used_reply (letter : pystr) : pystr :=
  py "Буква '" ++ letter ++ py "' уже была! 😒".

Definition hangman_win_reply (word : pystr) : pystr :=
  py "🎉 " ++ bold (py "Поздравляю! Ты выиграл!") ++ nl ++
  py "Слово: " ++ bold word.

Definition hangman_loss_reply (word : pystr) : pystr :=
  py "💀 " ++ bold (py "Игра окончена! Ты проиграл!") ++ nl ++
  py "Загаданное слово: " ++ bold word.

Definition hangman_turn_reply (pic : pystr) (guessed : list pystr) (attempts : Z) : pystr :=
  py "🎮 " ++ bold (py "Виселица") ++ nl ++ pic ++ nl ++
  py "Слово: " ++ join (py " ") guessed ++ nl ++
  py "Осталось попыток: " ++ str_of_Z attempts.

Definition hangman_start_reply (pic : pystr) (word : pystr) (guessed : list pystr) : pystr :=
  py "🎮 " ++ bold (py "Игра в виселицу начата!") ++ nl ++ pic ++ nl ++
  py "Загадано слово из " ++ str_of_Z (Z.of_nat (length word)) ++
  py " букв: " ++ join (py " ") guessed.

Definition guess_not_a_number_reply : pystr :=
  py "Пожалуйста, введите число! 🔢".

Definition guess_win_reply (number attempts : Z) : pystr :=
  py "🎉 " ++ bold (py "Поздравляю! Ты угадал!") ++ nl ++
  py "Загаданное число: " ++ bold (str_of_Z number) ++ nl ++
  py "Попыток: " ++ bold (str_of_Z attempts).

Definition guess_hint_reply (hint : pystr) (attempts : Z) : pystr :=
  py "Моё число " ++ hint ++ py "! ⬆️" ++ nl ++
  py "<i>Попытка #" ++ str_of_Z attempts ++ py ". Продолжай! 🔢</i>".

Definition guess_start_reply : pystr :=
  py "🎮 " ++ bold (py "Игра 'Угадай число' начата!") ++ nl ++
  py "Я загадала число от 1 до 100.".

Definition riddle_win_reply (question answer : pystr) : pystr :=
  py "🎉 " ++ bold (py "Правильно!") ++ nl ++
  py "Загадка: " ++ question ++ nl ++
  py "Ответ: " ++ bold answer.

Definition riddle_wrong_reply (hint : pystr) : pystr :=
  py "Неправильно! 😔" ++ nl ++ py "Подсказка: " ++ bold hint.

Definition riddle_start_reply (question : pystr) : pystr :=
  py "🎮 " ++ bold (py "Загадка:") ++ nl ++ question ++ nl ++
  py "<i>Отправь ответ! У тебя одна попытка. 🤔</i>".

(** ** Game tables *)

(** [cities_db] of [_find_city], a dictionary literal in source order. *)
Definition cities_db : list (pystr * list pystr) :=
  [ (py "а", [py "архангельск"; py "астрахань"]);
    (py "м", [py "москва"; py "мурманск"]) ].

Fixpoint dict_get {V} (k : pystr) (d : list (pystr * V)) : option V :=
  match d with
  | [] => None
  | (k', v) :: d' => if decide (k' = k) then Some v else dict_get k d'
  end.

Definition hangman_words : list pystr :=
  [py "программа"; py "компьютер"; py "изида"].

(** [stages] of [_draw_hangman]. *)
Definition hangman_stages : list pystr :=
  [ join nl [py "------"; py "|    |"; py "|"; py "|"; py "|"; py "|"; py "--------"];
    join nl [py "------"; py "|    |"; py "|    O"; py "|"; py "|"; py "|"; py "--------"] ].

(** [_load_riddles] *)
Definition riddles : list riddle_game :=
  [ {| question := py "Висит груша — нельзя скушать. Что это?"; answer := py "лампочка" |};
    {| question := py "Зимой и летом одним цветом?"; answer := py "ель" |};
    {| question := py "Сидит дед во сто шуб одет. Кто его раздевает, тот слезы проливает?";
       answer := py "лук" |};
    {| question := py "Не лает, не кусает, а в дом не пускает?"; answer := py "замок" |};
    {| question := py "Два конца, два кольца, посередине гвоздик?"; answer := py "ножницы" |} ].

(** ** Game sessions *)

Section Games.
Context `{PyUnicode}.

(** [_find_city(letter, used_cities)] *)
Definition _find_city (letter : pystr) (used_cities : gset pystr) : option pystr :=
  match dict_get letter cities_db with
  | Some cities => List.find (fun city => bool_decide (city ∉ used_cities)) cities
  | None => None
  end.

(** [game.get('last_city', '')] and [game.get('used_cities', [])] on the
    stored dictionary. *)
Definition get_last_city (g : game) : pystr :=
  match g with GCities c => last_city c | _ => [] end.

Definition get_used_cities (g : game) : list pystr :=
  match g with GCities c => used_cities c | _ => [] end.

(** [message.text.split()[1] if len(message.text.split()) > 1 else ""] *)
Definition second_token (m : message) : pystr :=
  match split (text m) with
  | _ :: t :: _ => t
  | _ => []
  end.

(** The tail of [cmd_game_cities]: a new session. *)
Definition cities_start (rnd : nat) (game_id : pystr) (b : bot) : bot * outcome :=
  try first_city ← choice rnd [py "москва"; py "астана"] else (b, Raised IndexError);
  let b1 := set_active_games
              <[game_id := GCities {| last_city := first_city;
                                      used_cities := [first_city];
                                      player_turn := true |}]> b in
  try l ← str_at first_city (-1) else (b1, Raised IndexError);
  (set_stats count_game b1,
   Answer (cities_start_reply (capitalize first_city) (upper l))).

(** [cmd_game_cities].  [list(used_cities)] enumerates a set in an order
    Python leaves open; [elements] is one such enumeration. *)
Definition cmd_game_cities (rnd : nat) (m : message) (b : bot) : bot * outcome :=
  let user_id := str_of_Z (from_user_id m) in
  let game_id := user_id ++ py "_cities" in
  match active_games b !! game_id with
  | Some game =>
      let user_city := second_token m in
      if bool_decide (user_city ≠ []) then
        let user_city_lower := lower user_city in
        let last_city := get_last_city game in
        let used_cities : gset pystr := list_to_set (get_used_cities game) in
        let accept :=
          let used1 := {[user_city_lower]} ∪ used_cities in
          try required ← str_at user_city_lower (-1) else (b, Raised IndexError);
          match _find_city required used1 with
          | Some ((_ :: _) as next_city) =>
              let used2 := {[next_city]} ∪ used1 in
              let b1 := set_active_games
                          <[game_id := GCities {| last_city := next_city;
                                                  used_cities := elements used2;
                                                  player_turn := false |}]> b in
              try l ← str_at next_city (-1) else (b1, Raised IndexError);
              (b1, Answer (cities_next_reply user_city (capitalize next_city) (upper l)))
          | _ =>
              (set_active_games (delete game_id) b,
               Answer (cities_win_reply user_city))
          end in
        if bool_decide (user_city_lower ∈ used_cities) then
          (b, Answer cities_repeat_reply)
        else
          match last_city with
          | [] => accept
          | _ :: _ =>
              try first ← str_at user_city_lower 0 else (b, Raised IndexError);
              try last ← str_at last_city (-1) else (b, Raised IndexError);
              if bool_decide (first ≠ last) then
                (b, Answer (cities_letter_reply (upper last)))
              else accept
          end
      else cities_start rnd game_id b
  | None => cities_start rnd game_id b
  end.

(** [_draw_hangman(attempts)]: [stages[6 - attempts]] *)
Definition _draw_hangman (attempts : Z) : option pystr :=
  py_index hangman_stages (6 - attempts).

(** The loop [for i, char in enumerate(word): if char == letter:
    guessed[i] = letter], from position [i].  The list is returned with
    the assignments made so far; the flag is [false] when an assignment
    fell outside the list ([IndexError]). *)
Fixpoint reveal_from (i : nat) (w : pystr) (letter : pystr) (guessed : list pystr)
  : list pystr * bool :=
  match w with
  | [] => (guessed, true)
  | char :: w' =>
      if decide ([char] = letter) then
        if decide (i < length guessed)%nat
        then reveal_from (S i) w' letter (<[i := letter]> guessed)
        else (guessed, false)
      else reveal_from (S i) w' letter guessed
  end.

Definition hangman_start (rnd : nat) (game_id : pystr) (b : bot) : bot * outcome :=
  try word ← choice rnd hangman_words else (b, Raised IndexError);
  let guessed := replicate (length word) (py "_") in
  let attempts := 6 in
  let b1 := set_active_games
              <[game_id := GHangman {| word := word; guessed := guessed;
                                       attempts := attempts; used_letters := [] |}]> b in
  try hangman_pic ← _draw_hangman attempts else (b1, Raised IndexError);
  (set_stats count_game b1, Answer (hangman_start_reply hangman_pic word guessed)).

(** [cmd_game_hangman].  [guessed] is the list object held by the stored
    session, so assignments to it are visible in [active_games] even
    when the handler raises before storing the session again. *)
Definition cmd_game_hangman (rnd : nat) (m : message) (b : bot) : bot * outcome :=
  let user_id := str_of_Z (from_user_id m) in
  let game_id := user_id ++ py "_hangman" in
  match active_games b !! game_id with
  | Some game =>
      match split (text m) with
      | _ :: token :: _ =>
          let letter := lower token in
          if bool_decide (length letter ≠ 1%nat) || negb (isalpha letter) then
            (b, Answer hangman_one_letter_reply)
          else
            match game with
            | GHangman g =>
                let stored_attempts := attempts g in
                let stored_letters := used_letters g in
                let word := word g in
                let used_letters : gset pystr := list_to_set stored_letters in
                if bool_decide (letter ∈ used_letters) then
                  (b, Answer (hangman_used_reply letter))
                else
                  let used1 := {[letter]} ∪ used_letters in
                  let hit := contains letter word in
                  let '(guessed, ok) :=
                    if hit then reveal_from 0 word letter (guessed g)
                    else (guessed g, true) in
                  let attempts := if hit then stored_attempts else stored_attempts - 1 in
                  if negb ok then
                    (set_active_games
                       <[game_id := GHangman {| word := word; guessed := guessed;
                                                attempts := stored_attempts;
                                                used_letters := stored_letters |}]> b,
                     Raised IndexError)
                  else if bool_decide (py "_" ∉ guessed) then
                    (set_active_games (delete game_id) b,
                     Answer (hangman_win_reply word))
                  else if attempts <=? 0 then
                    (set_active_games (delete game_id) b,
                     Answer (hangman_loss_reply word))
                  else
                    let b1 := set_active_games
                                <[game_id := GHangman {| word := word; guessed := guessed;
                                                         attempts := attempts;
                                                         used_letters := elements used1 |}]> b in
                    try hangman_pic ← _draw_hangman attempts else (b1, Raised IndexError);
                    (b1, Answer (hangman_turn_reply hangman_pic guessed attempts))
            | _ => (b, Raised KeyError)
            end
      | _ => hangman_start rnd game_id b
      end
  | None => hangman_start rnd game_id b
  end.

(** [random.randint(1, 100)] *)
Definition randint_1_100 (rnd : nat) : Z := 1 + Z.of_nat (rnd mod 100).

Definition guess_start (rnd : nat) (game_id : pystr) (b : bot) : bot * outcome :=
  let number := randint_1_100 rnd in
  (set_stats count_game
     (set_active_games
        <[game_id := GGuess {| number := number; guess_attempts := 0 |}]> b),
   Answer guess_start_reply).

(** [cmd_game_guess] *)
Definition cmd_game_guess (rnd : nat) (m : message) (b : bot) : bot * outcome :=
  let user_id := str_of_Z (from_user_id m) in
  let game_id := user_id ++ py "_guess" in
  match active_games b !! game_id with
  | Some game =>
      match split (text m) with
      | _ :: token :: _ =>
          match py_int token with
          | None => (b, Answer guess_not_a_number_reply)
          | Some guess =>
              match game with
              | GGuess g =>
                  let number := number g in
                  let attempts := guess_attempts g + 1 in
                  if bool_decide (guess = number) then
                    (set_active_games (delete game_id) b,
                     Answer (guess_win_reply number attempts))
                  else
                    let hint := if guess <? number then py "больше" else py "меньше" in
                    (set_active_games
                       <[game_id := GGuess {| number := number;
                                              guess_attempts := attempts |}]> b,
                     Answer (guess_hint_reply hint attempts))
              | _ => (b, Raised KeyError)
              end
          end
      | _ => guess_start rnd game_id b
      end
  | None => guess_start rnd game_id b
  end.

Definition riddle_start (rnd : nat) (game_id : pystr) (b : bot) : bot * outcome :=
  try riddle ← choice rnd riddles else (b, Raised IndexError);
  (set_stats count_game
     (set_active_games
        <[game_id := GRiddle {| question := question riddle;
                                answer := answer riddle |}]> b),
   Answer (riddle_start_reply (question riddle))).

(** [cmd_game_riddle].  [" ".join(message.text.split()[1:])], or [""]
    when there is at most one token: the join of an empty tail is
    [""] as well. *)
Definition cmd_game_riddle (rnd : nat) (m : message) (b : bot) : bot * outcome :=
  let user_id := str_of_Z (from_user_id m) in
  let game_id := user_id ++ py "_riddle" in
  match active_games b !! game_id with
  | Some game =>
      let user_answer := join (py " ") (tail (split (text m))) in
      if bool_decide (user_answer ≠ []) then
        match game with
        | GRiddle g =>
            let correct_answer := answer g in
            if bool_decide (lower user_answer = lower correct_answer) then
              (set_active_games (delete game_id) b,
               Answer (riddle_win_reply (question g) correct_answer))
            else
              try first ← str_at correct_answer 0 else (b, Raised IndexError);
              let hint := first ++ replicate (length correct_answer - 1) 42%N in
              (b, Answer (riddle_wrong_reply hint))
        | _ => (b, Raised KeyError)
        end
      else riddle_start rnd game_id b
  | None => riddle_start rnd game_id b
  end.
End Games.

(** ** Teach directive *)

Section Regex.
Context `{PyUnicode} {R : Type}.

(** The matchers below read a pattern left to right in continuation
    style: each takes the matcher [k] of the rest of the pattern and
    tries its own alternatives in the order of the backtracking engine,
    keeping the first on which [k] succeeds. *)

(** A literal made of cased letters, compiled with [re.IGNORECASE]. *)
Fixpoint re_lit_i (p : pystr) (k : pystr -> option R) (s : pystr) : option R :=
  match p, s with
  | [], _ => k s
  | _ :: _, [] => None
  | a :: p', c :: s' => if re_ieq c a then re_lit_i p' k s' else None
  end.

(** A literal made of caseless characters: compared as is. *)
Fixpoint re_lit (p : pystr) (k : pystr -> option R) (s : pystr) : option R :=
  match p, s with
  | [], _ => k s
  | _ :: _, [] => None
  | a :: p', c :: s' => if decide (a = c) then re_lit p' k s' else None
  end.

(** [\s*], greedy: the longest run first, then shorter ones. *)
Fixpoint re_spaces (k : pystr -> option R) (s : pystr) : option R :=
  match s with
  | c :: s' =>
      if isspace c
      then match re_spaces k s' with
           | Some r => Some r
           | None => k s
           end
      else k s
  | [] => k []
  end.

(** [\s+] *)
Definition re_spaces1 (k : pystr -> option R) (s : pystr) : option R :=
  match s with
  | c :: s' => if isspace c then re_spaces k s' else None
  | [] => None
  end.

(** [(.+?)] with [re.DOTALL], lazy: one character first, then one more
    at a time. [acc] is the text captured so far. *)
Fixpoint re_lazy_group (acc : pystr) (k : pystr -> pystr -> option R) (s : pystr)
  : option R :=
  match s with
  | [] => None
  | c :: s' =>
      match k (acc ++ [c]) s' with
      | Some r => Some r
      | None => re_lazy_group (acc ++ [c]) k s'
      end
  end.

(** [(.+)] with [re.DOTALL] closing the pattern: greedy, so it captures
    everything that is left, which must not be empty. *)
Definition re_rest_group (k : pystr -> option R) (s : pystr) : option R :=
  match s with
  | [] => None
  | _ :: _ => k s
  end.
End Regex.

Definition learn_too_short_reply : pystr :=
  py "Слишком короткие вопрос или ответ! 😒".

Definition learn_too_long_reply : pystr :=
  py "Слишком длинные вопрос или ответ! 📏".

Definition learn_format_reply : pystr :=
  py "Неправильный формат! Используй: <code>учись вопрос -> ответ</code>".

Definition learn_ack_reply (ack question answer : pystr) : pystr :=
  ack ++ nl ++ py "Теперь на вопрос <i>«" ++ question ++
  py "»</i> я буду отвечать: <i>«" ++ answer ++ py "»</i>".

Section Teach.
Context `{PyUnicode}.

(** [re.match(r'учись\s+(.+?)\s*->\s*(.+)', text, re.IGNORECASE |
    re.DOTALL)]: the two groups of the match, if any. *)
Definition learn_match (text : pystr) : option (pystr * pystr) :=
  re_lit_i (py "учись")
    (re_spaces1
       (re_lazy_group []
          (fun group1 =>
             re_spaces
               (re_lit (py "->")
                  (re_spaces
                     (re_rest_group (fun group2 => Some (group1, group2))))))))
    text.

(** [self.learned_responses[question_lower].append(answer)], the entry
    being created empty when it is not there. *)
Definition learn (question_lower answer : pystr)
    (learned : gmap pystr (list pystr)) : gmap pystr (list pystr) :=
  <[question_lower := default [] (learned !! question_lower) ++ [answer]]> learned.

(** [_process_learn_command(text, user_id)] *)
Definition _process_learn_command (rnd : nat) (text : pystr) (b : bot)
  : bot * ret pystr :=
  match learn_match text with
  | Some (group1, group2) =>
      let question := strip group1 in
      let answer := strip group2 in
      if bool_decide (length question < 2)%nat || bool_decide (length answer < 2)%nat then
        (b, Ret learn_too_short_reply)
      else if bool_decide (100 < length question)%nat
              || bool_decide (200 < length answer)%nat then
        (b, Ret learn_too_long_reply)
      else
        let question_lower := lower question in
        let b1 := set_learned (learn question_lower answer) b in
        try ack ← choice rnd [py "Запомнила! 🧠"; py "Окей, записала! 📝"]
          else (b1, Exc IndexError);
        (b1, Ret (learn_ack_reply ack question answer))
  | None => (b, Ret learn_format_reply)
  end.
End Teach.

(** ** Mood *)

Definition admin_denied_reply : pystr :=
  py "У тебя нет прав администратора! 👮‍♀️".

Definition mood_list_text : pystr :=
  py "Доступные: neutral, happy, angry, flirty, sad, sarcastic".

Definition set_mood_usage_reply : pystr :=
  py "Использование: /set_mood [настроение]" ++ nl ++ mood_list_text.

(** [mood_names] *)
Definition mood_names (m : BotMood) : pystr :=
  match m with
  | NEUTRAL => py "нейтральное"
  | HAPPY => py "счастливое"
  | ANGRY => py "злое"
  | FLIRTY => py "игривое"
  | SAD => py "грустное"
  | SARCASTIC => py "саркастичное"
  end.

Definition mood_changed_reply (m : BotMood) : pystr :=
  py "Настроение Изиды изменено на " ++ bold (mood_names m) ++ py "! 🎭".

Definition mood_unknown_reply (mood_str : pystr) : pystr :=
  py "Неизвестное настроение: " ++ mood_str ++ nl ++ mood_list_text.

Definition mood_unknown_alert (mood_str : pystr) : pystr :=
  py "Неизвестное настроение: " ++ mood_str.

Section Mood.
Context `{PyUnicode}.

(** [cmd_admin_set_mood] *)
Definition cmd_admin_set_mood (m : message) (b : bot) : bot * outcome :=
  if bool_decide (from_user_id m ∉ admin_ids b) then
    (b, Answer admin_denied_reply)
  else
    match tail (split (text m)) with
    | [] => (b, Answer set_mood_usage_reply)
    | arg :: _ =>
        let mood_str := lower arg in
        match BotMood_of_value mood_str with
        | Some mood => (set_mood mood b, Answer (mood_changed_reply mood))
        | None => (b, Answer (mood_unknown_reply mood_str))
        end
    end.
End Mood.

(** [_handle_mood_callback(callback, data)] *)
Definition _handle_mood_callback (data : pystr) (b : bot) : bot * outcome :=
  let mood_str := remove_all (py "set_mood_") data in
  match BotMood_of_value mood_str with
  | Some mood => (set_mood mood b, Edited (mood_changed_reply mood))
  | None => (b, Alert (mood_unknown_alert mood_str))
  end.

(** ** Persistence gateway *)

(** [datetime] values with [datetime.fromisoformat] ([None] stands for
    [ValueError]) and [datetime.isoformat]. *)
Class PyDatetime := {
  datetime : Type;
  isoformat : datetime -> pystr;
  fromisoformat : pystr -> option datetime;
  fromisoformat_isoformat : forall d, fromisoformat (isoformat d) = Some d;
}.

Definition set_user_data (f : gmap pystr user -> gmap pystr user) (b : bot) : bot :=
  {| admin_ids := admin_ids b;
     use_postgres := use_postgres b;
     learned_responses := learned_responses b;
     user_data := f (user_data b);
     stats := stats b;
     active_games := active_games b;
     conversation_history := conversation_history b;
     current_mood := current_mood b;
     response_patterns := response_patterns b |}.

Definition set_history (f : gmap pystr (list pystr) -> gmap pystr (list pystr)) (b : bot) : bot :=
  {| admin_ids := admin_ids b;
     use_postgres := use_postgres b;
     learned_responses := learned_responses b;
     user_data := user_data b;
     stats := stats b;
     active_games := active_games b;
     conversation_history := f (conversation_history b);
     current_mood := current_mood b;
     response_patterns := response_patterns b |}.

(** The statistics a bot starts with. *)
Definition initial_stats : stats_t :=
  {| total_messages := 0; unique_users := 0; games_played := 0; commands_used := ∅ |}.

Section Persistence.
Context `{PyUnicode} `{PyDatetime}.

(** A row of table [users]. *)
Record user_row := {
  row_name : pystr;
  row_username : option pystr;
  row_first_seen : datetime;
  row_message_count : Z;
  row_last_active : datetime;
}.

(** The relational store, as [init_db] creates it: table [users] by
    primary key, and the tables [stats] and [active_games] by primary
    key, whose JSONB column is held as the JSON text that the driver
    exchanges for it.  (Table [learned_responses] is created by [init_db]
    and never touched.) *)
Record database := {
  users : gmap Z user_row;
  stats_table : gmap pystr pystr;
  active_games_table : gmap pystr pystr;
}.

Definition empty_database : database :=
  {| users := ∅; stats_table := ∅; active_games_table := ∅ |}.

(** Ranges of the BIGINT and INT columns. *)
Definition fits_bigint (z : Z) : bool := (- 2 ^ 63 <=? z) && (z <? 2 ^ 63).
Definition fits_int (z : Z) : bool := (- 2 ^ 31 <=? z) && (z <? 2 ^ 31).

(** The arguments of the INSERT for one entry of [user_data]: the key
    and row it writes, or the exception raised on the way. *)
Definition user_to_row (user_id_str : pystr) (data : user) : ret (Z * user_row) :=
  try user_id ← py_int user_id_str else Exc ValueError;
  try seen ← fromisoformat (first_seen data) else Exc ValueError;
  try active ← fromisoformat (last_active data) else Exc ValueError;
  if fits_bigint user_id && fits_int (message_count data) then
    Ret (user_id, {| row_name := name data;
                     row_username := username data;
                     row_first_seen := seen;
                     row_message_count := message_count data;
                     row_last_active := active |})
  else Exc DataError.

(** [INSERT INTO users ... ON CONFLICT (user_id) DO UPDATE SET name,
    username, message_count, last_active]: an existing row keeps its
    [first_seen]. *)
Definition upsert_user (user_id : Z) (r : user_row) (t : gmap Z user_row)
  : gmap Z user_row :=
  match t !! user_id with
  | None => <[user_id := r]> t
  | Some old =>
      <[user_id := {| row_name := row_name r;
                      row_username := row_username r;
                      row_first_seen := row_first_seen old;
                      row_message_count := row_message_count r;
                      row_last_active := row_last_active r |}]> t
  end.

(** The loop over [self.user_data.items()]. *)
Fixpoint save_users (items : list (pystr * user)) (t : gmap Z user_row)
  : ret (gmap Z user_row) :=
  match items with
  | [] => Ret t
  | (user_id_str, data) :: rest =>
      match user_to_row user_id_str data with
      | Ret (user_id, r) => save_users rest (upsert_user user_id r t)
      | Exc e => Exc e
      end
  end.

(** [save_all_data].  The relational branch runs in one transaction.
    The rows of the users are written first.  The next statement hands
    [dict(self.learned_responses)] to a JSONB parameter; the pool is
    created by [asyncpg.create_pool] with no codec for JSON, so the
    driver takes only [str] there and raises [DataError].  The exception
    leaves the transaction block, which rolls back: the store is left as
    it was, the rows of the users included.  The other branch calls
    [self._save_json], a method the class does not define (it has no
    base class and no [__getattr__]): the attribute lookup raises before
    anything is written. *)
Definition save_all_data (b : bot) (db : database) : database * option exn :=
  if use_postgres b then
    match save_users (map_to_list (user_data b)) (users db) with
    | Exc e => (db, Some e)
    | Ret _ => (db, Some DataError)
    end
  else (db, Some AttributeError).
End Persistence.

(** ** Response resolver *)

(** The alternatives written between the parentheses of a pattern:
    [|] separates them and [.*] is the only operator.  [cur] is the
    alternative being read, last atom first. *)
Fixpoint re_alternatives_go (cur : list atom) (s : pystr) : list (list atom) :=
  match s with
  | [] => [rev cur]
  | c :: s' =>
      if decide (c = 124%N) then rev cur :: re_alternatives_go [] s'
      else
        match s' with
        | c2 :: s'' =>
            if decide (c = 46%N ∧ c2 = 42%N)
            then re_alternatives_go (DotStar :: cur) s''
            else re_alternatives_go (Lit c :: cur) s'
        | [] => re_alternatives_go (Lit c :: cur) s'
        end
  end.

Definition re_alternatives (s : string) : list (list atom) :=
  re_alternatives_go [] (py s).
Arguments re_alternatives s%_string.

(** [_init_response_patterns], in source order.  Every pattern is
    [(?i)(...)]; weights are in tenths.  [clock_text] is the
    [strftime('%H:%M %d.%m.%Y')] of the moment the bot was built. *)
Definition _init_response_patterns (clock_text : pystr)
  : list (list (list atom) * list (pystr * nat)) :=
  [ (re_alternatives "привет|здравствуй|хай|hello|hi|здаров|йоу|добрый|здрасьте",
     [(py "Привет, мой господин! 👋", 10%nat); (py "И тебе привет! 😊", 9%nat)]);
    (re_alternatives "как.*дела|как.*жизнь|чего.*ты|как.*ты",
     [(py "Всё хорошо, а у тебя? 😊", 10%nat)]);
    (re_alternatives "изида|isida|изя|изю|изюм",
     [(py "Да, я здесь! ⚡", 10%nat)]);
    (re_alternatives "люблю.*тебя|нравишься.*мне|влюблен.*в тебя|ты.*прекрасна",
     [(py "Ой, а я и не знала... 😳", 10%nat)]);
    (re_alternatives "дура|глупая|тупая|идиот|кретин|дебил",
     [(py "Сама такая! 😠", 10%nat)]);
    (re_alternatives "спасибо|благодарю|спс|пасиб|thx|thanks",
     [(py "Всегда пожалуйста! 😊", 10%nat)]);
    (re_alternatives "пока|до свидания|ухожу|бай|прощай|до встречи",
     [(py "Пока! Возвращайся скорее! 👋", 10%nat)]);
    (re_alternatives "что.*умеешь|что.*можешь|какие.*команды|помощь|help",
     [(py "Я умею многое! Напиши /help чтобы узнать подробности. 💫", 10%nat)]);
    (re_alternatives "ты.*умная|ты.*классная|ты.*лучшая|молодец|умница",
     [(py "Спасибо! Я стараюсь! 😊", 10%nat)]);
    (re_alternatives "который.*час|сколько.*время|дата|число|день",
     [(py "Сейчас: " ++ clock_text ++ py " ⏰", 10%nat)]) ].

(** [_init_mood_responses] *)
Definition mood_responses (m : BotMood) : list pystr :=
  match m with
  | NEUTRAL => [py "Я слушаю..."; py "Интересно..."; py "Продолжай, я внимаю.";
                py "Хм, понятно."; py "И что же дальше?"]
  | HAPPY => [py "Ура! 🎉"; py "Как здорово! 😊"; py "Я так рада! 💖";
              py "Это прекрасно! ✨"; py "Позитив заряжает! ⚡"]
  | ANGRY => [py "Ты меня бесишь! 😠"; py "Не говори так! 👿"; py "Я обиделась! 💢";
              py "Фу, как неприятно! 👎"; py "Уходи! 😤"]
  | FLIRTY => [py "Ой, а ты такой... 😘"; py "Мне нравится с тобой говорить... 💕";
               py "Ты особенный... 🌹"; py "Хочешь узнать секрет? 🤫";
               py "Прикоснись ко мне... виртуально, конечно 😉"]
  | SAD => [py "Мне грустно... 😔"; py "Всё пропало... 💧";
            py "Не хочу разговаривать... 🌧️"; py "Оставь меня одну... 🍂";
            py "Жизнь несправедлива... 🕯️"]
  | SARCASTIC => [py "О, конечно, гений ты наш... 🙄"; py "Ага, щас прям поверила... 😒";
                  py "Ну да, ну да, как же... 🤦‍♀️"; py "Браво, остроумно... 👏";
                  py "Ты открыл Америку! 🗺️"]
  end.

(** The canned replies of the context stage. *)
Definition context_greeting_replies : list pystr :=
  [py "Спасибо, что спросил! 😊"; py "А ты как думаешь? 🤔"].

Definition context_question_replies : list pystr :=
  [py "Интересный вопрос! Дай подумать... 🤔"; py "А ты как думаешь? 🤨"].

Definition greeting_cues : list pystr := [py "как дела"; py "как ты"].

Definition question_words : list pystr :=
  [py "кто"; py "что"; py "где"; py "когда"; py "почему"; py "как"].

(** [mood_keywords] and [mood_based_responses] of
    [_generate_random_response], in source order. *)
Definition mood_keywords : list (pystr * list pystr) :=
  [ (py "happy", [py "рад"; py "счастье"; py "ура"]);
    (py "sad", [py "грустно"; py "плохо"; py "печаль"]);
    (py "angry", [py "злой"; py "злюсь"; py "бесит"]);
    (py "love", [py "люблю"; py "нравится"; py "обожаю"]) ].

Definition neutral_responses : list pystr :=
  [py "Интересно... расскажи ещё! 💬"; py "Понятно. А что дальше? 🤔"].

Definition mood_based_responses : list (pystr * list pystr) :=
  [ (py "happy", [py "Вижу, ты в хорошем настроении! Рада за тебя! 😊"]);
    (py "sad", [py "Не грусти, всё будет хорошо! ☀️"]);
    (py "angry", [py "Успокойся, дыши глубже. Всё наладится. 🌿"]);
    (py "love", [py "Как мило с твоей стороны! 💕"]);
    (py "neutral", neutral_responses) ].

(** The random draws of one handler run: [pick i] feeds the [i]-th call
    of [random.choice] or [random.choices], [coin] is the outcome of
    [random.random() < 0.3]. *)
Record draws := {
  pick : nat -> nat;
  coin : bool;
}.

(** [random.choices(choices, weights=weights, k=1)[0]] over candidates
    paired with their weights; [r] is the draw below the total weight. *)
Fixpoint weighted_pick (r : nat) (l : list (pystr * nat)) : option pystr :=
  match l with
  | [] => None
  | (c, w) :: l' => if (r <? w)%nat then Some c else weighted_pick (r - w) l'
  end.

Definition choices (rnd : nat) (l : list (pystr * nat)) : option pystr :=
  weighted_pick (rnd mod sum_list (l.*2)) l.

(** [deque(maxlen=20).append(x)] *)
Definition deque_append (x : pystr) (q : list pystr) : list pystr :=
  if bool_decide (length q < 20)%nat then q ++ [x] else drop 1 q ++ [x].

Definition welcome_text (user_name : pystr) : pystr :=
  join nl
    [ [];
      py "👋 Привет, " ++ user_name ++ py "! Я <b>Изида</b> — интеллектуальный чат-бот!";
      py "Я помню нашу старую славу из времен Jabber, но теперь я здесь, в Telegram!";
      py "<b>Что я умею:</b>";
      py "• Общаться на любые темы 💬";
      py "• Играть в игры 🎮";
      py "• Рассказывать анекдоты и цитаты 😄";
      py "• Показывать погоду и курсы валют 🌤️";
      py "• Обучаться новым фразам 🧠";
      py "Напиши /help чтобы узнать все команды!";
      py "Или просто начни со мной разговор! Я помню, как в старые добрые времена... 💭";
      [] ].

Section Resolver.
Context `{PyUnicode}.

(** A pattern alternative matches a prefix of [s].  [.] stops at a line
    feed (the patterns are compiled without [re.DOTALL]). *)
Fixpoint match_atoms (p : list atom) (s : pystr) {struct p} : bool :=
  match p with
  | [] => true
  | Lit a :: p' =>
      match s with
      | c :: s' => re_ieq c a && match_atoms p' s'
      | [] => false
      end
  | DotStar :: p' =>
      (fix star (s : pystr) : bool :=
         match_atoms p' s ||
         match s with
         | c :: s' => negb (c =? 10)%N && star s'
         | [] => false
         end) s
  end.

(** [re.search(pattern, s)] is a match. *)
Fixpoint re_search (alts : list (list atom)) (s : pystr) : bool :=
  existsb (fun p => match_atoms p s) alts ||
  match s with
  | [] => false
  | _ :: s' => re_search alts s'
  end.

(** [_generate_context_response(text, user_id)] *)
Definition _generate_context_response (d : draws) (text user_id : pystr) (b : bot)
  : ret (option pystr) :=
  let history := default [] (conversation_history b !! user_id) in
  if bool_decide (length history < 2)%nat then Ret None
  else
    try last ← py_index history (-1) else Exc IndexError;
    let last_message := lower last in
    if existsb (fun q => contains q last_message) greeting_cues then
      try r ← choice (pick d 0) context_greeting_replies else Exc IndexError;
      Ret (Some r)
    else if contains (py "?") text
            && existsb (fun word => contains word (lower text)) question_words then
      try r ← choice (pick d 0) context_question_replies else Exc IndexError;
      Ret (Some r)
    else Ret None.

(** [_generate_random_response(text, user_id)] *)
Definition _generate_random_response (d : draws) (text : pystr) : ret pystr :=
  let detected_mood :=
    match List.find (fun '(_, keywords) =>
                       existsb (fun keyword => contains keyword (lower text)) keywords)
                    mood_keywords with
    | Some (mood, _) => mood
    | None => py "neutral"
    end in
  let responses := default neutral_responses (dict_get detected_mood mood_based_responses) in
  if coin d then
    try name_call ← choice (pick d 0) [py "дружок"; py "милый"; py "дорогой"]
      else Exc IndexError;
    let responses := (fun r => r ++ py " " ++ capitalize name_call ++ py "!") <$> responses in
    try r ← choice (pick d 1) responses else Exc IndexError;
    Ret r
  else
    try r ← choice (pick d 0) responses else Exc IndexError;
    Ret r.

(** [_generate_response(text, user_id)] *)
Definition _generate_response (d : draws) (text user_id : pystr) (b : bot) : ret pystr :=
  let text_lower := lower text in
  match learned_responses b !! text_lower with
  | Some responses =>
      try response ← choice (pick d 0) responses else Exc IndexError;
      try mood_response ← choice (pick d 1) (mood_responses (current_mood b))
        else Exc IndexError;
      Ret (response ++ nl ++ py "<i>" ++ mood_response ++ py "</i>")
  | None =>
      match List.find (fun '(pattern, _) => re_search pattern text_lower)
                      (response_patterns b) with
      | Some (_, responses) =>
          try response ← choices (pick d 0) responses else Exc IndexError;
          Ret response
      | None =>
          match _generate_context_response d text user_id b with
          | Exc e => Exc e
          | Ret (Some ((_ :: _) as context_response)) => Ret context_response
          | Ret _ => _generate_random_response d text
          end
      end
  end.
End Resolver.

Section Handlers.
Context `{PyUnicode} `{PyDatetime}.

(** [if self.stats["total_messages"] % 10 == 0: await self.save_all_data()] *)
Definition periodic_save (b : bot) (db : database) : database * option exn :=
  if bool_decide (total_messages (stats b) mod 10 = 0) then save_all_data b db
  else (db, None).

(** [cmd_start].  [t_seen] and [t_active] are the two readings of
    [datetime.now()].  The result is the bot, the store, the reply phase
    and the exception, if any, raised by the flush after it. *)
Definition cmd_start (t_seen t_active : datetime) (m : message) (b : bot) (db : database)
  : bot * database * outcome * option exn :=
  let user_id := str_of_Z (from_user_id m) in
  let user_name := full_name m in
  let known := bool_decide (is_Some (user_data b !! user_id)) in
  let b1 :=
    set_stats (fun st =>
      {| total_messages := total_messages st + 1;
         unique_users := if known then unique_users st else unique_users st + 1;
         games_played := games_played st;
         commands_used := commands_used st |}) b in
  let b2 :=
    set_user_data
      <[user_id := {| name := user_name;
                      username := from_username m;
                      first_seen := isoformat t_seen;
                      message_count := 0;
                      last_active := isoformat t_active |}]> b1 in
  let '(db1, e) := periodic_save b2 db in
  (b2, db1, Answer (welcome_text user_name), e).

(** [handle_message] *)
Definition handle_message (d : draws) (t_seen t_active : datetime)
    (m : message) (b : bot) (db : database)
  : bot * database * outcome * option exn :=
  let user_id := str_of_Z (from_user_id m) in
  let text := strip (text m) in
  if bool_decide (text = []) then (b, db, Silent, None)
  else
    let b1 :=
      set_stats (fun st =>
        {| total_messages := total_messages st + 1;
           unique_users := unique_users st;
           games_played := games_played st;
           commands_used :=
             <[py "message" := default 0 (commands_used st !! py "message") + 1]>
               (commands_used st) |}) b in
    let b2 :=
      match user_data b1 !! user_id with
      | Some u =>
          set_user_data
            <[user_id := {| name := name u;
                            username := username u;
                            first_seen := first_seen u;
                            message_count := message_count u + 1;
                            last_active := isoformat t_seen |}]> b1
      | None =>
          set_stats (fun st =>
            {| total_messages := total_messages st;
               unique_users := unique_users st + 1;
               games_played := games_played st;
               commands_used := commands_used st |})
            (set_user_data
               <[user_id := {| name := full_name m;
                               username := from_username m;
                               first_seen := isoformat t_seen;
                               message_count := 1;
                               last_active := isoformat t_active |}]> b1)
      end in
    let b3 :=
      set_history (fun h =>
        <[user_id := deque_append text (default [] (h !! user_id))]> h) b2 in
    let '(b4, response) :=
      if startswith (lower text) (py "учись")
      then _process_learn_command (pick d 0) text b3
      else (b3, _generate_response d text user_id b3) in
    match response with
    | Exc e => (b4, db, Raised e, None)
    | Ret response =>
        let '(db1, e) := periodic_save b4 db in
        (b4, db1, match response with [] => Silent | _ :: _ => Answer response end, e)
    end.
End Handlers.

(** ** A runtime for ASCII and Cyrillic text

    One reading of the runtime tables, on which the model can be run: the
    white space of CPython, case mapping and letters of the ASCII and
    basic Cyrillic ranges, plain decimal numerals, and timestamps kept as
    their ISO text. *)

Definition basic_isspace (c : N) : bool :=
  ((9 <=? c) && (c <=? 13) || (28 <=? c) && (c <=? 32) || (c =? 133) || (c =? 160)
   || (c =? 5760) || (8192 <=? c) && (c <=? 8202) || (c =? 8232) || (c =? 8233)
   || (c =? 8239) || (c =? 8287) || (c =? 12288))%N.

Definition basic_lower1 (c : N) : N :=
  (if (65 <=? c) && (c <=? 90) then c + 32
   else if (1040 <=? c) && (c <=? 1071) then c + 32
   else if (1024 <=? c) && (c <=? 1039) then c + 80
   else c)%N.

Definition basic_upper1 (c : N) : N :=
  (if (97 <=? c) && (c <=? 122) then c - 32
   else if (1072 <=? c) && (c <=? 1103) then c - 32
   else if (1104 <=? c) && (c <=? 1119) then c - 80
   else c)%N.

Definition basic_alpha1 (c : N) : bool :=
  ((65 <=? c) && (c <=? 90) || (97 <=? c) && (c <=? 122)
   || (1024 <=? c) && (c <=? 1119))%N.

Definition basic_capitalize (s : pystr) : pystr :=
  match s with
  | [] => []
  | c :: s' => basic_upper1 c :: map basic_lower1 s'
  end.

Definition basic_isalpha (s : pystr) : bool :=
  match s with
  | [] => false
  | _ => forallb basic_alpha1 s
  end.

Fixpoint ascii_string (s : pystr) : option string :=
  match s with
  | [] => Some EmptyString
  | c :: s' =>
      if (c <? 128)%N then String (ascii_of_N c) <$> ascii_string s' else None
  end.

Definition basic_int (s : pystr) : option Z :=
  match ascii_string s with
  | Some a => Z.of_int <$> NilZero.int_of_string a
  | None => None
  end.

Definition basic_ieq (c p : N) : bool := (basic_lower1 c =? basic_lower1 p)%N.

(** Every character of a source literal is below 128. *)
Fixpoint plain (s : string) : Prop :=
  match s with
  | EmptyString => True
  | String a s' => (N_of_ascii a < 128)%N ∧ plain s'
  end.

Lemma ascii_string_py s : plain s -> ascii_string (py s) = Some s.
Proof.
  unfold py. induction s as [|a s IH]; simpl; [done|].
  intros [Ha Hs]. apply N.ltb_lt in Ha as Hb. rewrite Hb. simpl.
  rewrite Hb, (IH Hs). simpl. by rewrite ascii_N_embedding.
Qed.

Lemma plain_uint d : plain (NilEmpty.string_of_uint d).
Proof. induction d; simpl; repeat split; try done; by apply N.ltb_lt. Qed.

Lemma plain_int d : plain (NilZero.string_of_int d).
Proof.
  destruct d as [d|d]; simpl.
  - destruct d; simpl; repeat split; try apply plain_uint; by apply N.ltb_lt.
  - split; [by apply N.ltb_lt|].
    destruct d; simpl; repeat split; try apply plain_uint; by apply N.ltb_lt.
Qed.

Lemma basic_int_str z : basic_int (str_of_Z z) = Some z.
Proof.
  unfold basic_int, str_of_Z. rewrite ascii_string_py by apply plain_int.
  rewrite NilZero.isi.
  - simpl. by rewrite DecimalZ.of_to.
  - destruct z; simpl; try done. intros [= Hp]. by apply Unsigned.to_uint_nonnil in Hp.
  - destruct z; simpl; try done. intros [= Hp]. by apply Unsigned.to_uint_nonnil in Hp.
Qed.

Lemma basic_lower_nonempty s : s <> [] -> map basic_lower1 s <> [].
Proof. by destruct s. Qed.

#[export] Instance basic_unicode : PyUnicode :=
  {| isspace := basic_isspace;
     lower := map basic_lower1;
     upper := map basic_upper1;
     capitalize := basic_capitalize;
     isalpha := basic_isalpha;
     py_int := basic_int;
     re_ieq := basic_ieq;
     lower_nonempty := basic_lower_nonempty;
     py_int_str := basic_int_str |}.

#[export] Instance iso_text_datetime : PyDatetime :=
  {| datetime := pystr;
     isoformat := fun d => d;
     fromisoformat := fun s => Some s;
     fromisoformat_isoformat := fun d => eq_refl |}.

(** A bot as [__init__] leaves it. *)
Definition new_bot (admins : list Z) (postgres : bool) (clock_text : pystr) : bot :=
  {| admin_ids := admins;
     use_postgres := postgres;
     learned_responses := ∅;
     user_data := ∅;
     stats := initial_stats;
     active_games := ∅;
     conversation_history := ∅;
     current_mood := NEUTRAL;
     response_patterns := _init_response_patterns clock_text |}.

(** Sample inputs: a bot with administrator 1 on the relational backend,
    and messages of user Ann. *)
Definition sample_bot : bot := new_bot [1] true (py "12:00 01.01.2025").

Definition message_of (user_id : Z) (t : string) : message :=
  {| from_user_id := user_id; full_name := py "Ann"; from_username := None;
     text := py t |}.
Arguments message_of user_id%_Z t%_string.

(** * Properties *)

(** ** Riddle *)

Section RiddleFacts.
Context `{PyUnicode}.

(** A matching answer wins, ends the session and shows the answer. *)
Lemma riddle_correct rnd m b g :
  let game_id := str_of_Z (from_user_id m) ++ py "_riddle" in
  let user_answer := join (py " ") (tail (split (text m))) in
  active_games b !! game_id = Some (GRiddle g) ->
  user_answer <> [] ->
  lower user_answer = lower (answer g) ->
  cmd_game_riddle rnd m b =
    (set_active_games (delete game_id) b,
     Answer (riddle_win_reply (question g) (answer g))).
Proof.
  intros game_id user_answer Hg Hne Heq. unfold cmd_game_riddle.
  fold game_id. rewrite Hg. fold user_answer.
  rewrite bool_decide_eq_true_2 by done.
  by rewrite bool_decide_eq_true_2.
Qed.

(** Any other answer gets the hint, and the bot is left as it was: the
    session stays open. *)
Lemma riddle_wrong rnd m b g c rest :
  let game_id := str_of_Z (from_user_id m) ++ py "_riddle" in
  let user_answer := join (py " ") (tail (split (text m))) in
  active_games b !! game_id = Some (GRiddle g) ->
  user_answer <> [] ->
  lower user_answer <> lower (answer g) ->
  answer g = c :: rest ->
  cmd_game_riddle rnd m b =
    (b, Answer (riddle_wrong_reply (c :: replicate (length rest) 42%N))).
Proof.
  intros game_id user_answer Hg Hne Hneq Ha. unfold cmd_game_riddle.
  fold game_id. rewrite Hg. fold user_answer.
  rewrite bool_decide_eq_true_2 by done.
  rewrite bool_decide_eq_false_2 by done.
  rewrite Ha. simpl. by rewrite Nat.sub_0_r.
Qed.
End RiddleFacts.

(** C1, at the input [/riddle сосна] sent to the open riddle whose answer
    is [ель]: the reply is the hint [е**], but the bot is unchanged, so
    the session is still there, and a second attempt, [/riddle ель], wins
    it.  The riddle is not single-attempt, although the prompt that opens
    it says so. *)
Theorem riddle_wrong_answer_keeps_session :
  let b1 := (cmd_game_riddle 1 (message_of 7 "/riddle") sample_bot).1 in
  let fir := {| question := py "Зимой и летом одним цветом?"; answer := py "ель" |} in
  active_games b1 !! py "7_riddle" = Some (GRiddle fir) ∧
  cmd_game_riddle 0 (message_of 7 "/riddle сосна") b1
    = (b1, Answer (riddle_wrong_reply (py "е**"))) ∧
  cmd_game_riddle 0 (message_of 7 "/riddle ель") b1
    = (set_active_games (delete (py "7_riddle")) b1,
       Answer (riddle_win_reply (question fir) (answer fir))).
Proof. vm_compute. done. Qed.

(** ** Disclosure *)

Lemma discloses_here (s pre post : pystr) : discloses s (pre ++ s ++ post).
Proof. by exists pre, post. Qed.

Lemma discloses_app_l (s a b : pystr) : discloses s a -> discloses s (a ++ b).
Proof. intros (pre & post & ->). exists pre, (post ++ b). by rewrite <- !app_assoc. Qed.

Lemma discloses_app_r (s a b : pystr) : discloses s b -> discloses s (a ++ b).
Proof. intros (pre & post & ->). exists (a ++ pre), post. by rewrite <- !app_assoc. Qed.

Lemma discloses_bold (s : pystr) : discloses s (bold s).
Proof. apply discloses_here. Qed.

Create HintDb disclose.
#[export] Hint Resolve discloses_here discloses_bold : disclose.
#[export] Hint Resolve discloses_app_l discloses_app_r | 5 : disclose.

(** ** Number guessing *)

Section GuessFacts.
Context `{PyUnicode}.

End GuessFacts.

(** User 7 holds a session with secret 42 and no attempt yet, and sends
    [/guess 50]. *)
Definition guess_sample : bot := (cmd_game_guess 41 (message_of 7 "/guess") sample_bot).1.


(** ** A game command without an argument *)

Lemma choice_elem {A} (rnd : nat) (l : list A) :
  l <> [] -> exists x, choice rnd l = Some x ∧ x ∈ l.
Proof.
  intros Hl. unfold choice.
  destruct (lookup_lt_is_Some_2 l (rnd mod length l)) as [x Hx].
  - apply Nat.mod_upper_bound. by destruct l.
  - exists x. split; [done|]. by eapply list_elem_of_lookup_2.
Qed.

Section Restart.
Context `{PyUnicode}.

Lemma second_token_none m :
  (length (split (text m)) <= 1)%nat -> second_token m = [].
Proof.
  unfold second_token. destruct (split (text m)) as [|? [|? ?]]; simpl; [done..|lia].
Qed.

Lemma cities_start_fresh rnd game_id b :
  exists first reply,
    first ∈ [py "москва"; py "астана"] ∧
    cities_start rnd game_id b
      = (set_stats count_game
           (set_active_games
              <[game_id := GCities {| last_city := first; used_cities := [first];
                                      player_turn := true |}]> b),
         Answer reply).
Proof.
  unfold cities_start.
  destruct (choice_elem rnd [py "москва"; py "астана"]) as (first & -> & Hin); [done|].
  assert (exists l, str_at first (-1) = Some l) as [l ->].
  { apply elem_of_cons in Hin as [->|Hin]; [by eexists|].
    apply elem_of_cons in Hin as [->|Hin]; [by eexists|].
    by apply elem_of_nil in Hin. }
  by exists first; eexists.
Qed.

Lemma hangman_start_fresh rnd game_id b :
  exists word reply,
    word ∈ hangman_words ∧
    hangman_start rnd game_id b
      = (set_stats count_game
           (set_active_games
              <[game_id := GHangman {| word := word;
                                       guessed := replicate (length word) (py "_");
                                       attempts := 6; used_letters := [] |}]> b),
         Answer reply).
Proof.
  unfold hangman_start.
  destruct (choice_elem rnd hangman_words) as (word & -> & Hin); [done|].
  exists word. by eexists.
Qed.

Lemma riddle_start_fresh rnd game_id b :
  exists riddle,
    riddle ∈ riddles ∧
    riddle_start rnd game_id b
      = (set_stats count_game (set_active_games <[game_id := GRiddle riddle]> b),
         Answer (riddle_start_reply (question riddle))).
Proof.
  unfold riddle_start.
  destruct (choice_elem rnd riddles) as (riddle & -> & Hin); [done|].
  exists riddle. split; [done|]. by destruct riddle.
Qed.

Lemma randint_1_100_range rnd : 1 <= randint_1_100 rnd <= 100.
Proof.
  unfold randint_1_100. pose proof (Nat.mod_upper_bound rnd 100). lia.
Qed.

(** C9: a game command sent without an argument while a session of that
    game is open does not play a turn.  It puts a newly drawn session in
    the place of the open one (a first city, a word with all positions
    blank and 6 attempts, a number from 1 to 100 with no attempt, or a
    riddle), answers with the opening prompt, and counts one more game
    played. *)
Theorem bare_command_restarts rnd m b g :
  let user_id := str_of_Z (from_user_id m) in
  (length (split (text m)) <= 1)%nat ->
  (active_games b !! (user_id ++ py "_cities") = Some g ->
     exists first reply,
       first ∈ [py "москва"; py "астана"] ∧
       cmd_game_cities rnd m b
         = (set_stats count_game
              (set_active_games
                 <[user_id ++ py "_cities" :=
                     GCities {| last_city := first; used_cities := [first];
                                player_turn := true |}]> b),
            Answer reply)) ∧
  (active_games b !! (user_id ++ py "_hangman") = Some g ->
     exists word reply,
       word ∈ hangman_words ∧
       cmd_game_hangman rnd m b
         = (set_stats count_game
              (set_active_games
                 <[user_id ++ py "_hangman" :=
                     GHangman {| word := word;
                                 guessed := replicate (length word) (py "_");
                                 attempts := 6; used_letters := [] |}]> b),
            Answer reply)) ∧
  (active_games b !! (user_id ++ py "_guess") = Some g ->
     exists secret,
       1 <= secret <= 100 ∧
       cmd_game_guess rnd m b
         = (set_stats count_game
              (set_active_games
                 <[user_id ++ py "_guess" :=
                     GGuess {| number := secret; guess_attempts := 0 |}]> b),
            Answer guess_start_reply)) ∧
  (active_games b !! (user_id ++ py "_riddle") = Some g ->
     exists riddle,
       riddle ∈ riddles ∧
       cmd_game_riddle rnd m b
         = (set_stats count_game
              (set_active_games <[user_id ++ py "_riddle" := GRiddle riddle]> b),
            Answer (riddle_start_reply (question riddle)))) ∧
  games_played (stats (set_stats count_game b)) = games_played (stats b) + 1.
Proof.
  intros user_id Hlen. split_and!.
  - intros Hg. unfold cmd_game_cities. fold user_id. rewrite Hg.
    rewrite second_token_none by done. simpl. apply cities_start_fresh.
  - intros Hg. unfold cmd_game_hangman. fold user_id. rewrite Hg.
    destruct (split (text m)) as [|? [|? ?]]; simpl in Hlen;
      [apply hangman_start_fresh..|lia].
  - intros Hg. unfold cmd_game_guess. fold user_id. rewrite Hg.
    exists (randint_1_100 rnd). split; [apply randint_1_100_range|].
    destruct (split (text m)) as [|? [|? ?]]; simpl in Hlen; [done..|lia].
  - intros Hg. unfold cmd_game_riddle. fold user_id. rewrite Hg.
    destruct (split (text m)) as [|? [|? ?]]; simpl in Hlen;
      [apply riddle_start_fresh..|lia].
  - done.
Qed.
End Restart.

(** User 7 has an open number-guessing session (secret 42) and sends a
    bare [/guess]: the secret is drawn again. *)
Lemma bare_command_restarts_witness :
  (length (split (text (message_of 7 "/guess"))) <= 1)%nat ∧
  active_games guess_sample !! py "7_guess"
    = Some (GGuess {| number := 42; guess_attempts := 0 |}) ∧
  exists secret,
    1 <= secret <= 100 ∧
    cmd_game_guess 6 (message_of 7 "/guess") guess_sample
      = (set_stats count_game
           (set_active_games
              <[py "7_guess" := GGuess {| number := secret; guess_attempts := 0 |}]>
              guess_sample),
         Answer guess_start_reply).
Proof.
  assert (H1 : (length (split (text (message_of 7 "/guess"))) <= 1)%nat)
    by (vm_compute; lia).
  assert (H2 : active_games guess_sample !! (str_of_Z 7 ++ py "_guess")
               = Some (GGuess {| number := 42; guess_attempts := 0 |}))
    by (vm_compute; reflexivity).
  split_and!; [exact H1 | exact H2 |].
  exact (proj1 (proj2 (proj2 (bare_command_restarts 6 (message_of 7 "/guess")
                                guess_sample _ H1))) H2).
Defined.

(** ** Mood *)

Lemma BotMood_of_value_Some v mood :
  BotMood_of_value v = Some mood <-> v = BotMood_value mood.
Proof.
  split.
  - unfold BotMood_of_value. intros Hf.
    destruct (list_find _ _) as [[i x]|] eqn:Hfind; simpl in Hf; [|done].
    injection Hf as ->. apply list_find_Some in Hfind. by destruct Hfind as (_ & -> & _).
  - intros ->. by destruct mood; vm_compute.
Qed.

Lemma BotMood_of_value_None v :
  BotMood_of_value v = None <-> forall mood, v <> BotMood_value mood.
Proof.
  split.
  - intros Hn mood Hv. apply BotMood_of_value_Some in Hv. congruence.
  - intros Hall. destruct (BotMood_of_value v) as [mood|] eqn:Hv; [|done].
    apply BotMood_of_value_Some in Hv. by destruct (Hall mood).
Qed.

Lemma all_moods_complete mood : mood ∈ all_moods.
Proof. destruct mood; unfold all_moods; set_solver. Qed.

Section MoodFacts.
Context `{PyUnicode}.

(** C10: the mood is one of the six members of [BotMood] after every
    mood-setting request, and a request whose token is not the value of
    a member is turned down with the bot left as it was: on the
    administrator command (the token is the lower-cased first argument)
    and on the mood callback (the token is the callback data without
    its [set_mood_] marker). *)
Theorem unknown_mood_rejected m data b command arg rest :
  split (text m) = command :: arg :: rest ->
  ((forall mood, lower arg <> BotMood_value mood) ->
     (cmd_admin_set_mood m b).1 = b ∧
     (from_user_id m ∈ admin_ids b ->
        (cmd_admin_set_mood m b).2 = Answer (mood_unknown_reply (lower arg)))) ∧
  ((forall mood, remove_all (py "set_mood_") data <> BotMood_value mood) ->
     _handle_mood_callback data b
       = (b, Alert (mood_unknown_alert (remove_all (py "set_mood_") data)))) ∧
  (forall mood, from_user_id m ∈ admin_ids b -> lower arg = BotMood_value mood ->
     cmd_admin_set_mood m b = (set_mood mood b, Answer (mood_changed_reply mood))) ∧
  (forall mood, remove_all (py "set_mood_") data = BotMood_value mood ->
     _handle_mood_callback data b = (set_mood mood b, Edited (mood_changed_reply mood))) ∧
  current_mood (cmd_admin_set_mood m b).1 ∈ all_moods ∧
  current_mood (_handle_mood_callback data b).1 ∈ all_moods.
Proof.
  intros Hs. split_and!.
  - intros Hno. apply BotMood_of_value_None in Hno.
    unfold cmd_admin_set_mood. rewrite Hs. simpl. rewrite Hno.
    case_bool_decide; simpl; [done|]. split; [done|]. intros; done.
  - intros Hno. apply BotMood_of_value_None in Hno.
    unfold _handle_mood_callback. by rewrite Hno.
  - intros mood Hadmin Hv. apply BotMood_of_value_Some in Hv.
    unfold cmd_admin_set_mood. rewrite Hs. simpl. rewrite Hv.
    by rewrite bool_decide_eq_false_2 by (by intros ?).
  - intros mood Hv. apply BotMood_of_value_Some in Hv.
    unfold _handle_mood_callback. by rewrite Hv.
  - apply all_moods_complete.
  - apply all_moods_complete.
Qed.
End MoodFacts.

(** Administrator 1 sends [/set_mood bogus], and the callback data
    [set_mood_bogus] arrives: the mood stays neutral. *)
Lemma unknown_mood_rejected_witness :
  split (text (message_of 1 "/set_mood bogus")) = [py "/set_mood"; py "bogus"] ∧
  BotMood_of_value (lower (py "bogus")) = None ∧
  BotMood_of_value (remove_all (py "set_mood_") (py "set_mood_bogus")) = None ∧
  (cmd_admin_set_mood (message_of 1 "/set_mood bogus") sample_bot).1 = sample_bot ∧
  (_handle_mood_callback (py "set_mood_bogus") sample_bot).1 = sample_bot.
Proof.
  assert (H1 : split (text (message_of 1 "/set_mood bogus"))
               = [py "/set_mood"; py "bogus"]) by (vm_compute; reflexivity).
  assert (H2 : BotMood_of_value (lower (py "bogus")) = None) by (vm_compute; reflexivity).
  assert (H3 : BotMood_of_value (remove_all (py "set_mood_") (py "set_mood_bogus")) = None)
    by (vm_compute; reflexivity).
  split_and!; [exact H1 | exact H2 | exact H3 | |].
  - exact (proj1 (proj1 (unknown_mood_rejected (message_of 1 "/set_mood bogus")
                           (py "set_mood_bogus") sample_bot _ _ _ H1)
                    (proj1 (BotMood_of_value_None _) H2))).
  - exact (f_equal fst
             (proj1 (proj2 (unknown_mood_rejected (message_of 1 "/set_mood bogus")
                              (py "set_mood_bogus") sample_bot _ _ _ H1))
                (proj1 (BotMood_of_value_None _) H3))).
Defined.

(** ** Hangman *)

(** The word as the list of its one-character strings. *)
Definition letters (w : pystr) : list pystr := (fun c => [c]) <$> w.

(** The cells of a word when the letters [used] have been tried: a
    position shows its letter exactly when that letter has been tried. *)
Definition cells (used : list pystr) (w : pystr) : list pystr :=
  (fun c => if decide ([c] ∈ used) then [c] else py "_") <$> w.

(** The cells after [letter] is tried: every position holding it shows
    it, the others are as before. *)
Definition reveal (w : pystr) (letter : pystr) (guessed : list pystr) : list pystr :=
  zip_with (fun c s => if decide ([c] = letter) then letter else s) w guessed.

(** The sessions the handler builds: cells as above with a blank left,
    1 to 6 attempts left, no underscore in the word. *)
Definition hangman_ok (g : hangman_game) : bool :=
  bool_decide (guessed g = cells (used_letters g) (word g))
  && bool_decide (py "_" ∈ guessed g)
  && bool_decide (1 <= attempts g <= 6)
  && bool_decide (95%N ∉ word g).

Lemma startswith_single (x : N) (s : pystr) :
  startswith s [x] = true <-> exists s', s = x :: s'.
Proof.
  destruct s as [|c s]; simpl.
  - split; [done|]. intros [s' Hs]. done.
  - case_decide; subst.
    + split; eauto. intros _. destruct s; done.
    + split; [done|]. intros [s' [= -> _]]. done.
Qed.

Lemma contains_single (x : N) (w : pystr) : contains [x] w = true <-> x ∈ w.
Proof.
  induction w as [|c w IH].
  - simpl. split; [done|]. by intros ?%elem_of_nil.
  - cbn [contains]. rewrite orb_true_iff, IH, startswith_single, elem_of_cons.
    split.
    + intros [[s' [= -> _]]|?]; auto.
    + intros [->|?]; eauto.
Qed.

Lemma elem_of_letters (x : N) (w : pystr) : [x] ∈ letters w <-> x ∈ w.
Proof.
  unfold letters. rewrite list_elem_of_fmap. split.
  - by intros (c & [= ->] & Hc).
  - intros Hx. by exists x.
Qed.

Lemma reveal_from_reveal (w letter : pystr) (pre suf : list pystr) :
  length suf = length w ->
  reveal_from (length pre) w letter (pre ++ suf) = (pre ++ reveal w letter suf, true).
Proof.
  revert pre suf. induction w as [|c w IH]; intros pre suf Hlen.
  - by destruct suf.
  - destruct suf as [|s suf]; [done|]. simpl in Hlen. injection Hlen as Hlen.
    cbn [reveal_from reveal zip_with]. case_decide as Hc.
    + rewrite decide_True by (rewrite length_app; simpl; lia).
      replace (<[length pre := letter]> (pre ++ s :: suf)) with ((pre ++ [letter]) ++ suf).
      2:{ rewrite insert_app_r_alt, Nat.sub_diag by lia. simpl. by rewrite <- app_assoc. }
      replace (S (length pre)) with (length (pre ++ [letter]))
        by (rewrite length_app; simpl; lia).
      rewrite IH by done. by rewrite <- app_assoc.
    + replace (pre ++ s :: suf) with ((pre ++ [s]) ++ suf) by (by rewrite <- app_assoc).
      replace (S (length pre)) with (length (pre ++ [s]))
        by (rewrite length_app; simpl; lia).
      rewrite IH by done. by rewrite <- app_assoc.
Qed.

Lemma reveal_from_0 (w letter : pystr) (guessed : list pystr) :
  length guessed = length w ->
  reveal_from 0 w letter guessed = (reveal w letter guessed, true).
Proof. intros Hlen. exact (reveal_from_reveal w letter [] guessed Hlen). Qed.

Lemma reveal_absent (w letter : pystr) (guessed : list pystr) :
  length guessed = length w -> letter ∉ letters w -> reveal w letter guessed = guessed.
Proof.
  revert guessed. induction w as [|c w IH]; intros [|s guessed] Hlen Hno; try done.
  cbn [reveal zip_with]. unfold letters in Hno. rewrite fmap_cons, not_elem_of_cons in Hno.
  destruct Hno as [Hc Hno]. rewrite decide_False by done. f_equal.
  apply IH; [by injection Hlen|done].
Qed.

Lemma reveal_cells (w : pystr) (x : N) (used used' : list pystr) :
  (forall y, y ∈ used' <-> y = [x] ∨ y ∈ used) ->
  reveal w [x] (cells used w) = cells used' w.
Proof.
  intros Hused. induction w as [|c w IH]; [done|].
  unfold reveal, cells in *. cbn [fmap list_fmap zip_with]. f_equal; [|apply IH].
  case_decide as Hc.
  - rewrite decide_True; [done|]. apply Hused. by left.
  - destruct (decide ([c] ∈ used)) as [Hin|Hout].
    + rewrite decide_True; [done|]. apply Hused. by right.
    + rewrite decide_False; [done|]. rewrite Hused. by intros [?|?].
Qed.

Lemma cells_complete (used : list pystr) (w : pystr) :
  95%N ∉ w -> py "_" ∉ cells used w <-> cells used w = letters w.
Proof.
  intros Hw. induction w as [|c w IH]; [split; [done|intros _; apply not_elem_of_nil]|].
  apply not_elem_of_cons in Hw as [Hc Hw].
  unfold cells, letters in *. rewrite !fmap_cons, not_elem_of_cons, (IH Hw).
  case_decide.
  - split; [intros [_ ->]; done|]. intros [= Heq]. split; [|done].
    intros [= ?]. done.
  - split; [by intros [? _]|]. intros [= Heq _]. by destruct Hc.
Qed.

Section HangmanFacts.
Context `{PyUnicode}.

(** A new session satisfies [hangman_ok]. *)
Lemma hangman_ok_start w :
  w ∈ hangman_words ->
  hangman_ok {| word := w; guessed := replicate (length w) (py "_");
                attempts := 6; used_letters := [] |} = true.
Proof.
  unfold hangman_words. rewrite !elem_of_cons, elem_of_nil.
  intros [->|[->|[->|[]]]]; by vm_compute.
Qed.

(** The picture exists for 5 to 8 attempts left only. *)
Lemma _draw_hangman_defined a : is_Some (_draw_hangman a) <-> 5 <= a <= 8.
Proof.
  unfold _draw_hangman, py_index. change (length hangman_stages) with 2%nat.
  destruct (Z.ltb_spec (6 - a) 0).
  - destruct (Z.leb_spec (- (6 - a)) (Z.of_nat 2)).
    + rewrite lookup_lt_is_Some. change (length hangman_stages) with 2%nat. lia.
    + split; [by intros [? ?]|lia].
  - rewrite lookup_lt_is_Some. change (length hangman_stages) with 2%nat. lia.
Qed.

(** C4: a turn of an open hangman session.  A token that is not one
    letter, or a letter tried before, changes nothing.  A new letter is
    a hit when it occurs in the word and a miss otherwise; the attempts
    left go down, by one, exactly on a miss, and every position holding
    the letter is shown.  The session is deleted, with a reply showing
    the word, exactly when no position is blank any more or no attempt
    is left; otherwise it is stored with the new cells, attempts and
    tried letters. *)
Theorem hangman_bookkeeping rnd m b g command token rest :
  let game_id := str_of_Z (from_user_id m) ++ py "_hangman" in
  let letter := lower token in
  let result := cmd_game_hangman rnd m b in
  active_games b !! game_id = Some (GHangman g) ->
  hangman_ok g = true ->
  split (text m) = command :: token :: rest ->
  (length letter <> 1%nat ∨ isalpha letter = false ∨ letter ∈ used_letters g ->
     result.1 = b) ∧
  (length letter = 1%nat -> isalpha letter = true -> letter ∉ used_letters g ->
     let guessed' := reveal (word g) letter (guessed g) in
     let attempts' :=
       if decide (letter ∈ letters (word g)) then attempts g else attempts g - 1 in
     let used' := elements ({[letter]} ∪ list_to_set (used_letters g) : gset pystr) in
     (attempts' < attempts g <-> letter ∉ letters (word g)) ∧
     (letter ∉ letters (word g) -> guessed' = guessed g) ∧
     (forall x, x ∈ used' <-> x = letter ∨ x ∈ used_letters g) ∧
     (guessed' = letters (word g) ∨ attempts' = 0 ->
        result.1 = set_active_games (delete game_id) b ∧
        exists reply, result.2 = Answer reply ∧ discloses (word g) reply) ∧
     (guessed' <> letters (word g) -> attempts' <> 0 ->
        let g' := {| word := word g; guessed := guessed'; attempts := attempts';
                     used_letters := used' |} in
        result.1 = set_active_games <[game_id := GHangman g']> b ∧
        hangman_ok g' = true)).
Proof.
  intros game_id letter result Hg Hok Hs.
  unfold hangman_ok in Hok. rewrite !andb_true_iff, !bool_decide_eq_true in Hok.
  destruct Hok as [[[Hcells Hblank] Hatt] Hword].
  subst result. unfold cmd_game_hangman. fold game_id. rewrite Hg, Hs. fold letter.
  split.
  - intros Hrej.
    destruct (bool_decide (length letter ≠ 1%nat) || negb (isalpha letter)) eqn:Hv;
      [done|].
    apply orb_false_iff in Hv as [Hlen Halpha].
    apply bool_decide_eq_false in Hlen. apply negb_false_iff in Halpha.
    destruct Hrej as [?|[?|Hin]]; [done|congruence|].
    rewrite bool_decide_eq_true_2; [done|]. by apply elem_of_list_to_set.
  - intros Hlen Halpha Hnew.
    set (guessed' := reveal (word g) letter (guessed g)).
    set (attempts' := if decide (letter ∈ letters (word g)) then attempts g
                      else attempts g - 1).
    set (used' := elements ({[letter]} ∪ list_to_set (used_letters g) : gset pystr)).
    clearbody letter. destruct letter as [|x [|? ?]]; try done. clear Hlen.
    assert (Hused : forall y, y ∈ used' <-> y = [x] ∨ y ∈ used_letters g).
    { intros y. unfold used'.
      rewrite elem_of_elements, elem_of_union, elem_of_singleton, elem_of_list_to_set.
      done. }
    assert (Hlen : length (guessed g) = length (word g)).
    { rewrite Hcells. unfold cells. by rewrite length_fmap. }
    assert (Hg' : guessed' = cells used' (word g)).
    { unfold guessed'. rewrite Hcells. by apply reveal_cells. }
    assert (Hmiss : [x] ∉ letters (word g) -> guessed' = guessed g).
    { intros Hno. unfold guessed'. by apply reveal_absent. }
    split_and!.
    + unfold attempts'. case_decide; split; intros; try done; lia.
    + done.
    + done.
    + intros Hend.
      rewrite (bool_decide_eq_false_2 (length [x] ≠ 1%nat)) by (intros Hc; by apply Hc).
      rewrite Halpha. simpl.
      rewrite bool_decide_eq_false_2 by (by rewrite elem_of_list_to_set).
      destruct (contains [x] (word g)) eqn:Hhit.
      * apply contains_single, elem_of_letters in Hhit.
        rewrite (reveal_from_0 (word g) [x] (guessed g) Hlen). simpl.
        fold guessed'. unfold attempts' in Hend. rewrite decide_True in Hend by done.
        destruct Hend as [Hall|Hzero]; [|lia].
        rewrite bool_decide_eq_true_2.
        2:{ rewrite Hg'. apply cells_complete; [done|]. by rewrite <- Hg'. }
        split; [done|]. eexists. split; [done|].
        unfold hangman_win_reply. auto 10 with disclose.
      * assert (Hno : [x] ∉ letters (word g)).
        { rewrite elem_of_letters, <- contains_single. congruence. }
        simpl. unfold attempts' in Hend. rewrite decide_False in Hend by done.
        rewrite bool_decide_eq_false_2 by (by intros ?).
        destruct Hend as [Hall|Hzero].
        { exfalso. rewrite (Hmiss Hno) in Hall. rewrite Hcells in Hblank, Hall.
          revert Hblank. by apply cells_complete. }
        assert ((attempts g - 1 <=? 0) = true) as -> by (apply Z.leb_le; lia).
        split; [done|]. eexists. split; [done|].
        unfold hangman_loss_reply. auto 10 with disclose.
    + intros Hopen Hleft.
      rewrite (bool_decide_eq_false_2 (length [x] ≠ 1%nat)) by (intros Hc; by apply Hc).
      rewrite Halpha. simpl.
      rewrite bool_decide_eq_false_2 by (by rewrite elem_of_list_to_set).
      assert (Hstill : py "_" ∈ guessed').
      { destruct (decide (py "_" ∈ guessed')) as [?|Hno]; [done|]. exfalso.
        apply Hopen. rewrite Hg' in Hno |- *. by apply cells_complete. }
      assert (Hok' : hangman_ok {| word := word g; guessed := guessed';
                                   attempts := attempts'; used_letters := used' |}
                     = true).
      { unfold hangman_ok. cbn [word guessed attempts used_letters].
        rewrite !andb_true_iff, !bool_decide_eq_true.
        split_and!; try done; unfold attempts' in *; case_decide; lia. }
      destruct (contains [x] (word g)) eqn:Hhit.
      * apply contains_single, elem_of_letters in Hhit.
        rewrite (reveal_from_0 (word g) [x] (guessed g) Hlen). simpl.
        fold guessed'. unfold attempts' in *. rewrite decide_True in * by done.
        rewrite bool_decide_eq_false_2 by (by intros Hno; apply Hno).
        assert ((attempts g <=? 0) = false) as -> by (apply Z.leb_gt; lia).
        split; [|done]. fold used'. by destruct (_draw_hangman (attempts g)).
      * assert (Hno : [x] ∉ letters (word g)).
        { rewrite elem_of_letters, <- contains_single. congruence. }
        simpl. unfold attempts' in *. rewrite decide_False in * by done.
        rewrite <- (Hmiss Hno).
        rewrite bool_decide_eq_false_2 by (by intros Hn; apply Hn).
        assert ((attempts g - 1 <=? 0) = false) as -> by (apply Z.leb_gt; lia).
        split; [|done]. fold used'. by destruct (_draw_hangman (attempts g - 1)).
Qed.
End HangmanFacts.

(** User 7 holds a new session on the word [изида]. *)
Definition hangman_sample : bot :=
  (cmd_game_hangman 2 (message_of 7 "/hangman") sample_bot).1.

Definition hangman_sample_game : hangman_game :=
  {| word := py "изида"; guessed := replicate 5 (py "_"); attempts := 6;
     used_letters := [] |}.

(** The letter [и] is tried on it: a hit at the first and third position. *)
Lemma hangman_bookkeeping_witness :
  active_games hangman_sample !! py "7_hangman" = Some (GHangman hangman_sample_game) ∧
  hangman_ok hangman_sample_game = true ∧
  split (text (message_of 7 "/hangman и")) = [py "/hangman"; py "и"] ∧
  (cmd_game_hangman 0 (message_of 7 "/hangman и") hangman_sample).1
    = set_active_games
        <[py "7_hangman" :=
            GHangman {| word := py "изида";
                        guessed := [py "и"; py "_"; py "и"; py "_"; py "_"];
                        attempts := 6;
                        used_letters := [py "и"] |}]> hangman_sample.
Proof.
  assert (H1 : active_games hangman_sample !! (str_of_Z 7 ++ py "_hangman")
               = Some (GHangman hangman_sample_game)) by (vm_compute; reflexivity).
  assert (H2 : hangman_ok hangman_sample_game = true) by (vm_compute; reflexivity).
  assert (H3 : split (text (message_of 7 "/hangman и")) = [py "/hangman"; py "и"])
    by (vm_compute; reflexivity).
  split_and!; [exact H1 | exact H2 | exact H3 |].
  destruct (hangman_bookkeeping 0 (message_of 7 "/hangman и") hangman_sample
              hangman_sample_game (py "/hangman") (py "и") [] H1 H2 H3) as [_ Hnew].
  destruct Hnew as (_ & _ & _ & _ & Hopen).
  - vm_compute; reflexivity.
  - vm_compute; reflexivity.
  - vm_compute. intros Hin. inversion Hin.
  - destruct Hopen as [Hstate _].
    + vm_compute. discriminate.
    + vm_compute. discriminate.
    + rewrite Hstate. vm_compute. reflexivity.
Defined.

(** C5, at the second miss of a session: user 7 has tried [я] on the word
    [изида], 5 attempts are left, and [ю] is tried.  The session is stored
    with 4 attempts left and the handler raises [IndexError] instead of
    replying, because [stages] has two pictures only and [stages[6 - 4]]
    does not exist; the same holds for every count from 1 to 4. *)
Theorem hangman_second_miss_raises :
  let b2 := (cmd_game_hangman 0 (message_of 7 "/hangman я") hangman_sample).1 in
  let after_first :=
    {| word := py "изида"; guessed := replicate 5 (py "_"); attempts := 5;
       used_letters := [py "я"] |} in
  let after_second :=
    {| word := py "изида"; guessed := replicate 5 (py "_"); attempts := 4;
       used_letters := [py "я"; py "ю"] |} in
  active_games b2 !! py "7_hangman" = Some (GHangman after_first) ∧
  hangman_ok after_first = true ∧
  cmd_game_hangman 0 (message_of 7 "/hangman ю") b2
    = (set_active_games <[py "7_hangman" := GHangman after_second]> b2,
       Raised IndexError) ∧
  (forall attempts, 1 <= attempts <= 4 -> _draw_hangman attempts = None).
Proof.
  split_and!; [vm_compute; reflexivity..|].
  intros attempts Hr. apply eq_None_not_Some. rewrite _draw_hangman_defined. lia.
Qed.

(** ** City chain *)

(** All cities of the bot's table. *)
Definition db_cities : list pystr := concat (cities_db.*2).

(** What holds of a stored city-chain session: no city is listed twice,
    and the city to continue from is listed and has a last letter. *)
Definition cities_ok (g : game) : Prop :=
  exists c, g = GCities c ∧ NoDup (used_cities c)
            ∧ last_city c ∈ used_cities c ∧ last_city c ≠ [].

Lemma dict_get_cities_db (letter : pystr) :
  dict_get letter cities_db =
    if decide (letter = py "а") then Some [py "архангельск"; py "астрахань"]
    else if decide (letter = py "м") then Some [py "москва"; py "мурманск"]
    else None.
Proof. unfold cities_db, dict_get. repeat case_decide; congruence. Qed.

Lemma db_cities_eq :
  db_cities = [py "архангельск"; py "астрахань"; py "москва"; py "мурманск"].
Proof. reflexivity. Qed.

Section CitiesFacts.
Context `{PyUnicode}.

Lemma _find_city_Some letter used next :
  _find_city letter used = Some next ->
  next ∈ db_cities ∧ str_at next 0 = Some letter ∧ (next ∉ used) ∧ next ≠ [].
Proof.
  unfold _find_city. rewrite dict_get_cities_db.
  repeat case_decide; subst; [| |done];
    intros Hf; apply find_some in Hf as [Hin Hout];
    apply bool_decide_eq_true in Hout;
    apply list_elem_of_In in Hin; rewrite !elem_of_cons, elem_of_nil in Hin;
    destruct Hin as [->|[->|[]]]; split_and!; try done;
    rewrite db_cities_eq, !elem_of_cons; tauto.
Qed.

Lemma _find_city_None letter used :
  _find_city letter used = None <->
  forall city, city ∈ db_cities -> str_at city 0 = Some letter -> city ∈ used.
Proof.
  split.
  - intros Hnone city Hin Hfirst.
    destruct (decide (city ∈ used)) as [?|Hout]; [done|]. exfalso.
    unfold _find_city in Hnone. rewrite dict_get_cities_db in Hnone.
    rewrite db_cities_eq, !elem_of_cons, elem_of_nil in Hin.
    assert (Hcase : (letter = py "а" ∧ (city = py "архангельск" ∨ city = py "астрахань"))
                    ∨ (letter = py "м" ∧ (city = py "москва" ∨ city = py "мурманск"))).
    { destruct Hin as [->|[->|[->|[->|[]]]]]; injection Hfirst as <-; tauto. }
    destruct Hcase as [[-> Hcity]|[-> Hcity]].
    + rewrite decide_True in Hnone by done.
      assert (Hin' : In city [py "архангельск"; py "астрахань"])
        by (apply list_elem_of_In; rewrite !elem_of_cons; tauto).
      apply (find_none _ _ Hnone) in Hin'. by apply bool_decide_eq_false in Hin'.
    + rewrite decide_False, decide_True in Hnone by done.
      assert (Hin' : In city [py "москва"; py "мурманск"])
        by (apply list_elem_of_In; rewrite !elem_of_cons; tauto).
      apply (find_none _ _ Hnone) in Hin'. by apply bool_decide_eq_false in Hin'.
  - intros Hall. destruct (_find_city letter used) as [next|] eqn:Hf; [|done].
    apply _find_city_Some in Hf as (Hin & Hfirst & Hout & _).
    exfalso. apply Hout. by apply Hall.
Qed.

(** A new session satisfies [cities_ok]. *)
Lemma cities_start_ok rnd game_id b g :
  active_games (cities_start rnd game_id b).1 !! game_id = Some g -> cities_ok g.
Proof.
  destruct (cities_start_fresh rnd game_id b) as (first & reply & Hfirst & ->).
  simpl. rewrite lookup_insert_eq. intros [= <-]. eexists. split; [done|]. simpl.
  split_and!.
  - apply NoDup_singleton.
  - rewrite elem_of_cons. by left.
  - rewrite !elem_of_cons, elem_of_nil in Hfirst. by destruct Hfirst as [->|[->|[]]].
Qed.

Lemma split_go_nonempty cur s t : t ∈ split_go cur s -> t ≠ [].
Proof.
  revert cur. induction s as [|c s IH]; intros cur; simpl.
  - destruct cur as [|a cur]; [by intros ?%elem_of_nil|].
    rewrite elem_of_cons, elem_of_nil. intros [->|[]]. simpl.
    intros Hnil. by apply app_eq_nil in Hnil as [_ ?].
  - destruct (isspace c); [|apply IH].
    destruct cur as [|a cur]; [apply IH|].
    rewrite elem_of_cons. intros [->|Hin]; [|by eapply IH].
    simpl. intros Hnil. by apply app_eq_nil in Hnil as [_ ?].
Qed.

Lemma split_nonempty s t : t ∈ split s -> t ≠ [].
Proof. apply split_go_nonempty. Qed.

Lemma second_token_split m command token rest :
  split (text m) = command :: token :: rest ->
  second_token m = token ∧ token ≠ [].
Proof.
  intros Hs. unfold second_token. rewrite Hs. split; [done|].
  apply (split_nonempty (text m)). rewrite Hs, !elem_of_cons. tauto.
Qed.
End CitiesFacts.

Lemma str_at_first (s : pystr) : s ≠ [] -> is_Some (str_at s 0).
Proof. by destruct s; [|eexists]. Qed.

Lemma str_at_last (s : pystr) : s ≠ [] -> is_Some (str_at s (-1)).
Proof.
  intros Hs. unfold str_at, py_index. simpl.
  assert (0 < length s)%nat by (destruct s; [done|simpl; lia]).
  rewrite (proj2 (Z.leb_le _ _)) by lia.
  destruct (lookup_lt_is_Some_2 s (Z.to_nat (Z.of_nat (length s) + -1))) as [c ->]; [lia|].
  by eexists.
Qed.

Section CitiesChain.
Context `{PyUnicode}.

(** The branches of a move, on a session that has a city to continue
    from. *)
Lemma cities_move rnd m b c command token rest :
  let game_id := str_of_Z (from_user_id m) ++ py "_cities" in
  let city := lower token in
  let used1 : gset pystr := {[city]} ∪ list_to_set (used_cities c) in
  active_games b !! game_id = Some (GCities c) ->
  last_city c ≠ [] ->
  split (text m) = command :: token :: rest ->
  exists first last required,
    str_at city 0 = Some first ∧ str_at (last_city c) (-1) = Some last ∧
    str_at city (-1) = Some required ∧
    cmd_game_cities rnd m b =
      if decide (city ∈ used_cities c) then (b, Answer cities_repeat_reply)
      else if decide (first ≠ last) then (b, Answer (cities_letter_reply (upper last)))
      else match _find_city required used1 with
           | Some next =>
               (set_active_games
                  <[game_id := GCities {| last_city := next;
                                          used_cities := elements ({[next]} ∪ used1);
                                          player_turn := false |}]> b,
                Answer (cities_next_reply token (capitalize next)
                          (upper (default [] (str_at next (-1))))))
           | None =>
               (set_active_games (delete game_id) b, Answer (cities_win_reply token))
           end.
Proof.
  intros game_id city used1 Hg Hlast Hs.
  destruct (second_token_split m _ _ _ Hs) as [Htok Hne].
  assert (Hcity : city ≠ []) by (by apply lower_nonempty).
  destruct (str_at_first city Hcity) as [first Hfirst].
  destruct (str_at_last city Hcity) as [required Hreq].
  destruct (str_at_last (last_city c) Hlast) as [last Hl].
  exists first, last, required. split_and!; try done.
  unfold cmd_game_cities. fold game_id. rewrite Hg, Htok. simpl.
  rewrite bool_decide_eq_true_2 by done. fold city.
  destruct (decide (city ∈ used_cities c)) as [Hin|Hout].
  { rewrite bool_decide_eq_true_2; [done|]. by apply elem_of_list_to_set. }
  rewrite bool_decide_eq_false_2 by (by rewrite elem_of_list_to_set).
  destruct (last_city c) as [|l0 ls] eqn:Hlc; [done|].
  rewrite Hfirst, Hl, Hreq. fold used1.
  destruct (decide (first ≠ last)) as [Hd|Hd].
  { by rewrite bool_decide_eq_true_2. }
  rewrite bool_decide_eq_false_2 by done.
  destruct (_find_city required used1) as [next|] eqn:Hf; [|done].
  apply _find_city_Some in Hf as (_ & _ & _ & Hnext).
  destruct (str_at_last next Hnext) as [l ->].
  by destruct next.
Qed.

(** The moves of one user, with the draw used by each. *)
Fixpoint cities_run (user_id : Z) (steps : list (nat * pystr)) (b : bot) : bot :=
  match steps with
  | [] => b
  | (rnd, t) :: rest =>
      cities_run user_id rest
        (cmd_game_cities rnd
           {| from_user_id := user_id; full_name := []; from_username := None;
              text := t |} b).1
  end.

Lemma cities_step_ok rnd m b :
  let game_id := str_of_Z (from_user_id m) ++ py "_cities" in
  (forall g, active_games b !! game_id = Some g -> cities_ok g) ->
  forall g, active_games (cmd_game_cities rnd m b).1 !! game_id = Some g -> cities_ok g.
Proof.
  intros game_id Hinv.
  destruct (active_games b !! game_id) as [g0|] eqn:Hg.
  2:{ unfold cmd_game_cities. fold game_id. rewrite Hg. apply cities_start_ok. }
  destruct (Hinv g0 eq_refl) as (c & -> & Hnd & Hin & Hlast).
  destruct (split (text m)) as [|command [|token rest]] eqn:Hs.
  1,2: unfold cmd_game_cities, second_token; fold game_id; rewrite Hg, Hs; simpl;
       apply cities_start_ok.
  destruct (cities_move rnd m b c _ _ _ Hg Hlast Hs)
    as (first & last & required & _ & _ & _ & ->).
  fold game_id. repeat case_decide; simpl; try (by rewrite Hg; intros g [= <-]; eauto).
  destruct (_find_city _ _) as [next|] eqn:Hf; simpl.
  - rewrite lookup_insert_eq. intros g [= <-].
    apply _find_city_Some in Hf as (_ & _ & _ & Hnext).
    eexists. split; [done|]. simpl. split_and!; [apply NoDup_elements| |done].
    rewrite elem_of_elements, elem_of_union, elem_of_singleton. by left.
  - rewrite lookup_delete_eq. by intros g.
Qed.

(** C6: the city chain.  Along every sequence of moves of a user, from
    the start of a session on, the stored list of used cities has no
    city twice.  On an open session, a move naming a used city is turned
    down and changes nothing, and so is one whose first letter is not
    the last letter of the city to continue from, so the bot changes
    only on a new city with the right first letter; on such a city, if
    every city of the table that starts with its last letter is used,
    the player wins and the session is deleted, and otherwise the
    session is stored with an unused table city starting with that
    letter added. *)
Theorem cities_chain rnd0 steps user_id b0 rnd m b c command token rest :
  let start_id := str_of_Z user_id ++ py "_cities" in
  let game_id := str_of_Z (from_user_id m) ++ py "_cities" in
  let city := lower token in
  let used1 : gset pystr := {[city]} ∪ list_to_set (used_cities c) in
  let result := cmd_game_cities rnd m b in
  (forall g,
     active_games (cities_run user_id steps (cities_start rnd0 start_id b0).1) !! start_id
       = Some g ->
     cities_ok g) ∧
  (active_games b !! game_id = Some (GCities c) ->
   last_city c ≠ [] ->
   split (text m) = command :: token :: rest ->
   (city ∈ used_cities c -> result = (b, Answer cities_repeat_reply)) ∧
   (city ∉ used_cities c -> str_at city 0 ≠ str_at (last_city c) (-1) ->
      result.1 = b ∧ exists letter, result.2 = Answer (cities_letter_reply letter)) ∧
   (result.1 ≠ b ->
      (city ∉ used_cities c) ∧ str_at city 0 = str_at (last_city c) (-1)) ∧
   (city ∉ used_cities c -> str_at city 0 = str_at (last_city c) (-1) ->
      exists required,
        str_at city (-1) = Some required ∧
        ((forall next, next ∈ db_cities -> str_at next 0 = Some required -> next ∈ used1) ->
           result = (set_active_games (delete game_id) b,
                     Answer (cities_win_reply token))) ∧
        ((exists next, next ∈ db_cities ∧ str_at next 0 = Some required ∧ next ∉ used1) ->
           exists next,
             next ∈ db_cities ∧ str_at next 0 = Some required ∧ (next ∉ used1) ∧
             result.1 =
               set_active_games
                 <[game_id := GCities {| last_city := next;
                                         used_cities := elements ({[next]} ∪ used1);
                                         player_turn := false |}]> b))).
Proof.
  intros start_id game_id city used1 result. split.
  - assert (Hrun : forall steps b,
              (forall g, active_games b !! start_id = Some g -> cities_ok g) ->
              forall g, active_games (cities_run user_id steps b) !! start_id = Some g ->
                        cities_ok g).
    { clear. intros steps. induction steps as [|[rnd t] steps IH]; intros b Hinv; [done|].
      simpl. apply IH.
      exact (cities_step_ok rnd {| from_user_id := user_id; full_name := [];
                                   from_username := None; text := t |} b Hinv). }
    apply Hrun. apply cities_start_ok.
  - intros Hg Hlast Hs.
    destruct (cities_move rnd m b c _ _ _ Hg Hlast Hs)
      as (first & last & required & Hfirst & Hl & Hreq & Hres).
    fold game_id city used1 result in Hres. fold city in Hfirst, Hreq.
    rewrite Hfirst, Hl.
    split_and!.
    + intros Hin. by rewrite Hres, decide_True.
    + intros Hout Hne. rewrite Hres, decide_False, decide_True by congruence.
      split; [done|]. by eexists.
    + intros Hch. rewrite Hres in Hch.
      destruct (decide (city ∈ used_cities c)); [done|].
      destruct (decide (first ≠ last)) as [|Heq]; [done|].
      split; [done|]. f_equal. by apply dec_stable in Heq.
    + intros Hout [= Heq]. exists required. split; [done|].
      rewrite Hres, decide_False, decide_False by (by intros ?). split.
      * intros Hall. apply _find_city_None in Hall. by rewrite Hall.
      * intros (next0 & Hin0 & Hfirst0 & Hout0).
        destruct (_find_city required used1) as [next|] eqn:Hf.
        -- apply _find_city_Some in Hf as (? & ? & ? & _). by exists next.
        -- exfalso. apply Hout0. by eapply _find_city_None.
Qed.
End CitiesChain.

(** User 7 plays on a session opened with [москва], and names [анапа]. *)
Definition cities_sample : bot :=
  (cmd_game_cities 0 (message_of 7 "/cities") sample_bot).1.

Definition cities_sample_game : cities_game :=
  {| last_city := py "москва"; used_cities := [py "москва"]; player_turn := true |}.

Lemma cities_chain_witness :
  active_games cities_sample !! py "7_cities" = Some (GCities cities_sample_game) ∧
  last_city cities_sample_game ≠ [] ∧
  split (text (message_of 7 "/cities анапа")) = [py "/cities"; py "анапа"] ∧
  exists next,
    next ∈ db_cities ∧ str_at next 0 = Some (py "а") ∧
    (next ∉ ({[py "анапа"]} ∪ list_to_set [py "москва"] : gset pystr)) ∧
    (cmd_game_cities 0 (message_of 7 "/cities анапа") cities_sample).1 =
      set_active_games
        <[py "7_cities" :=
            GCities {| last_city := next;
                       used_cities :=
                         elements ({[next]} ∪ ({[py "анапа"]} ∪ list_to_set [py "москва"])
                                   : gset pystr);
                       player_turn := false |}]> cities_sample.
Proof.
  assert (H1 : active_games cities_sample !! (str_of_Z 7 ++ py "_cities")
               = Some (GCities cities_sample_game)) by (vm_compute; reflexivity).
  assert (H2 : last_city cities_sample_game ≠ []) by (vm_compute; discriminate).
  assert (H3 : split (text (message_of 7 "/cities анапа")) = [py "/cities"; py "анапа"])
    by (vm_compute; reflexivity).
  split_and!; [exact H1 | exact H2 | exact H3 |].
  destruct (proj2 (cities_chain 0 [] 7 sample_bot 0 (message_of 7 "/cities анапа")
                     cities_sample cities_sample_game (py "/cities") (py "анапа") [])
              H1 H2 H3) as (_ & _ & _ & Haccept).
  destruct Haccept as (required & Hreq & _ & Hnext).
  - apply (bool_decide_unpack _). vm_compute. exact I.
  - vm_compute. reflexivity.
  - assert (required = py "а") as ->
      by (vm_compute in Hreq; injection Hreq as <-; reflexivity).
    apply Hnext. exists (py "архангельск"). split_and!.
    + rewrite db_cities_eq, elem_of_cons. by left.
    + vm_compute. reflexivity.
    + apply (bool_decide_unpack _). vm_compute. exact I.
Defined.

(** ** Teach directive *)

Lemma startswith_spec (s p : pystr) :
  startswith s p = true <-> exists post, s = p ++ post.
Proof.
  revert s. induction p as [|a p IH]; intros s; simpl.
  - destruct s; (split; [intros _; by eexists|done]).
  - destruct s as [|c s]; simpl; [split; [done|intros [post Hp]; done]|].
    case_decide; subst.
    + rewrite IH. split; intros [post Hp]; exists post; [by rewrite Hp|by injection Hp].
    + split; [done|]. intros [post [= -> _]]. done.
Qed.

Lemma contains_spec (sub s : pystr) : contains sub s = true <-> discloses sub s.
Proof.
  induction s as [|c s IH]; cbn [contains]; rewrite orb_true_iff, startswith_spec.
  - split.
    + intros [[post Hp]|?]; [|done]. by exists [], post.
    + intros (pre & post & Hp). left. symmetry in Hp.
      apply app_eq_nil in Hp as [-> Hp]. apply app_eq_nil in Hp as [-> ->]. by exists [].
  - rewrite IH. split.
    + intros [[post Hp]|(pre & post & Hp)]; [by exists [], post|].
      exists (c :: pre), post. by rewrite Hp.
    + intros (pre & post & Hp). destruct pre as [|a pre].
      * left. by exists post.
      * right. injection Hp as -> Hp. by exists pre, post.
Qed.

Section RegexFacts.
Context `{PyUnicode} {R : Type}.

Lemma re_lit_i_Some p (k : pystr -> option R) s r :
  re_lit_i p k s = Some r -> exists pre s', s = pre ++ s' ∧ k s' = Some r.
Proof.
  revert s. induction p as [|a p IH]; intros s; simpl.
  - destruct s; intros Hk; by eexists [], _.
  - destruct s as [|c s]; [done|]. destruct (re_ieq c a); [|done].
    intros (pre & s' & -> & Hk)%IH. by exists (c :: pre), s'.
Qed.

Lemma re_lit_Some p (k : pystr -> option R) s r :
  re_lit p k s = Some r -> exists s', s = p ++ s' ∧ k s' = Some r.
Proof.
  revert s. induction p as [|a p IH]; intros s; simpl.
  - destruct s; intros Hk; by eexists.
  - destruct s as [|c s]; [done|]. case_decide; [|done]. subst.
    intros (s' & -> & Hk)%IH. by exists s'.
Qed.

Lemma re_spaces_Some (k : pystr -> option R) s r :
  re_spaces k s = Some r -> exists pre s', s = pre ++ s' ∧ k s' = Some r.
Proof.
  induction s as [|c s IH]; simpl.
  - intros Hk. by exists [], [].
  - destruct (isspace c); [|intros Hk; by exists [], (c :: s)].
    destruct (re_spaces k s) as [r'|] eqn:Hs.
    + intros [= ->]. destruct (IH eq_refl) as (pre & s' & -> & Hk).
      by exists (c :: pre), s'.
    + intros Hk. by exists [], (c :: s).
Qed.

Lemma re_spaces1_Some (k : pystr -> option R) s r :
  re_spaces1 k s = Some r -> exists pre s', s = pre ++ s' ∧ k s' = Some r.
Proof.
  destruct s as [|c s]; simpl; [done|]. destruct (isspace c); [|done].
  intros (pre & s' & -> & Hk)%re_spaces_Some. by exists (c :: pre), s'.
Qed.

Lemma re_lazy_group_Some acc (k : pystr -> pystr -> option R) s r :
  re_lazy_group acc k s = Some r ->
  exists group s', s = group ++ s' ∧ k (acc ++ group) s' = Some r.
Proof.
  revert acc. induction s as [|c s IH]; intros acc; simpl; [done|].
  destruct (k (acc ++ [c]) s) as [r'|] eqn:Hk.
  - intros [= ->]. by exists [c], s.
  - intros (group & s' & -> & Hk')%IH. exists (c :: group), s'.
    split; [done|]. by rewrite <- app_assoc in Hk'.
Qed.

Lemma re_rest_group_Some (k : pystr -> option R) s r :
  re_rest_group k s = Some r -> k s = Some r.
Proof. by destruct s. Qed.
End RegexFacts.

Section TeachFacts.
Context `{PyUnicode}.

(** A message the pattern matches contains the arrow. *)
Lemma learn_match_arrow text groups :
  learn_match text = Some groups -> discloses (py "->") text.
Proof.
  unfold learn_match.
  intros (p1 & s1 & -> & Hk)%re_lit_i_Some.
  apply re_spaces1_Some in Hk as (p2 & s2 & -> & Hk).
  apply re_lazy_group_Some in Hk as (p3 & s3 & -> & Hk).
  apply re_spaces_Some in Hk as (p4 & s4 & -> & Hk).
  apply re_lit_Some in Hk as (s5 & -> & Hk).
  exists (p1 ++ p2 ++ p3 ++ p4), s5. by rewrite <- !app_assoc.
Qed.

(** C8: the teach directive.  A message without an arrow, and any other
    message the pattern does not match, gets the format reply and leaves
    the bot as it was.  On a match, with the two groups stripped: when
    either is shorter than 2 the reply says too short, otherwise when the
    question is longer than 100 or the answer longer than 200 it says too
    long, and the bot is again left as it was; only with both lengths in
    range is the answer appended to the entry of the lower-cased
    question, and the acknowledgement shows question and answer as
    given.  The three refusals are different texts. *)
Theorem teach_directive rnd text b :
  let result := _process_learn_command rnd text b in
  (contains (py "->") text = false -> learn_match text = None) ∧
  (learn_match text = None -> result = (b, Ret learn_format_reply)) ∧
  (forall group1 group2, learn_match text = Some (group1, group2) ->
     let question := strip group1 in
     let answer := strip group2 in
     ((length question < 2 ∨ length answer < 2)%nat ->
        result = (b, Ret learn_too_short_reply)) ∧
     ((2 <= length question)%nat -> (2 <= length answer)%nat ->
      (100 < length question ∨ 200 < length answer)%nat ->
        result = (b, Ret learn_too_long_reply)) ∧
     ((2 <= length question <= 100)%nat -> (2 <= length answer <= 200)%nat ->
        exists ack,
          result = (set_learned (learn (lower question) answer) b,
                    Ret (learn_ack_reply ack question answer)) ∧
          learned_responses result.1 !! lower question
            = Some (default [] (learned_responses b !! lower question) ++ [answer]) ∧
          discloses question (learn_ack_reply ack question answer) ∧
          discloses answer (learn_ack_reply ack question answer))) ∧
  (learned_responses result.1 ≠ learned_responses b ->
     exists group1 group2,
       learn_match text = Some (group1, group2) ∧
       (2 <= length (strip group1) <= 100)%nat ∧
       (2 <= length (strip group2) <= 200)%nat) ∧
  learn_format_reply ≠ learn_too_short_reply ∧
  learn_format_reply ≠ learn_too_long_reply ∧
  learn_too_short_reply ≠ learn_too_long_reply.
Proof.
  intros result. subst result. unfold _process_learn_command. split_and!.
  - intros Hno. destruct (learn_match text) as [groups|] eqn:Hm; [|done].
    apply learn_match_arrow, contains_spec in Hm. congruence.
  - by intros ->.
  - intros group1 group2 ->. split_and!.
    + intros Hshort. rewrite (proj2 (orb_true_iff _ _)); [done|].
      rewrite !bool_decide_eq_true. done.
    + intros Hq Ha Hlong.
      rewrite (proj2 (orb_false_iff _ _))
        by (rewrite !bool_decide_eq_false; lia).
      rewrite (proj2 (orb_true_iff _ _)); [done|].
      rewrite !bool_decide_eq_true. done.
    + intros Hq Ha.
      rewrite (proj2 (orb_false_iff _ _))
        by (rewrite !bool_decide_eq_false; lia).
      rewrite (proj2 (orb_false_iff _ _))
        by (rewrite !bool_decide_eq_false; lia).
      destruct (choice_elem rnd [py "Запомнила! 🧠"; py "Окей, записала! 📝"])
        as (ack & -> & _); [done|].
      exists ack. split_and!; [done| |unfold learn_ack_reply; auto 10 with disclose..].
      simpl. unfold learn. by rewrite lookup_insert_eq.
  - destruct (learn_match text) as [[group1 group2]|] eqn:Hm; [|done].
    destruct (bool_decide (length (strip group1) < 2)%nat
              || bool_decide (length (strip group2) < 2)%nat) eqn:Hshort; [done|].
    destruct (bool_decide (100 < length (strip group1))%nat
              || bool_decide (200 < length (strip group2))%nat) eqn:Hlong; [done|].
    intros _. exists group1, group2. split; [done|].
    apply orb_false_iff in Hshort as [?%bool_decide_eq_false ?%bool_decide_eq_false].
    apply orb_false_iff in Hlong as [?%bool_decide_eq_false ?%bool_decide_eq_false].
    lia.
  - by vm_compute.
  - by vm_compute.
  - by vm_compute.
Qed.
End TeachFacts.

(** The directive [учись изида -> привет]. *)
Lemma teach_directive_witness :
  learn_match (py "учись изида -> привет") = Some (py "изида", py "привет") ∧
  (2 <= length (strip (py "изида")) <= 100)%nat ∧
  (2 <= length (strip (py "привет")) <= 200)%nat ∧
  exists ack,
    _process_learn_command 0 (py "учись изида -> привет") sample_bot
      = (set_learned (learn (lower (strip (py "изида"))) (strip (py "привет"))) sample_bot,
         Ret (learn_ack_reply ack (strip (py "изида")) (strip (py "привет")))).
Proof.
  assert (H1 : learn_match (py "учись изида -> привет") = Some (py "изида", py "привет"))
    by (vm_compute; reflexivity).
  assert (H2 : (2 <= length (strip (py "изида")) <= 100)%nat) by (vm_compute; lia).
  assert (H3 : (2 <= length (strip (py "привет")) <= 200)%nat) by (vm_compute; lia).
  split; [exact H1|]. split; [exact H2|]. split; [exact H3|].
  pose proof (proj2 (proj2 (proj1 (proj2 (proj2 (teach_directive 0
                (py "учись изида -> привет") sample_bot))) _ _ H1))) as Hok.
  destruct (Hok H2 H3) as (ack & Hres & _). by exists ack.
Defined.

(** ** Context stage of the resolver *)

Section ContextFacts.
Context `{PyUnicode}.

(** The stage answers only on a history of at least two messages, and
    the greeting cue is searched in the last stored message. *)
Lemma context_needs_history d text user_id b reply :
  _generate_context_response d text user_id b = Ret (Some reply) ->
  exists history,
    conversation_history b !! user_id = Some history ∧ (2 <= length history)%nat.
Proof.
  unfold _generate_context_response.
  destruct (conversation_history b !! user_id) as [history|]; simpl; [|done].
  case_bool_decide; [done|]. intros _. exists history. split; [done|lia].
Qed.

Lemma context_greeting_cue d text user_id b history newest :
  conversation_history b !! user_id = Some (history ++ [newest]) ->
  (1 <= length history)%nat ->
  existsb (fun q => contains q (lower newest)) greeting_cues = true ->
  exists reply,
    reply ∈ context_greeting_replies ∧
    _generate_context_response d text user_id b = Ret (Some reply).
Proof.
  intros Hh Hlen Hcue. unfold _generate_context_response. rewrite Hh.
  change (default [] (Some (history ++ [newest]))) with (history ++ [newest]).
  rewrite bool_decide_eq_false_2 by (rewrite length_app; simpl; lia).
  assert (py_index (history ++ [newest]) (-1) = Some newest) as ->.
  { unfold py_index. simpl. rewrite length_app. simpl.
    rewrite (proj2 (Z.leb_le _ _)) by lia.
    replace (Z.to_nat _) with (length history + 0)%nat by lia.
    by rewrite lookup_app_r, Nat.add_comm, Nat.add_sub by lia. }
  rewrite Hcue.
  destruct (choice_elem (pick d 0) context_greeting_replies) as (reply & -> & Hin); [done|].
  by exists reply.
Qed.
End ContextFacts.

(** Draws that always take the first candidate and never add the term of
    endearment. *)
Definition first_draws : draws := {| pick := fun _ => 0%nat; coin := false |}.

(** C3, at the two messages [как дела] and then [ок] of user 7 on a new
    bot.  When [ок] is resolved the history is [как дела; ок]: the message
    stored just before the current one holds the greeting cue, yet the
    context stage gives nothing and the reply is the neutral fallback,
    because the stage searches [history[-1]], which is the current
    message.  Conversely a current message holding the cue is answered by
    the stage whatever was said before. *)
Theorem context_cue_read_from_current_message :
  let clock := py "2025-01-01T12:00:00" in
  let step1 := handle_message first_draws clock clock (message_of 7 "как дела")
                 sample_bot empty_database in
  let b1 := step1.1.1.1 in
  let step2 := handle_message first_draws clock clock (message_of 7 "ок")
                 b1 empty_database in
  let b2 := step2.1.1.1 in
  conversation_history b2 !! py "7" = Some [py "как дела"; py "ок"] ∧
  _generate_context_response first_draws (py "ок") (py "7") b2 = Ret None ∧
  step2.1.2 = Answer (py "Интересно... расскажи ещё! 💬") ∧
  _generate_context_response first_draws (py "как дела") (py "7")
    (set_history <[py "7" := [py "ок"; py "как дела"]]> sample_bot)
    = Ret (Some (py "Спасибо, что спросил! 😊")).
Proof. vm_compute. done. Qed.

(** ** Persistence *)

Section PersistenceFacts.
Context `{PyUnicode} `{PyDatetime}.

(** An entry of [user_data] that converts into the arguments of its
    INSERT and reads back as written: its key is the decimal text of an
    identifier in BIGINT range, its message count is in INT range, and
    its timestamps are ISO texts as [isoformat] writes them. *)
Definition storable_user (user_id_str : pystr) (data : user) : bool :=
  match py_int user_id_str, fromisoformat (first_seen data),
        fromisoformat (last_active data) with
  | Some user_id, Some seen, Some active =>
      bool_decide (str_of_Z user_id = user_id_str)
      && fits_bigint user_id && fits_int (message_count data)
      && bool_decide (isoformat seen = first_seen data)
      && bool_decide (isoformat active = last_active data)
  | _, _, _ => false
  end.

Lemma str_of_Z_inj a b : str_of_Z a = str_of_Z b -> a = b.
Proof.
  intros Heq. assert (Some a = Some b) as [= ->]; [|done].
  by rewrite <- !py_int_str, Heq.
Qed.

Lemma storable_user_row k u :
  storable_user k u = true ->
  exists n seen active,
    str_of_Z n = k ∧ isoformat seen = first_seen u ∧ isoformat active = last_active u ∧
    user_to_row k u
      = Ret (n, {| row_name := name u; row_username := username u;
                   row_first_seen := seen; row_message_count := message_count u;
                   row_last_active := active |}).
Proof.
  unfold storable_user, user_to_row.
  destruct (py_int k) as [n|]; [|done].
  destruct (fromisoformat (first_seen u)) as [seen|]; [|done].
  destruct (fromisoformat (last_active u)) as [active|]; [|done].
  rewrite !andb_true_iff, !bool_decide_eq_true.
  intros [[[[Hk Hn] Hc] Hs] Ha]. exists n, seen, active.
  by rewrite Hn, Hc.
Qed.

Lemma save_users_converts items t :
  (forall k u, (k, u) ∈ items -> exists row, user_to_row k u = Ret row) ->
  exists t', save_users items t = Ret t'.
Proof.
  revert t. induction items as [|[k u] items IH]; intros t Hall; simpl.
  - by exists t.
  - destruct (Hall k u) as [[n r] ->]; [apply elem_of_cons; by left|].
    apply IH. intros k' u' Hin. apply Hall. apply elem_of_cons. by right.
Qed.



(** No save goes through, on either backend: the store is left as it
    was and an exception comes out.  With users that can all be written
    the relational save stops at its first JSONB parameter; the document
    save stops at the call of a method the class does not have. *)
Lemma save_all_data_raises b db :
  (save_all_data b db).1 = db ∧
  (save_all_data b db).2 ≠ None ∧
  (use_postgres b = true ->
   map_Forall (fun k u => storable_user k u = true) (user_data b) ->
   save_all_data b db = (db, Some DataError)) ∧
  (use_postgres b = false -> save_all_data b db = (db, Some AttributeError)).
Proof.
  unfold save_all_data. split_and!.
  - destruct (use_postgres b); [|done]. by destruct (save_users _ _).
  - destruct (use_postgres b); [|done]. by destruct (save_users _ _).
  - intros -> Hall.
    destruct (save_users_converts (map_to_list (user_data b)) (users db)) as [t' ->];
      [|done].
    intros k u Hin. apply elem_of_map_to_list in Hin.
    destruct (storable_user_row k u (Hall k u Hin)) as (n & seen & active & _ & _ & _ & ->).
    by eexists.
  - by intros ->.
Qed.
End PersistenceFacts.

(** User 7 has written [ок] at 10:00 to a new bot on the relational
    backend. *)
Definition seen_at_ten : bot :=
  (handle_message first_draws (py "2025-01-01T10:00:00") (py "2025-01-01T10:00:00")
     (message_of 7 "ок") sample_bot empty_database).1.1.1.

(** The same on the document backend. *)
Definition seen_at_ten_on_files : bot :=
  (handle_message first_draws (py "2025-01-01T10:00:00") (py "2025-01-01T10:00:00")
     (message_of 7 "ок") (new_bot [1] false (py "12:00 01.01.2025"))
     empty_database).1.1.1.

(** C2 fails at its first step: [save_all_data] never goes through.  On
    every bot and store, of whatever backend, it raises and leaves the
    store as it was, so there is nothing a later load could give back.  On the bot that has one user, whose entry can be written,
    the relational save raises [DataError] at the JSONB parameter and the
    store stays empty; the document save raises [AttributeError]. *)
Theorem save_never_commits :
  (forall `{PyUnicode} `{PyDatetime} (b : bot) (db : database),
     (save_all_data b db).1 = db ∧ (save_all_data b db).2 ≠ None) ∧
  user_data seen_at_ten !! py "7"
    = Some {| name := py "Ann"; username := None;
              first_seen := py "2025-01-01T10:00:00"; message_count := 1;
              last_active := py "2025-01-01T10:00:00" |} ∧
  map_Forall (fun k u => storable_user k u = true) (user_data seen_at_ten) ∧
  save_all_data seen_at_ten empty_database = (empty_database, Some DataError) ∧
  save_all_data seen_at_ten_on_files empty_database
    = (empty_database, Some AttributeError).
Proof.
  split_and!.
  - intros U D b db. by destruct (save_all_data_raises b db) as (? & ? & _).
  - vm_compute. reflexivity.
  - apply (bool_decide_unpack _). vm_compute. exact I.
  - vm_compute. reflexivity.
  - vm_compute. reflexivity.
Qed.

(** * Further handlers *)

(** ** Menus and callbacks *)









Section Callbacks.
Context `{PyUnicode}.


End Callbacks.

(** ** Clearing the history *)

Definition clear_reply : pystr :=
  py "История нашего разговора очищена! 🧹" ++ nl ++
  py "<i>Теперь мы можем начать с чистого листа! ✨</i>".

(** [cmd_clear].  [self.user_context] is created empty and written
    nowhere, so its branch never runs. *)
Definition cmd_clear (m : message) (b : bot) : bot * outcome :=
  let user_id := str_of_Z (from_user_id m) in
  (set_history
     (fun h => match h !! user_id with
               | Some _ => <[user_id := []]> h
               | None => h
               end) b,
   Answer clear_reply).

(** ** Administration *)

(** [sum(len(v) for v in self.learned_responses.values())] *)
Definition learned_count (b : bot) : nat :=
  map_fold (fun _ v acc => (length v + acc)%nat) 0%nat (learned_responses b).

Definition admin_text (b : bot) : pystr :=
  join nl
    [ [];
      py "<b>👑 Админ панель Изиды:</b>";
      py "<b>Команды:</b>";
      py "/admin_stats - Подробная статистика";
      py "/broadcast [сообщение] - Рассылка всем пользователям";
      py "/set_mood [настроение] - Изменить настроение бота";
      py "<b>Настроения:</b> neutral, happy, angry, flirty, sad, sarcastic";
      py "<b>Данные:</b>";
      py "• Пользователей: " ++ str_of_Z (Z.of_nat (size (user_data b)));
      py "• Активных игр: " ++ str_of_Z (Z.of_nat (size (active_games b)));
      py "• Выучено фраз: " ++ str_of_Z (Z.of_nat (learned_count b));
      py "<i>Изида служит верой и правдой! 👑</i>";
      [] ].

(** [cmd_admin] *)
Definition cmd_admin (m : message) (b : bot) : bot * outcome :=
  if bool_decide (from_user_id m ∉ admin_ids b) then (b, Answer admin_denied_reply)
  else (b, Answer (admin_text b)).

Definition broadcast_usage_reply : pystr := py "Использование: /broadcast [сообщение]".

Definition broadcast_begin_reply (users : nat) : pystr :=
  py "Начинаю рассылку для " ++ str_of_Z (Z.of_nat users) ++ py " пользователей...".

Definition broadcast_text (broadcast_message : pystr) : pystr :=
  py "<b>📢 Объявление от Изиды:</b>" ++ nl ++ broadcast_message ++ nl ++
  py "<i>С любовью, ваша Изида 💖</i>".

Definition broadcast_done_reply (success_count fail_count : Z) : pystr :=
  py "Рассылка завершена!" ++ nl ++
  py "• Успешно: " ++ str_of_Z success_count ++ nl ++
  py "• Неудачно: " ++ str_of_Z fail_count.

(** What [cmd_admin_broadcast] did: its answers to the sender, the
    messages that went out, each with its chat, and the two counters. *)
Record broadcast_report := {
  answers : list pystr;
  sent : list (Z * pystr);
  success_count : Z;
  fail_count : Z;
}.

Section Broadcast.
Context `{PyUnicode}.

(** The loop over [self.user_data.keys()].  [delivers chat] tells whether
    [send_message] to that chat goes through; a key that is not a number
    fails in [int] and is counted like a failed send. *)
Fixpoint broadcast_loop (delivers : Z -> bool) (text : pystr) (keys : list pystr)
    (acc : list (Z * pystr) * Z * Z) : list (Z * pystr) * Z * Z :=
  match keys with
  | [] => acc
  | user_id_str :: rest =>
      let '(sent, success_count, fail_count) := acc in
      match py_int user_id_str with
      | Some chat_id =>
          if delivers chat_id
          then broadcast_loop delivers text rest
                 (sent ++ [(chat_id, text)], success_count + 1, fail_count)
          else broadcast_loop delivers text rest (sent, success_count, fail_count + 1)
      | None => broadcast_loop delivers text rest (sent, success_count, fail_count + 1)
      end
  end.

(** [cmd_admin_broadcast].  The keys are taken in the order of the map,
    where Python takes them in the order the users were first seen. *)
Definition cmd_admin_broadcast (delivers : Z -> bool) (m : message) (b : bot)
  : broadcast_report :=
  if bool_decide (from_user_id m ∉ admin_ids b) then
    {| answers := [admin_denied_reply]; sent := []; success_count := 0; fail_count := 0 |}
  else
    match tail (split (text m)) with
    | [] =>
        {| answers := [broadcast_usage_reply]; sent := [];
           success_count := 0; fail_count := 0 |}
    | args =>
        let broadcast_message := join (py " ") args in
        let '(sent, success_count, fail_count) :=
          broadcast_loop delivers (broadcast_text broadcast_message)
            (map_to_list (user_data b)).*1 ([], 0, 0) in
        {| answers := [broadcast_begin_reply (size (user_data b));
                       broadcast_done_reply success_count fail_count];
           sent := sent; success_count := success_count; fail_count := fail_count |}
    end.
End Broadcast.

(** * Further properties *)

(** ** Game commands and their sessions *)

(** The four games, the ending of their session keys and their
    handlers. *)
Inductive game_kind := KCities | KHangman | KGuess | KRiddle.

Definition kind_suffix (kind : game_kind) : pystr :=
  match kind with
  | KCities => py "_cities"
  | KHangman => py "_hangman"
  | KGuess => py "_guess"
  | KRiddle => py "_riddle"
  end.

Definition game_command `{PyUnicode} (kind : game_kind)
  : nat -> message -> bot -> bot * outcome :=
  match kind with
  | KCities => cmd_game_cities
  | KHangman => cmd_game_hangman
  | KGuess => cmd_game_guess
  | KRiddle => cmd_game_riddle
  end.

(** [b'] is [b] but for the session under [game_id]; [counted] tells
    whether a game was counted. *)
Definition session_step (game_id : pystr) (counted : bool) (b b' : bot) : Prop :=
  (forall key, key ≠ game_id -> active_games b' !! key = active_games b !! key) ∧
  admin_ids b' = admin_ids b ∧
  use_postgres b' = use_postgres b ∧
  learned_responses b' = learned_responses b ∧
  user_data b' = user_data b ∧
  conversation_history b' = conversation_history b ∧
  current_mood b' = current_mood b ∧
  response_patterns b' = response_patterns b ∧
  total_messages (stats b') = total_messages (stats b) ∧
  unique_users (stats b') = unique_users (stats b) ∧
  commands_used (stats b') = commands_used (stats b) ∧
  games_played (stats b') = games_played (stats b) + (if counted then 1 else 0).

Lemma session_step_refl game_id b : session_step game_id false b b.
Proof. unfold session_step. split_and!; try done. lia. Qed.

Lemma session_step_insert game_id g b :
  session_step game_id false b (set_active_games <[game_id := g]> b).
Proof.
  unfold session_step. split_and!; try done; simpl; [|lia].
  intros key Hkey. by rewrite lookup_insert_ne.
Qed.

Lemma session_step_delete game_id b :
  session_step game_id false b (set_active_games (delete game_id) b).
Proof.
  unfold session_step. split_and!; try done; simpl; [|lia].
  intros key Hkey. by rewrite lookup_delete_ne.
Qed.

Lemma session_step_count game_id b b1 :
  session_step game_id false b b1 -> session_step game_id true b (set_stats count_game b1).
Proof.
  unfold session_step. intros (?&?&?&?&?&?&?&?&?&?&?&?).
  split_and!; try done. simpl. lia.
Qed.

Create HintDb session.
#[export] Hint Resolve session_step_refl session_step_insert session_step_delete
  session_step_count : session.

Ltac session_cases :=
  repeat (first [ progress simpl | case_match | case_bool_decide | case_decide ]);
  eauto with session.

Section SessionFrame.
Context `{PyUnicode}.

Lemma join_nonempty (token : pystr) (rest : list pystr) :
  token ≠ [] -> join (py " ") (token :: rest) ≠ [].
Proof. destruct token; [done|]. by destruct rest. Qed.

(** The frame of a game command, with the case in which a game is
    counted. *)
Lemma game_command_frame kind rnd m b :
  let game_id := str_of_Z (from_user_id m) ++ kind_suffix kind in
  let opens :=
    bool_decide (active_games b !! game_id = None
                 ∨ (length (split (text m)) <= 1)%nat) in
  session_step game_id opens b (game_command kind rnd m b).1.
Proof.
  intros game_id opens. subst game_id opens.
  destruct (active_games b !! (str_of_Z (from_user_id m) ++ kind_suffix kind))
    as [g|] eqn:Hg.
  2:{ rewrite bool_decide_eq_true_2 by (by left).
      destruct kind; simpl in *.
      - unfold cmd_game_cities. rewrite Hg.
        destruct (cities_start_fresh rnd (str_of_Z (from_user_id m) ++ py "_cities") b)
          as (? & ? & _ & ->). eauto with session.
      - unfold cmd_game_hangman. rewrite Hg.
        destruct (hangman_start_fresh rnd (str_of_Z (from_user_id m) ++ py "_hangman") b)
          as (? & ? & _ & ->). eauto with session.
      - unfold cmd_game_guess, guess_start. rewrite Hg. eauto with session.
      - unfold cmd_game_riddle. rewrite Hg.
        destruct (riddle_start_fresh rnd (str_of_Z (from_user_id m) ++ py "_riddle") b)
          as (? & _ & ->). eauto with session. }
  destruct (split (text m)) as [|command [|token rest]] eqn:Hs.
  1,2: rewrite bool_decide_eq_true_2 by (right; simpl; lia);
       destruct kind; simpl in *;
       [ unfold cmd_game_cities, second_token; rewrite Hg, Hs; simpl;
         destruct (cities_start_fresh rnd (str_of_Z (from_user_id m) ++ py "_cities") b)
           as (? & ? & _ & ->)
       | unfold cmd_game_hangman; rewrite Hg, Hs;
         destruct (hangman_start_fresh rnd (str_of_Z (from_user_id m) ++ py "_hangman") b)
           as (? & ? & _ & ->)
       | unfold cmd_game_guess, guess_start; rewrite Hg, Hs
       | unfold cmd_game_riddle; rewrite Hg, Hs; simpl;
         destruct (riddle_start_fresh rnd (str_of_Z (from_user_id m) ++ py "_riddle") b)
           as (? & _ & ->) ];
       eauto with session.
  rewrite bool_decide_eq_false_2 by (simpl; intros [?|?]; [done|lia]).
  destruct (second_token_split m _ _ _ Hs) as [Htok Hne].
  destruct kind; simpl in *.
  - unfold cmd_game_cities. rewrite Hg, Htok.
    rewrite bool_decide_eq_true_2 by done. session_cases.
  - unfold cmd_game_hangman. rewrite Hg, Hs. session_cases.
  - unfold cmd_game_guess. rewrite Hg, Hs. session_cases.
  - unfold cmd_game_riddle. rewrite Hg, Hs.
    change (tail (command :: token :: rest)) with (token :: rest).
    rewrite bool_decide_eq_true_2 by (by apply join_nonempty). session_cases.
Qed.

(** X1: A game command changes nothing of the bot but the session of its
    user and game and the count of games played: the sessions of other
    users and of the other games, the learned phrases, the users, the
    histories and the mood are as before.  The count goes up by one
    exactly when the command opens a session, which it does when none is
    open or when the message carries no argument; a turn played on an
    open session is not counted. *)
Theorem game_command_touches_one_session kind rnd m b :
  let game_id := str_of_Z (from_user_id m) ++ kind_suffix kind in
  let opens :=
    bool_decide (active_games b !! game_id = None
                 ∨ (length (split (text m)) <= 1)%nat) in
  session_step game_id opens b (game_command kind rnd m b).1.
Proof. exact (game_command_frame kind rnd m b). Qed.
End SessionFrame.

Section SessionKeys.
Context `{PyUnicode}.

(** Session keys tell users and games apart: two keys are equal only for
    the same user and the same game. *)
Lemma session_key_inj user1 kind1 user2 kind2 :
  str_of_Z user1 ++ kind_suffix kind1 = str_of_Z user2 ++ kind_suffix kind2 <->
  user1 = user2 ∧ kind1 = kind2.
Proof.
  split; [|by intros [-> ->]].
  intros Hkey.
  assert (Hkind : kind1 = kind2).
  { apply (f_equal (fun s => take 2 (rev s))) in Hkey.
    rewrite !rev_app_distr in Hkey.
    rewrite !take_app_le in Hkey by (by destruct kind1, kind2; vm_compute; lia).
    by destruct kind1, kind2; vm_compute in Hkey. }
  subst kind2. split; [|done].
  apply app_inv_tail in Hkey. by apply str_of_Z_inj.
Qed.

(** X2: A game command stores and deletes no session but the one of the
    sender of its message and of its own game: the session that any
    other user holds in any game, and the session that the sender holds
    in another game, is in [active_games] after the command exactly as it
    was before.  (The sender is [message.from_user]; for a press of a
    button that is the sender of the message that carries the
    keyboard.) *)
Theorem other_sessions_untouched kind rnd m b user kind' :
  user ≠ from_user_id m ∨ kind' ≠ kind ->
  active_games (game_command kind rnd m b).1 !! (str_of_Z user ++ kind_suffix kind')
    = active_games b !! (str_of_Z user ++ kind_suffix kind').
Proof.
  intros Hother.
  destruct (game_command_frame kind rnd m b) as [Hkeys _].
  apply Hkeys. intros [-> ->]%session_key_inj. by destruct Hother.
Qed.
End SessionKeys.

(** User 8 holds a number-guessing session and user 7 a hangman session;
    user 7 sends [/guess], which opens a number-guessing session of
    user 7. *)
Definition two_players : bot :=
  (cmd_game_hangman 2 (message_of 7 "/hangman")
     (cmd_game_guess 41 (message_of 8 "/guess") sample_bot).1).1.

Lemma other_sessions_untouched_witness :
  (8 ≠ from_user_id (message_of 7 "/guess") ∨ KGuess ≠ KGuess) ∧
  (7 ≠ from_user_id (message_of 7 "/guess") ∨ KHangman ≠ KGuess) ∧
  active_games two_players !! (str_of_Z 8 ++ kind_suffix KGuess)
    = Some (GGuess {| number := 42; guess_attempts := 0 |}) ∧
  active_games (game_command KGuess 5 (message_of 7 "/guess") two_players).1
    !! (str_of_Z 8 ++ kind_suffix KGuess)
    = active_games two_players !! (str_of_Z 8 ++ kind_suffix KGuess) ∧
  active_games (game_command KGuess 5 (message_of 7 "/guess") two_players).1
    !! (str_of_Z 7 ++ kind_suffix KHangman)
    = active_games two_players !! (str_of_Z 7 ++ kind_suffix KHangman) ∧
  is_Some (active_games (game_command KGuess 5 (message_of 7 "/guess") two_players).1
             !! (str_of_Z 7 ++ kind_suffix KGuess)).
Proof.
  assert (H1 : 8 ≠ from_user_id (message_of 7 "/guess") ∨ KGuess ≠ KGuess)
    by (left; vm_compute; discriminate).
  assert (H2 : 7 ≠ from_user_id (message_of 7 "/guess") ∨ KHangman ≠ KGuess)
    by (right; discriminate).
  split; [exact H1|]. split; [exact H2|]. split; [vm_compute; reflexivity|].
  split; [exact (other_sessions_untouched KGuess 5 (message_of 7 "/guess") two_players
                   8 KGuess H1)|].
  split; [exact (other_sessions_untouched KGuess 5 (message_of 7 "/guess") two_players
                   7 KHangman H2)|].
  vm_compute. by eexists.
Defined.

(** ** A number-guessing session over several messages *)

Section GuessRun.
Context `{PyUnicode}.

(** The message carries an argument that reads as an integer. *)
Definition is_integer_guess (t : pystr) : bool :=
  match split t with
  | _ :: token :: _ => bool_decide (is_Some (py_int token))
  | _ => false
  end.

(** The message carries an argument, and it is not the integer [n]. *)
Definition misses (n : Z) (t : pystr) : bool :=
  match split t with
  | _ :: token :: _ => bool_decide (py_int token ≠ Some n)
  | _ => false
  end.

(** The messages of one user handled in turn by [cmd_game_guess]. *)
Fixpoint guess_run (user_id : Z) (texts : list pystr) (b : bot) : bot :=
  match texts with
  | [] => b
  | t :: rest =>
      guess_run user_id rest
        (cmd_game_guess 0
           {| from_user_id := user_id; full_name := []; from_username := None;
              text := t |} b).1
  end.

Lemma guess_step_miss user_id t b g :
  let game_id := str_of_Z user_id ++ py "_guess" in
  active_games b !! game_id = Some (GGuess g) ->
  misses (number g) t = true ->
  (cmd_game_guess 0
     {| from_user_id := user_id; full_name := []; from_username := None; text := t |}
     b).1
    = if is_integer_guess t
      then set_active_games
             <[game_id := GGuess {| number := number g;
                                    guess_attempts := guess_attempts g + 1 |}]> b
      else b.
Proof.
  intros game_id Hg Hmiss. unfold misses in Hmiss. unfold is_integer_guess.
  unfold cmd_game_guess. cbn [from_user_id text]. fold game_id. rewrite Hg.
  destruct (split t) as [|command [|token rest]]; [done..|].
  apply bool_decide_eq_true in Hmiss.
  destruct (py_int token) as [guess|] eqn:Hint.
  - rewrite (bool_decide_eq_true_2 (is_Some (Some guess))) by (by eexists).
    by rewrite bool_decide_eq_false_2 by congruence.
  - by rewrite (bool_decide_eq_false_2 (is_Some None)) by (by intros [? ?]).
Qed.

(** X3: However many wrong or unreadable guesses are sent to an open session,
    the secret stays the same and the attempt count is the count at the
    start plus the number of guesses that read as integers; nothing else
    in the bot changes, and no game is counted. *)
Theorem guess_session_counts_integer_guesses user_id texts b g :
  let game_id := str_of_Z user_id ++ py "_guess" in
  let counted := Z.of_nat (length (filter (fun t => is_integer_guess t = true) texts)) in
  active_games b !! game_id = Some (GGuess g) ->
  Forall (fun t => misses (number g) t = true) texts ->
  guess_run user_id texts b
    = set_active_games
        <[game_id := GGuess {| number := number g;
                               guess_attempts := guess_attempts g + counted |}]> b.
Proof.
  intros game_id counted Hg Hall. subst counted.
  revert b g Hg Hall. induction texts as [|t texts IH]; intros b g Hg Hall.
  - simpl. rewrite Z.add_0_r. destruct b, g. unfold set_active_games. simpl in *.
    f_equal. symmetry. by apply insert_id.
  - apply Forall_cons in Hall as [Hmiss Hall]. cbn [guess_run].
    rewrite (guess_step_miss user_id t b g Hg Hmiss). rewrite filter_cons.
    destruct (is_integer_guess t) eqn:Hi.
    + rewrite decide_True by done.
      rewrite (IH _ {| number := number g; guess_attempts := guess_attempts g + 1 |}).
      * cbn [number guess_attempts length]. destruct b. unfold set_active_games.
        cbn. f_equal. fold game_id. rewrite insert_insert_eq. do 3 f_equal. lia.
      * simpl. fold game_id. by rewrite lookup_insert_eq.
      * done.
    + rewrite decide_False by done. by apply IH.
Qed.
End GuessRun.

(** Three messages on the session of user 7 (secret 42): two integers and
    a word. *)
Lemma guess_session_counts_integer_guesses_witness :
  active_games guess_sample !! py "7_guess"
    = Some (GGuess {| number := 42; guess_attempts := 0 |}) ∧
  Forall (fun t => misses 42 t = true) [py "/guess 50"; py "/guess abc"; py "/guess 10"] ∧
  guess_run 7 [py "/guess 50"; py "/guess abc"; py "/guess 10"] guess_sample
    = set_active_games
        <[py "7_guess" := GGuess {| number := 42; guess_attempts := 0 + 2 |}]>
        guess_sample.
Proof.
  assert (H1 : active_games guess_sample !! (str_of_Z 7 ++ py "_guess")
               = Some (GGuess {| number := 42; guess_attempts := 0 |}))
    by (vm_compute; reflexivity).
  assert (H2 : Forall (fun t => misses 42 t = true)
                 [py "/guess 50"; py "/guess abc"; py "/guess 10"])
    by (repeat constructor).
  split; [exact H1|]. split; [exact H2|].
  exact (guess_session_counts_integer_guesses 7 _ guess_sample
           {| number := 42; guess_attempts := 0 |} H1 H2).
Defined.

(** ** Messages *)

Section MessageFacts.
Context `{PyUnicode} `{PyDatetime}.

Lemma lstrip_spaces (s : pystr) : Forall (fun c => isspace c = true) s -> lstrip s = [].
Proof. induction 1 as [|c s Hc _ IH]; simpl; [done|]. by rewrite Hc. Qed.

(** X4: A message made of white space only, or empty, is dropped: no reply,
    no count, no history entry, no user entry, no save. *)
Theorem blank_message_ignored d t_seen t_active m b db :
  Forall (fun c => isspace c = true) (text m) ->
  handle_message d t_seen t_active m b db = (b, db, Silent, None).
Proof.
  intros Hblank. unfold handle_message, strip.
  rewrite (lstrip_spaces _ Hblank). reflexivity.
Qed.

(** The teach handler changes nothing but the learned phrases, and there
    it only appends. *)
Lemma _process_learn_command_shape rnd t b :
  (_process_learn_command rnd t b).1 = b ∨
  exists question answer,
    (_process_learn_command rnd t b).1 = set_learned (learn question answer) b.
Proof.
  unfold _process_learn_command.
  repeat case_match; simpl; eauto.
Qed.

(** The bot after a message that is not blank: the fields a message can
    change, and those it cannot. *)
Lemma handle_message_fields d t_seen t_active m b db :
  let user_id := str_of_Z (from_user_id m) in
  let b' := (handle_message d t_seen t_active m b db).1.1.1 in
  strip (text m) ≠ [] ->
  conversation_history b'
    = <[user_id := deque_append (strip (text m))
                     (default [] (conversation_history b !! user_id))]>
        (conversation_history b) ∧
  user_data b'
    = <[user_id :=
          match user_data b !! user_id with
          | Some u => {| name := name u; username := username u;
                         first_seen := first_seen u;
                         message_count := message_count u + 1;
                         last_active := isoformat t_seen |}
          | None => {| name := full_name m; username := from_username m;
                       first_seen := isoformat t_seen;
                       message_count := 1;
                       last_active := isoformat t_active |}
          end]> (user_data b) ∧
  total_messages (stats b') = total_messages (stats b) + 1 ∧
  unique_users (stats b')
    = unique_users (stats b) + match user_data b !! user_id with Some _ => 0 | None => 1 end ∧
  games_played (stats b') = games_played (stats b) ∧
  active_games b' = active_games b ∧
  current_mood b' = current_mood b ∧
  admin_ids b' = admin_ids b ∧
  use_postgres b' = use_postgres b ∧
  response_patterns b' = response_patterns b ∧
  (learned_responses b' = learned_responses b ∨
   exists question answer,
     learned_responses b' = learn question answer (learned_responses b)).
Proof.
  intros user_id b' Hne. subst b'. unfold handle_message. fold user_id.
  rewrite bool_decide_eq_false_2 by done.
  set (b3 := set_history _ _).
  assert (Hb3 :
    conversation_history b3
      = <[user_id := deque_append (strip (text m))
                       (default [] (conversation_history b !! user_id))]>
          (conversation_history b) ∧
    user_data b3
      = <[user_id :=
            match user_data b !! user_id with
            | Some u => {| name := name u; username := username u;
                           first_seen := first_seen u;
                           message_count := message_count u + 1;
                           last_active := isoformat t_seen |}
            | None => {| name := full_name m; username := from_username m;
                         first_seen := isoformat t_seen;
                         message_count := 1;
                         last_active := isoformat t_active |}
            end]> (user_data b) ∧
    total_messages (stats b3) = total_messages (stats b) + 1 ∧
    unique_users (stats b3)
      = unique_users (stats b) + match user_data b !! user_id with Some _ => 0 | None => 1 end ∧
    games_played (stats b3) = games_played (stats b) ∧
    active_games b3 = active_games b ∧
    current_mood b3 = current_mood b ∧
    admin_ids b3 = admin_ids b ∧
    use_postgres b3 = use_postgres b ∧
    response_patterns b3 = response_patterns b ∧
    learned_responses b3 = learned_responses b).
  { subst b3. simpl. destruct (user_data b !! user_id); simpl; split_and!; try done; lia. }
  clearbody b3. destruct Hb3 as (?&?&?&?&?&?&?&?&?&?&Hl).
  destruct (startswith _ _).
  - pose proof (_process_learn_command_shape (pick d 0) (strip (text m)) b3) as Hshape.
    destruct (_process_learn_command (pick d 0) (strip (text m)) b3) as [b4 response].
    simpl in Hshape.
    assert (Hb4 : (b4 = b3 ∨ exists q a, b4 = set_learned (learn q a) b3)) by done.
    assert (Hsame : forall X (f : bot -> X),
              (forall g x, f (set_learned g x) = f x) -> f b4 = f b3).
    { intros X f Hf. destruct Hb4 as [->|(q & a & ->)]; [done|apply Hf]. }
    assert (Hfields :
      conversation_history b4 = conversation_history b3 ∧ user_data b4 = user_data b3 ∧
      stats b4 = stats b3 ∧ active_games b4 = active_games b3 ∧
      current_mood b4 = current_mood b3 ∧ admin_ids b4 = admin_ids b3 ∧
      use_postgres b4 = use_postgres b3 ∧ response_patterns b4 = response_patterns b3).
    { split_and!; by apply Hsame. }
    destruct Hfields as (E1&E2&E3&E4&E5&E6&E7&E8).
    assert (Hlearn : learned_responses b4 = learned_responses b ∨
              exists q a, learned_responses b4 = learn q a (learned_responses b)).
    { destruct Hb4 as [->|(q & a & ->)]; [by left|]. right. exists q, a. simpl.
      by rewrite Hl. }
    destruct response as [response|e]; [destruct (periodic_save b4 db)|]; simpl;
      rewrite E1, E2, E3, E4, E5, E6, E7, E8; split_and!; done.
  - destruct (_generate_response d (strip (text m)) user_id b3) as [response|e];
      [destruct (periodic_save b3 db)|]; simpl; split_and!; try done; by left.
Qed.

Lemma deque_append_length (x : pystr) (q : list pystr) :
  (length q <= 20)%nat -> (length (deque_append x q) <= 20)%nat.
Proof.
  intros Hq. unfold deque_append. case_bool_decide; rewrite length_app; simpl.
  - lia.
  - rewrite length_drop. lia.
Qed.

Lemma deque_append_last (x : pystr) (q : list pystr) : last (deque_append x q) = Some x.
Proof. unfold deque_append. case_bool_decide; apply last_snoc. Qed.

(** X5: Histories of 20 messages at most stay so under [handle_message],
    a message that is not blank becomes the newest entry of its sender's
    history, and the histories of the other users stay as they are. *)
Theorem history_bounded d t_seen t_active m b db :
  let user_id := str_of_Z (from_user_id m) in
  let b' := (handle_message d t_seen t_active m b db).1.1.1 in
  map_Forall (fun _ h => (length h <= 20)%nat) (conversation_history b) ->
  map_Forall (fun _ h => (length h <= 20)%nat) (conversation_history b') ∧
  (forall other, other ≠ user_id ->
     conversation_history b' !! other = conversation_history b !! other) ∧
  (strip (text m) ≠ [] ->
     exists h, conversation_history b' !! user_id = Some h
               ∧ last h = Some (strip (text m))).
Proof.
  intros user_id b' Hinv. subst b'.
  destruct (decide (strip (text m) = [])) as [Hblank|Hne].
  - unfold handle_message. rewrite bool_decide_eq_true_2 by done. done.
  - destruct (handle_message_fields d t_seen t_active m b db Hne) as (Hh & _).
    fold user_id in Hh. rewrite Hh. split_and!.
    + apply map_Forall_insert_2; [|done]. apply deque_append_length.
      destruct (conversation_history b !! user_id) as [h|] eqn:Hu; simpl; [|lia].
      by apply (Hinv user_id).
    + intros other Hother. by rewrite lookup_insert_ne.
    + intros _. eexists. rewrite lookup_insert_eq. split; [done|].
      apply deque_append_last.
Qed.

(** X6: The counter of distinct users is the number of entries of
    [user_data]: [cmd_start] and [handle_message] keep them equal, a known
    user being counted once however often the user writes or restarts. *)
Theorem unique_users_counts_entries d t_seen t_active m b db :
  unique_users (stats b) = Z.of_nat (size (user_data b)) ->
  let after_start := (cmd_start t_seen t_active m b db).1.1.1 in
  let after_message := (handle_message d t_seen t_active m b db).1.1.1 in
  unique_users (stats after_start) = Z.of_nat (size (user_data after_start)) ∧
  unique_users (stats after_message) = Z.of_nat (size (user_data after_message)).
Proof.
  intros Hinv after_start after_message. subst after_start after_message. split.
  - unfold cmd_start. destruct (periodic_save _ _). simpl.
    destruct (user_data b !! str_of_Z (from_user_id m)) as [u|] eqn:Hu.
    + rewrite bool_decide_eq_true_2 by (by eexists).
      rewrite map_size_insert_Some by (by eexists). done.
    + rewrite bool_decide_eq_false_2 by (by intros [? ?]).
      rewrite map_size_insert_None by done. lia.
  - destruct (decide (strip (text m) = [])) as [Hblank|Hne].
    { unfold handle_message. by rewrite bool_decide_eq_true_2. }
    destruct (handle_message_fields d t_seen t_active m b db Hne)
      as (_ & Hu & _ & Hn & _).
    rewrite Hu, Hn.
    destruct (user_data b !! str_of_Z (from_user_id m)) as [u|] eqn:Hlook.
    + rewrite map_size_insert_Some by (by eexists). lia.
    + rewrite map_size_insert_None by done. lia.
Qed.

(** X7: The learned phrases only grow: whatever message is handled, every
    entry keeps the answers it had, in their order, new ones coming
    after them; and when no entry was without an answer, none is
    afterwards. *)
Theorem learned_phrases_only_grow d t_seen t_active m b db :
  let b' := (handle_message d t_seen t_active m b db).1.1.1 in
  (forall question answers,
     learned_responses b !! question = Some answers ->
     exists more, learned_responses b' !! question = Some (answers ++ more)) ∧
  (map_Forall (fun _ answers => answers ≠ []) (learned_responses b) ->
   map_Forall (fun _ answers => answers ≠ []) (learned_responses b')).
Proof.
  intros b'. subst b'.
  destruct (decide (strip (text m) = [])) as [Hblank|Hne].
  { unfold handle_message. rewrite bool_decide_eq_true_2 by done. simpl.
    split; [|done]. intros question answers Hq. exists []. by rewrite app_nil_r. }
  destruct (handle_message_fields d t_seen t_active m b db Hne)
    as (_&_&_&_&_&_&_&_&_&_&[->|(q & a & ->)]).
  { split; [|done]. intros question answers Hq. exists []. by rewrite app_nil_r. }
  unfold learn. split.
  - intros question answers Hq. destruct (decide (question = q)) as [->|Hneq].
    + rewrite lookup_insert_eq, Hq. by exists [a].
    + rewrite lookup_insert_ne by done. exists []. by rewrite app_nil_r.
  - intros Hinv. apply map_Forall_insert_2; [|done].
    intros Hnil. by apply app_eq_nil in Hnil as [_ ?].
Qed.
End MessageFacts.

(** A message of three blanks, sent to a new bot. *)
Lemma blank_message_ignored_witness :
  Forall (fun c => isspace c = true) (text (message_of 7 "   ")) ∧
  handle_message first_draws (py "2025-01-01T10:00:00") (py "2025-01-01T10:00:00")
    (message_of 7 "   ") sample_bot empty_database
    = (sample_bot, empty_database, Silent, None).
Proof.
  assert (Hblank : Forall (fun c => isspace c = true) (text (message_of 7 "   ")))
    by (apply (bool_decide_unpack _); vm_compute; exact I).
  split; [exact Hblank|].
  exact (blank_message_ignored first_draws (py "2025-01-01T10:00:00")
           (py "2025-01-01T10:00:00") (message_of 7 "   ") sample_bot
           empty_database Hblank).
Defined.

(** User 7, whose history holds [ок], writes [привет]. *)
Lemma history_bounded_witness :
  map_Forall (fun _ h => (length h <= 20)%nat) (conversation_history seen_at_ten) ∧
  exists h,
    conversation_history
      (handle_message first_draws (py "2025-01-01T10:05:00") (py "2025-01-01T10:05:00")
         (message_of 7 "привет") seen_at_ten empty_database).1.1.1 !! py "7" = Some h
    ∧ last h = Some (py "привет").
Proof.
  assert (Hold : map_Forall (fun _ h => (length h <= 20)%nat)
                   (conversation_history seen_at_ten))
    by (apply (bool_decide_unpack _); vm_compute; exact I).
  split; [exact Hold|].
  destruct (@history_bounded basic_unicode iso_text_datetime first_draws (py "2025-01-01T10:05:00")
              (py "2025-01-01T10:05:00") (message_of 7 "привет") seen_at_ten
              empty_database Hold) as (_ & _ & Hlast).
  apply Hlast. vm_compute. discriminate.
Defined.

(** User 8 writes to the bot that has seen user 7 only. *)
Lemma unique_users_counts_entries_witness :
  unique_users (stats seen_at_ten) = Z.of_nat (size (user_data seen_at_ten)) ∧
  unique_users
    (stats (handle_message first_draws (py "2025-01-01T10:05:00")
              (py "2025-01-01T10:05:00") (message_of 8 "привет") seen_at_ten
              empty_database).1.1.1)
    = Z.of_nat
        (size (user_data
                 (handle_message first_draws (py "2025-01-01T10:05:00")
                    (py "2025-01-01T10:05:00") (message_of 8 "привет") seen_at_ten
                    empty_database).1.1.1)).
Proof.
  assert (Hold : unique_users (stats seen_at_ten)
                 = Z.of_nat (size (user_data seen_at_ten)))
    by (vm_compute; reflexivity).
  split; [exact Hold|].
  exact (proj2 (unique_users_counts_entries first_draws (py "2025-01-01T10:05:00")
                  (py "2025-01-01T10:05:00") (message_of 8 "привет") seen_at_ten
                  empty_database Hold)).
Defined.

(** A bot that was taught one answer to [пинг]. *)
Definition taught_bot : bot :=
  (handle_message first_draws (py "2025-01-01T10:00:00") (py "2025-01-01T10:00:00")
     (message_of 7 "учись пинг -> понг") sample_bot empty_database).1.1.1.

(** It is taught a second answer to the same phrase. *)
Lemma learned_phrases_only_grow_witness :
  learned_responses taught_bot !! py "пинг" = Some [py "понг"] ∧
  map_Forall (fun _ answers => answers ≠ []) (learned_responses taught_bot) ∧
  (exists more,
     learned_responses
       (handle_message first_draws (py "2025-01-01T10:05:00") (py "2025-01-01T10:05:00")
          (message_of 7 "учись пинг -> панг") taught_bot empty_database).1.1.1
       !! py "пинг" = Some ([py "понг"] ++ more)) ∧
  map_Forall (fun _ answers => answers ≠ [])
    (learned_responses
       (handle_message first_draws (py "2025-01-01T10:05:00") (py "2025-01-01T10:05:00")
          (message_of 7 "учись пинг -> панг") taught_bot empty_database).1.1.1).
Proof.
  assert (Hold : learned_responses taught_bot !! py "пинг" = Some [py "понг"])
    by (vm_compute; reflexivity).
  assert (Hall : map_Forall (fun _ answers => answers ≠ []) (learned_responses taught_bot))
    by (apply (bool_decide_unpack _); vm_compute; exact I).
  split; [exact Hold|]. split; [exact Hall|].
  destruct (@learned_phrases_only_grow basic_unicode iso_text_datetime first_draws (py "2025-01-01T10:05:00")
              (py "2025-01-01T10:05:00") (message_of 7 "учись пинг -> панг")
              taught_bot empty_database) as [Hgrow Hkeep].
  split; [exact (Hgrow _ _ Hold)|exact (Hkeep Hall)].
Defined.

(** ** Entries that can be written *)

Section SaveFacts.
Context `{PyUnicode} `{PyDatetime}.

Lemma storable_new_user user_id name0 handle count seen active :
  fits_bigint user_id = true -> fits_int count = true ->
  storable_user (str_of_Z user_id)
    {| name := name0; username := handle; first_seen := isoformat seen;
       message_count := count; last_active := isoformat active |} = true.
Proof.
  intros Hid Hcount. unfold storable_user. simpl.
  rewrite py_int_str, !fromisoformat_isoformat, Hid, Hcount.
  by rewrite !bool_decide_eq_true_2.
Qed.

Lemma storable_touched_user k u count active :
  storable_user k u = true -> fits_int count = true ->
  storable_user k
    {| name := name u; username := username u; first_seen := first_seen u;
       message_count := count; last_active := isoformat active |} = true.
Proof.
  unfold storable_user. simpl. intros Hu Hcount.
  destruct (py_int k) as [n|]; [|done].
  destruct (fromisoformat (first_seen u)) as [seen|]; [|done].
  destruct (fromisoformat (last_active u)) as [old|]; [|done].
  rewrite fromisoformat_isoformat, Hcount.
  rewrite !andb_true_iff, !bool_decide_eq_true in *. tauto.
Qed.

(** X8: The entries of [user_data] stay storable under [cmd_start] and
    [handle_message], for a sender whose identifier fits BIGINT and whose
    message count stays within INT: the keys are made by [str], the
    timestamps by [isoformat]. *)
Theorem users_stay_storable d t_seen t_active m b db :
  let user_id := str_of_Z (from_user_id m) in
  fits_bigint (from_user_id m) = true ->
  (forall u, user_data b !! user_id = Some u -> fits_int (message_count u + 1) = true) ->
  map_Forall (fun k u => storable_user k u = true) (user_data b) ->
  map_Forall (fun k u => storable_user k u = true)
    (user_data (cmd_start t_seen t_active m b db).1.1.1) ∧
  map_Forall (fun k u => storable_user k u = true)
    (user_data (handle_message d t_seen t_active m b db).1.1.1).
Proof.
  intros user_id Hid Hcount Hall. split.
  - unfold cmd_start. destruct (periodic_save _ _). simpl.
    apply map_Forall_insert_2; [|done]. by apply storable_new_user.
  - destruct (decide (strip (text m) = [])) as [Hblank|Hne].
    { unfold handle_message. by rewrite bool_decide_eq_true_2. }
    destruct (handle_message_fields d t_seen t_active m b db Hne) as (_ & -> & _).
    apply map_Forall_insert_2; [|done]. fold user_id.
    destruct (user_data b !! user_id) as [u|] eqn:Hu.
    + apply storable_touched_user; [by apply (Hall user_id)|by apply Hcount].
    + by apply storable_new_user.
Qed.

End SaveFacts.

(** User 7 writes a second message. *)
Lemma users_stay_storable_witness :
  fits_bigint (from_user_id (message_of 7 "привет")) = true ∧
  (forall u, user_data seen_at_ten !! str_of_Z 7 = Some u ->
             fits_int (message_count u + 1) = true) ∧
  map_Forall (fun k u => storable_user k u = true) (user_data seen_at_ten) ∧
  map_Forall (fun k u => storable_user k u = true)
    (user_data
       (handle_message first_draws (py "2025-01-01T10:05:00") (py "2025-01-01T10:05:00")
          (message_of 7 "привет") seen_at_ten empty_database).1.1.1).
Proof.
  assert (Hid : fits_bigint (from_user_id (message_of 7 "привет")) = true)
    by (vm_compute; reflexivity).
  assert (Hcount : forall u, user_data seen_at_ten !! str_of_Z 7 = Some u ->
                             fits_int (message_count u + 1) = true).
  { intros u Hu. vm_compute in Hu. injection Hu as <-. vm_compute. reflexivity. }
  assert (Hall : map_Forall (fun k u => storable_user k u = true) (user_data seen_at_ten))
    by (apply (bool_decide_unpack _); vm_compute; exact I).
  split; [exact Hid|]. split; [exact Hcount|]. split; [exact Hall|].
  exact (proj2 (users_stay_storable first_draws (py "2025-01-01T10:05:00")
                  (py "2025-01-01T10:05:00") (message_of 7 "привет") seen_at_ten
                  empty_database Hid Hcount Hall)).
Defined.

(** ** Grammar of the teach directive *)

Section TeachGrammar.
Context `{PyUnicode}.

(** A run of white space. *)
Definition blank (s : pystr) : Prop := Forall (fun c => isspace c = true) s.

(** [s] does not begin with white space. *)
Definition starts_solid (s : pystr) : Prop :=
  match s with
  | c :: _ => isspace c = false
  | [] => True
  end.

(** [s] does not end with white space. *)
Definition ends_solid (s : pystr) : Prop :=
  match last s with
  | Some c => isspace c = false
  | None => True
  end.

(** [kw] is the keyword, in any letter case the engine folds. *)
Definition keyword (kw : pystr) : Prop :=
  Forall2 (fun c p => re_ieq c p = true) kw (py "учись").

Lemma re_lit_i_shape {R} p (k : pystr -> option R) s r :
  re_lit_i p k s = Some r ->
  exists pre s', s = pre ++ s' ∧ Forall2 (fun c a => re_ieq c a = true) pre p ∧ k s' = Some r.
Proof.
  revert s. induction p as [|a p IH]; intros s; simpl.
  - destruct s; intros Hk; eexists [], _; by repeat split.
  - destruct s as [|c s]; [done|]. destruct (re_ieq c a) eqn:Hc; [|done].
    intros (pre & s' & -> & Hpre & Hk)%IH. exists (c :: pre), s'.
    split; [done|]. split; [by constructor|done].
Qed.

Lemma re_lit_i_app {R} p (k : pystr -> option R) pre s :
  Forall2 (fun c a => re_ieq c a = true) pre p -> re_lit_i p k (pre ++ s) = k s.
Proof.
  intros Hpre. induction Hpre as [|c a pre p Hc Hpre IH]; simpl.
  - by destruct s.
  - by rewrite Hc.
Qed.

Lemma re_lit_app {R} p (k : pystr -> option R) s : re_lit p k (p ++ s) = k s.
Proof.
  induction p as [|a p IH]; simpl.
  - by destruct s.
  - by rewrite decide_True.
Qed.

Lemma re_lit_None {R} p (k : pystr -> option R) s :
  startswith s p = false -> re_lit p k s = None.
Proof.
  revert s. induction p as [|a p IH]; intros s; simpl.
  - by destruct s.
  - destruct s as [|c s]; simpl; [done|]. case_decide; [apply IH|done].
Qed.

Lemma re_spaces_shape {R} (k : pystr -> option R) s r :
  re_spaces k s = Some r -> exists pre s', s = pre ++ s' ∧ blank pre ∧ k s' = Some r.
Proof.
  induction s as [|c s IH]; simpl.
  - intros Hk. exists [], []. by repeat split; [constructor|].
  - destruct (isspace c) eqn:Hc;
      [|intros Hk; exists [], (c :: s); by repeat split; [constructor|]].
    destruct (re_spaces k s) as [r'|] eqn:Hs.
    + intros [= ->]. destruct (IH eq_refl) as (pre & s' & -> & Hpre & Hk).
      exists (c :: pre), s'. split; [done|]. split; [by constructor|done].
    + intros Hk. exists [], (c :: s). by repeat split; [constructor|].
Qed.

Lemma re_spaces1_shape {R} (k : pystr -> option R) s r :
  re_spaces1 k s = Some r ->
  exists pre s', s = pre ++ s' ∧ blank pre ∧ pre ≠ [] ∧ k s' = Some r.
Proof.
  destruct s as [|c s]; simpl; [done|]. destruct (isspace c) eqn:Hc; [|done].
  intros (pre & s' & -> & Hpre & Hk)%re_spaces_shape. exists (c :: pre), s'.
  split; [done|]. split; [by constructor|done].
Qed.

(** The greedy run is taken when the rest of the pattern accepts behind
    it. *)
Lemma re_spaces_greedy {R} (k : pystr -> option R) ws s r :
  blank ws -> starts_solid s -> k s = Some r -> re_spaces k (ws ++ s) = Some r.
Proof.
  intros Hws Hs Hk. induction Hws as [|c ws Hc Hws IH]; simpl.
  - destruct s as [|c s]; simpl; [done|]. simpl in Hs. by rewrite Hs.
  - by rewrite Hc, IH.
Qed.

Lemma re_spaces1_greedy {R} (k : pystr -> option R) ws s r :
  blank ws -> ws ≠ [] -> starts_solid s -> k s = Some r ->
  re_spaces1 k (ws ++ s) = Some r.
Proof.
  intros Hws Hne Hs Hk. destruct Hws as [|c ws Hc Hws]; [done|]. simpl.
  rewrite Hc. by apply re_spaces_greedy.
Qed.

Lemma re_spaces_None {R} (k : pystr -> option R) s :
  (forall pre s', s = pre ++ s' -> blank pre -> k s' = None) -> re_spaces k s = None.
Proof.
  induction s as [|c s IH]; intros Hk; simpl.
  - apply (Hk [] []); [done|constructor].
  - assert (Hhere : k (c :: s) = None) by (apply (Hk []); [done|constructor]).
    destruct (isspace c) eqn:Hc; [|done].
    rewrite IH; [done|]. intros pre s' -> Hpre.
    apply (Hk (c :: pre)); [done|by constructor].
Qed.

Lemma re_lazy_group_shape {R} acc (k : pystr -> pystr -> option R) s r :
  re_lazy_group acc k s = Some r ->
  exists group s', s = group ++ s' ∧ group ≠ [] ∧ k (acc ++ group) s' = Some r.
Proof.
  revert acc. induction s as [|c s IH]; intros acc; simpl; [done|].
  destruct (k (acc ++ [c]) s) as [r'|] eqn:Hk.
  - intros [= ->]. by exists [c], s.
  - intros (group & s' & -> & _ & Hk')%IH. exists (c :: group), s'.
    split; [done|]. split; [done|]. by rewrite <- app_assoc in Hk'.
Qed.

(** The lazy group stops at the first length at which the rest of the
    pattern accepts. *)
Lemma re_lazy_group_first {R} acc (k : pystr -> pystr -> option R) q rest r :
  q ≠ [] ->
  (forall p q', q = p ++ q' -> p ≠ [] -> q' ≠ [] -> k (acc ++ p) (q' ++ rest) = None) ->
  k (acc ++ q) rest = Some r ->
  re_lazy_group acc k (q ++ rest) = Some r.
Proof.
  revert acc. induction q as [|c q IH]; intros acc Hq Hearly Hk; [done|]. simpl.
  destruct q as [|c' q].
  - simpl. by rewrite Hk.
  - rewrite (Hearly [c] (c' :: q)); [|done..].
    apply IH; [done| |by rewrite <- app_assoc].
    intros p q' Hsplit Hp Hq'. rewrite <- app_assoc.
    apply Hearly; [by rewrite Hsplit|done..].
Qed.

Lemma ends_solid_suffix (pre s : pystr) : s ≠ [] -> ends_solid (pre ++ s) -> ends_solid s.
Proof.
  intros Hs. unfold ends_solid. by rewrite last_app; destruct (last s) eqn:Hl;
    [|destruct s using rev_ind; [|rewrite last_snoc in Hl]].
Qed.

(** A run of white space read off the front of [q ++ rest] ends inside
    [q], when [q] ends with something else. *)
Lemma blank_prefix_inside (q rest pre s' : pystr) :
  q ≠ [] -> ends_solid q -> q ++ rest = pre ++ s' -> blank pre ->
  exists q', q' ≠ [] ∧ q = pre ++ q' ∧ s' = q' ++ rest.
Proof.
  intros Hq Hend Hsplit Hpre. revert q Hq Hend Hsplit.
  induction Hpre as [|c pre Hc Hpre IH]; intros q Hq Hend Hsplit.
  - by exists q.
  - destruct q as [|c' q]; [done|]. simpl in Hsplit. injection Hsplit as -> Hsplit.
    destruct q as [|c2 q].
    + unfold ends_solid in Hend. simpl in Hend. congruence.
    + destruct (IH (c2 :: q)) as (q' & Hq' & Heq & Hs'); [done| |done|].
      * by apply (ends_solid_suffix [c]).
      * exists q'. split; [done|]. split; [by rewrite Heq|done].
Qed.

Lemma no_arrow_across (q rest : pystr) :
  q ≠ [] -> contains (py "->") q = false ->
  (forall rest', rest ≠ 62%N :: rest') ->
  startswith (q ++ rest) (py "->") = false.
Proof.
  intros Hq Hfree Hrest. change (py "->") with [45%N; 62%N] in *.
  destruct q as [|c1 [|c2 q]]; [done| |].
  - simpl. case_decide; [|done]. destruct rest as [|c rest]; [done|].
    simpl. case_decide; [|done]. subst. by destruct (Hrest rest).
  - simpl. case_decide; [|done]. case_decide; [|done]. subst.
    assert (contains [45%N; 62%N] (45%N :: 62%N :: q) = true); [|congruence].
    apply contains_spec. by exists [], q.
Qed.

(** X10: Shape of a match: the keyword in any case, white space, a non-empty
    first group, optional white space around the arrow, and a non-empty
    second group that runs to the end of the text. *)
Theorem learn_match_shape text group1 group2 :
  learn_match text = Some (group1, group2) ->
  exists kw ws1 ws2 ws3,
    text = kw ++ ws1 ++ group1 ++ ws2 ++ py "->" ++ ws3 ++ group2 ∧
    keyword kw ∧ blank ws1 ∧ ws1 ≠ [] ∧ blank ws2 ∧ blank ws3 ∧
    group1 ≠ [] ∧ group2 ≠ [].
Proof.
  unfold learn_match.
  intros (kw & s1 & -> & Hkw & Hk)%re_lit_i_shape.
  apply re_spaces1_shape in Hk as (ws1 & s2 & -> & Hws1 & Hne1 & Hk).
  apply re_lazy_group_shape in Hk as (g1 & s3 & -> & Hg1 & Hk).
  apply re_spaces_shape in Hk as (ws2 & s4 & -> & Hws2 & Hk).
  apply re_lit_Some in Hk as (s5 & -> & Hk).
  apply re_spaces_shape in Hk as (ws3 & s6 & -> & Hws3 & Hk).
  destruct s6 as [|c6 s6]; [done|]. simpl in Hk. injection Hk as <- <-.
  exists kw, ws1, ws2, ws3. by repeat split.
Qed.

(** X11: The directive as the help text gives it is read back as written: with
    a question that has no white space at either end and no arrow inside,
    and an answer that does not begin with white space, the two groups
    are the question and the answer, however much white space surrounds
    the arrow. *)
Theorem learn_match_complete kw ws1 question ws2 ws3 answer :
  isspace 45 = false -> isspace 62 = false ->
  keyword kw ->
  blank ws1 -> ws1 ≠ [] -> blank ws2 -> blank ws3 ->
  question ≠ [] -> starts_solid question -> ends_solid question ->
  contains (py "->") question = false ->
  answer ≠ [] -> starts_solid answer ->
  learn_match (kw ++ ws1 ++ question ++ ws2 ++ py "->" ++ ws3 ++ answer)
    = Some (question, answer).
Proof.
  intros Hminus Hgreater Hkw Hws1 Hne1 Hws2 Hws3 Hq Hqhd Hqend Hfree Ha Hahd.
  unfold learn_match. rewrite re_lit_i_app by done.
  apply re_spaces1_greedy; [done|done|by destruct question|].
  assert (Hrest : forall rest', ws2 ++ py "->" ++ ws3 ++ answer ≠ 62%N :: rest').
  { intros rest'. change (py "->") with [45%N; 62%N].
    destruct Hws2; simpl; [done|]. intros [= -> _]. congruence. }
  apply re_lazy_group_first; [done| |].
  - intros p q' Hsplit Hp Hq'. apply re_spaces_None. intros pre s' Hs' Hpre.
    destruct (blank_prefix_inside q' (ws2 ++ py "->" ++ ws3 ++ answer) pre s')
      as (q'' & Hq'' & Heq & ->); [done| |done|done|].
    { subst question. by apply (ends_solid_suffix p). }
    apply re_lit_None, no_arrow_across; [done| |done].
    destruct (contains (py "->") q'') eqn:Hin; [|done].
    apply contains_spec in Hin as (pre' & post' & ->).
    assert (contains (py "->") question = true); [|congruence].
    apply contains_spec. exists (p ++ pre ++ pre'), post'.
    rewrite Hsplit, Heq. by rewrite <- !app_assoc.
  - cbv beta. apply re_spaces_greedy; [done|by change (py "->") with [45%N; 62%N]|].
    rewrite re_lit_app. apply re_spaces_greedy; [done|done|].
    by destruct answer.
Qed.
End TeachGrammar.

(** The directive [учись изида -> привет]. *)
Lemma learn_match_shape_witness :
  learn_match (py "учись изида -> привет") = Some (py "изида", py "привет") ∧
  exists kw ws1 ws2 ws3,
    py "учись изида -> привет"
      = kw ++ ws1 ++ py "изида" ++ ws2 ++ py "->" ++ ws3 ++ py "привет" ∧
    keyword kw ∧ blank ws1 ∧ ws1 ≠ [] ∧ blank ws2 ∧ blank ws3 ∧
    py "изида" ≠ [] ∧ py "привет" ≠ [].
Proof.
  assert (Hm : learn_match (py "учись изида -> привет") = Some (py "изида", py "привет"))
    by (vm_compute; reflexivity).
  split; [exact Hm|]. exact (learn_match_shape _ _ _ Hm).
Defined.

(** [УЧИСЬ  как дела->  всё хорошо]: upper case, two blanks after the
    keyword, none before the arrow, two after it. *)
Lemma learn_match_complete_witness :
  isspace 45 = false ∧ isspace 62 = false ∧
  keyword (py "УЧИСЬ") ∧
  blank (py "  ") ∧ py "  " ≠ [] ∧ blank [] ∧ blank (py "  ") ∧
  py "как дела" ≠ [] ∧ starts_solid (py "как дела") ∧ ends_solid (py "как дела") ∧
  contains (py "->") (py "как дела") = false ∧
  py "всё хорошо" ≠ [] ∧ starts_solid (py "всё хорошо") ∧
  learn_match (py "УЧИСЬ" ++ py "  " ++ py "как дела" ++ [] ++ py "->" ++ py "  "
               ++ py "всё хорошо")
    = Some (py "как дела", py "всё хорошо").
Proof.
  assert (H1 : isspace 45 = false) by (vm_compute; reflexivity).
  assert (H2 : isspace 62 = false) by (vm_compute; reflexivity).
  assert (H3 : keyword (py "УЧИСЬ"))
    by (unfold keyword; apply (bool_decide_unpack _); vm_compute; exact I).
  assert (H4 : blank (py "  "))
    by (unfold blank; apply (bool_decide_unpack _); vm_compute; exact I).
  assert (H5 : py "  " ≠ []) by (vm_compute; discriminate).
  assert (H6 : blank []) by constructor.
  assert (H7 : py "как дела" ≠ []) by (vm_compute; discriminate).
  assert (H8 : starts_solid (py "как дела")) by (vm_compute; reflexivity).
  assert (H9 : ends_solid (py "как дела")) by (vm_compute; reflexivity).
  assert (H10 : contains (py "->") (py "как дела") = false) by (vm_compute; reflexivity).
  assert (H11 : py "всё хорошо" ≠ []) by (vm_compute; discriminate).
  assert (H12 : starts_solid (py "всё хорошо")) by (vm_compute; reflexivity).
  repeat (split; [assumption|]).
  exact (learn_match_complete _ _ _ _ _ _ H1 H2 H3 H4 H5 H6 H4 H7 H8 H9 H10 H11 H12).
Defined.

(** ** The resolver always has an answer *)

Section ResolverFacts.
Context `{PyUnicode} `{PyDatetime}.

(** A list of candidate replies from which a reply can be drawn, none of
    them empty. *)
Definition spoken (l : list pystr) : Prop := l ≠ [] ∧ Forall (fun r => r ≠ []) l.

Lemma spoken_choice rnd l : spoken l -> exists r, choice rnd l = Some r ∧ r ∈ l ∧ r ≠ [].
Proof.
  intros [Hne Hall]. destruct (choice_elem rnd l Hne) as (r & Hr & Hin).
  exists r. split; [done|]. split; [done|]. by eapply Forall_forall in Hall.
Qed.

Lemma weighted_pick_Some r (l : list (pystr * nat)) :
  (r < sum_list (l.*2))%nat -> exists c w, weighted_pick r l = Some c ∧ (c, w) ∈ l.
Proof.
  revert r. induction l as [|[c w] l IH]; intros r Hr; [simpl in Hr; lia|].
  assert (Hsum : sum_list (((c, w) :: l).*2) = (w + sum_list (l.*2))%nat) by done.
  rewrite Hsum in Hr. clear Hsum. simpl.
  destruct (r <? w)%nat eqn:Hlt.
  - exists c, w. split; [done|]. apply elem_of_cons. by left.
  - apply Nat.ltb_ge in Hlt. destruct (IH (r - w)%nat) as (c' & w' & Hpick & Hin); [lia|].
    exists c', w'. split; [done|]. apply elem_of_cons. by right.
Qed.

(** Candidates with their weights from which [random.choices] can draw. *)
Definition weighted (l : list (pystr * nat)) : Prop :=
  (0 < sum_list (l.*2))%nat ∧ Forall (fun cw => cw.1 ≠ []) l.

Lemma weighted_choices rnd l : weighted l -> exists r, choices rnd l = Some r ∧ r ≠ [].
Proof.
  intros [Hsum Hall]. unfold choices.
  destruct (weighted_pick_Some (rnd mod sum_list (l.*2)) l) as (c & w & Hpick & Hin).
  { apply Nat.mod_upper_bound. lia. }
  exists c. split; [done|]. by apply (proj1 (Forall_forall _ _) Hall (c, w)).
Qed.

Lemma pattern_table_weighted clock :
  Forall (fun entry => weighted entry.2) (_init_response_patterns clock).
Proof.
  unfold _init_response_patterns.
  repeat (apply Forall_cons; split;
          [split; [vm_compute; lia|repeat (constructor; [by vm_compute|])]; constructor|]).
  constructor.
Qed.

Lemma mood_responses_spoken mood : spoken (mood_responses mood).
Proof.
  destruct mood; (split; [by vm_compute|]);
    repeat (constructor; [by vm_compute|]); constructor.
Qed.

Lemma dict_get_elem {V} k (l : list (pystr * V)) v : dict_get k l = Some v -> v ∈ l.*2.
Proof.
  induction l as [|[k' v'] l IH]; simpl; [done|]. case_decide.
  - intros [= ->]. apply elem_of_cons. by left.
  - intros Hv. apply elem_of_cons. right. by apply IH.
Qed.

Lemma mood_based_spoken mood :
  spoken (default neutral_responses (dict_get mood mood_based_responses)).
Proof.
  assert (Hall : Forall spoken (neutral_responses :: mood_based_responses.*2)).
  { repeat (constructor;
            [split; [by vm_compute|repeat (constructor; [by vm_compute|]); constructor]|]).
    constructor. }
  destruct (dict_get mood mood_based_responses) as [v|] eqn:Hv; simpl.
  - apply dict_get_elem in Hv. eapply Forall_forall in Hall; [done|].
    apply elem_of_cons. by right.
  - eapply Forall_forall in Hall; [done|]. apply elem_of_cons. by left.
Qed.

Lemma _generate_random_response_answers d text :
  exists r, _generate_random_response d text = Ret r ∧ r ≠ [].
Proof.
  unfold _generate_random_response.
  set (detected_mood := match List.find _ mood_keywords with
                        | Some (mood, _) => mood
                        | None => _
                        end).
  destruct (mood_based_spoken detected_mood) as [Hne Hall].
  set (responses := default neutral_responses _) in *. clearbody responses.
  destruct (coin d).
  - destruct (choice_elem (pick d 0) [py "дружок"; py "милый"; py "дорогой"])
      as (name_call & -> & _); [done|].
    destruct (choice_elem (pick d 1)
                ((fun r => r ++ py " " ++ capitalize name_call ++ py "!") <$> responses))
      as (r & -> & Hin); [by destruct responses|].
    exists r. split; [done|].
    apply list_elem_of_fmap in Hin as (r0 & -> & _).
    intros Hnil. apply app_eq_nil in Hnil as [_ Hnil]. by vm_compute in Hnil.
  - destruct (spoken_choice (pick d 0) responses) as (r & -> & _ & Hr); [done|].
    by exists r.
Qed.

Lemma _generate_context_response_total d text user_id b :
  _generate_context_response d text user_id b = Ret None ∨
  exists r, _generate_context_response d text user_id b = Ret (Some r) ∧ r ≠ [].
Proof.
  unfold _generate_context_response.
  set (history := default [] _). case_bool_decide as Hlen; [by left|].
  assert (is_Some (py_index history (-1))) as [newest ->].
  { unfold py_index. simpl. rewrite (proj2 (Z.leb_le _ _)) by lia.
    apply lookup_lt_is_Some_2. lia. }
  destruct (existsb _ greeting_cues).
  - destruct (spoken_choice (pick d 0) context_greeting_replies) as (r & -> & _ & Hr).
    { split; [by vm_compute|]. repeat (constructor; [by vm_compute|]). constructor. }
    right. by exists r.
  - destruct (_ && _); [|by left].
    destruct (spoken_choice (pick d 0) context_question_replies) as (r & -> & _ & Hr).
    { split; [by vm_compute|]. repeat (constructor; [by vm_compute|]). constructor. }
    right. by exists r.
Qed.

(** The first stage: a learned phrase is answered by one of its answers,
    followed by an aside that fits the mood. *)
Lemma learned_stage d text user_id b learned_answers :
  learned_responses b !! lower text = Some learned_answers ->
  learned_answers ≠ [] ->
  exists response aside,
    response ∈ learned_answers ∧ aside ∈ mood_responses (current_mood b) ∧
    _generate_response d text user_id b
      = Ret (response ++ nl ++ py "<i>" ++ aside ++ py "</i>").
Proof.
  intros Hl Hne. unfold _generate_response. rewrite Hl.
  destruct (choice_elem (pick d 0) learned_answers Hne) as (response & -> & Hin).
  destruct (spoken_choice (pick d 1) (mood_responses (current_mood b)))
    as (aside & -> & Hside & _); [apply mood_responses_spoken|].
  by exists response, aside.
Qed.

Lemma _generate_response_answers d text user_id b clock :
  response_patterns b = _init_response_patterns clock ->
  map_Forall (fun _ learned_answers => learned_answers ≠ []) (learned_responses b) ->
  exists r, _generate_response d text user_id b = Ret r ∧ r ≠ [].
Proof.
  intros Hpat Hlearned.
  destruct (learned_responses b !! lower text) as [learned_answers|] eqn:Hl.
  - destruct (learned_stage d text user_id b learned_answers Hl)
      as (response & aside & _ & _ & ->); [by apply (Hlearned (lower text))|].
    eexists. split; [done|]. intros Hnil.
    apply app_eq_nil in Hnil as [_ Hnil]. by vm_compute in Hnil.
  - unfold _generate_response. rewrite Hl.
    destruct (List.find _ (response_patterns b)) as [[pattern responses]|] eqn:Hfind.
    + apply find_some in Hfind as [Hin _]. rewrite Hpat in Hin.
      apply list_elem_of_In in Hin.
      pose proof (proj1 (Forall_forall _ _) (pattern_table_weighted clock) _ Hin) as Hw.
      destruct (weighted_choices (pick d 0) responses Hw) as (r & -> & Hr).
      by exists r.
    + destruct (_generate_context_response_total d text user_id b) as [->|(r & -> & Hr)].
      * apply _generate_random_response_answers.
      * destruct r; [done|]. by eexists.
Qed.

Lemma _process_learn_command_answers rnd text b :
  exists r, (_process_learn_command rnd text b).2 = Ret r ∧ r ≠ [].
Proof.
  unfold _process_learn_command.
  destruct (learn_match text) as [[group1 group2]|];
    [|by exists learn_format_reply].
  destruct (_ || _); [by exists learn_too_short_reply|].
  destruct (_ || _); [by exists learn_too_long_reply|].
  destruct (choice_elem rnd [py "Запомнила! 🧠"; py "Окей, записала! 📝"])
    as (ack & -> & Hin); [done|].
  eexists. split; [done|]. unfold learn_ack_reply. intros Hnil.
  apply app_eq_nil in Hnil as [_ Hnil]. by vm_compute in Hnil.
Qed.

(** X12: Every message that is not blank gets a reply with text, on a bot that
    has the pattern table of [__init__] and no learned phrase without an
    answer: no stage of the resolver raises and none stays silent. *)
Theorem every_message_answered d t_seen t_active m b db clock :
  strip (text m) ≠ [] ->
  response_patterns b = _init_response_patterns clock ->
  map_Forall (fun _ learned_answers => learned_answers ≠ []) (learned_responses b) ->
  exists reply,
    reply ≠ [] ∧ (handle_message d t_seen t_active m b db).1.2 = Answer reply.
Proof.
  intros Htext Hpat Hlearned. unfold handle_message.
  rewrite bool_decide_eq_false_2 by done.
  set (b3 := set_history _ _).
  assert (Hpat3 : response_patterns b3 = _init_response_patterns clock).
  { subst b3. by destruct (user_data _ !! _). }
  assert (Hlearned3 : learned_responses b3 = learned_responses b).
  { subst b3. by destruct (user_data _ !! _). }
  clearbody b3.
  destruct (startswith _ _).
  - destruct (_process_learn_command_answers (pick d 0) (strip (text m)) b3)
      as (r & Hr & Hne).
    destruct (_process_learn_command _ _ _) as [b4 response]. simpl in Hr. subst response.
    destruct (periodic_save b4 db). simpl. exists r. by destruct r.
  - destruct (_generate_response_answers d (strip (text m)) (str_of_Z (from_user_id m))
                b3 clock) as (r & -> & Hne); [done|by rewrite Hlearned3|].
    destruct (periodic_save b3 db). simpl. exists r. by destruct r.
Qed.

(** X13: A phrase the bot has learned is answered with one of its learned
    answers and an aside of the current mood, whatever the pattern table
    and the history hold: the learned phrases are looked up first. *)
Theorem taught_answer_comes_back d t_seen t_active m b db learned_answers :
  strip (text m) ≠ [] ->
  startswith (lower (strip (text m))) (py "учись") = false ->
  learned_responses b !! lower (strip (text m)) = Some learned_answers ->
  learned_answers ≠ [] ->
  exists response aside,
    response ∈ learned_answers ∧ aside ∈ mood_responses (current_mood b) ∧
    (handle_message d t_seen t_active m b db).1.2
      = Answer (response ++ nl ++ py "<i>" ++ aside ++ py "</i>").
Proof.
  intros Htext Hplain Hl Hne. unfold handle_message.
  rewrite bool_decide_eq_false_2 by done. rewrite Hplain.
  set (b3 := set_history _ _).
  assert (Hlearned3 : learned_responses b3 = learned_responses b).
  { subst b3. by destruct (user_data _ !! _). }
  assert (Hmood3 : current_mood b3 = current_mood b).
  { subst b3. by destruct (user_data _ !! _). }
  clearbody b3. rewrite <- Hlearned3 in Hl.
  destruct (learned_stage d (strip (text m)) (str_of_Z (from_user_id m)) b3
              learned_answers Hl Hne) as (response & aside & Hin & Hside & ->).
  destruct (periodic_save b3 db). simpl. exists response, aside.
  rewrite <- Hmood3. split; [done|]. split; [done|]. by destruct response.
Qed.
End ResolverFacts.

(** User 7 greets a new bot. *)
Lemma every_message_answered_witness :
  strip (text (message_of 7 "привет")) ≠ [] ∧
  response_patterns sample_bot = _init_response_patterns (py "12:00 01.01.2025") ∧
  map_Forall (fun _ learned_answers => learned_answers ≠ []) (learned_responses sample_bot) ∧
  exists reply,
    reply ≠ [] ∧
    (handle_message first_draws (py "2025-01-01T10:00:00") (py "2025-01-01T10:00:00")
       (message_of 7 "привет") sample_bot empty_database).1.2 = Answer reply.
Proof.
  assert (H1 : strip (text (message_of 7 "привет")) ≠ []) by (vm_compute; discriminate).
  assert (H2 : response_patterns sample_bot
               = _init_response_patterns (py "12:00 01.01.2025")) by reflexivity.
  assert (H3 : map_Forall (fun _ learned_answers => learned_answers ≠ [])
                 (learned_responses sample_bot)) by apply map_Forall_empty.
  split; [exact H1|]. split; [exact H2|]. split; [exact H3|].
  exact (@every_message_answered basic_unicode iso_text_datetime first_draws
           (py "2025-01-01T10:00:00") (py "2025-01-01T10:00:00")
           (message_of 7 "привет") sample_bot empty_database _ H1 H2 H3).
Defined.

(** The bot that was taught [понг] for [пинг] is asked [Пинг]. *)
Lemma taught_answer_comes_back_witness :
  strip (text (message_of 8 "Пинг")) ≠ [] ∧
  startswith (lower (strip (text (message_of 8 "Пинг")))) (py "учись") = false ∧
  learned_responses taught_bot !! lower (strip (text (message_of 8 "Пинг")))
    = Some [py "понг"] ∧
  [py "понг"] ≠ [] ∧
  exists response aside,
    response ∈ [py "понг"] ∧ aside ∈ mood_responses (current_mood taught_bot) ∧
    (handle_message first_draws (py "2025-01-01T10:05:00") (py "2025-01-01T10:05:00")
       (message_of 8 "Пинг") taught_bot empty_database).1.2
      = Answer (response ++ nl ++ py "<i>" ++ aside ++ py "</i>").
Proof.
  assert (H1 : strip (text (message_of 8 "Пинг")) ≠ []) by (vm_compute; discriminate).
  assert (H2 : startswith (lower (strip (text (message_of 8 "Пинг")))) (py "учись") = false)
    by (vm_compute; reflexivity).
  assert (H3 : learned_responses taught_bot !! lower (strip (text (message_of 8 "Пинг")))
               = Some [py "понг"]) by (vm_compute; reflexivity).
  assert (H4 : [py "понг"] ≠ []) by discriminate.
  split; [exact H1|]. split; [exact H2|]. split; [exact H3|]. split; [exact H4|].
  exact (@taught_answer_comes_back basic_unicode iso_text_datetime first_draws
           (py "2025-01-01T10:05:00") (py "2025-01-01T10:05:00")
           (message_of 8 "Пинг") taught_bot empty_database _ H1 H2 H3 H4).
Defined.

(** ** Greeting cues and the pattern table *)

Section CueFacts.
Context `{PyUnicode}.

Section Folding.
Hypothesis re_ieq_refl : forall c, re_ieq c c = true.

Lemma match_atoms_lits l p s : match_atoms ((Lit <$> l) ++ p) (l ++ s) = match_atoms p s.
Proof. induction l as [|a l IH]; simpl; [done|]. by rewrite re_ieq_refl. Qed.

(** [.*] lets through any text without a line feed. *)
Lemma match_atoms_dotstar mid p s :
  Forall (fun c => c ≠ 10%N) mid ->
  match_atoms p s = true -> match_atoms (DotStar :: p) (mid ++ s) = true.
Proof.
  intros Hmid Hp. induction Hmid as [|c mid Hc Hmid IH].
  - simpl. destruct s; by rewrite Hp.
  - simpl in *. rewrite IH. apply N.eqb_neq in Hc. rewrite Hc. apply orb_true_r.
Qed.

Lemma re_search_at alts p pre s :
  p ∈ alts -> match_atoms p s = true -> re_search alts (pre ++ s) = true.
Proof.
  intros Hin Hp. induction pre as [|c pre IH]; simpl.
  - assert (existsb (fun p0 => match_atoms p0 s) alts = true) as Hex.
    { apply existsb_exists. exists p. split; [by apply list_elem_of_In|done]. }
    destruct s; simpl in *; by rewrite Hex.
  - rewrite IH. apply orb_true_r.
Qed.

(** Two words with one blank between them are found by the pattern
    [word1.*word2]. *)
Lemma re_search_two_words alts word1 word2 s :
  (Lit <$> word1) ++ DotStar :: (Lit <$> word2) ∈ alts ->
  discloses (word1 ++ py " " ++ word2) s -> re_search alts s = true.
Proof.
  intros Hin (pre & post & ->). eapply re_search_at; [done|].
  rewrite <- !app_assoc, match_atoms_lits. apply match_atoms_dotstar.
  - by repeat constructor.
  - rewrite <- (app_nil_r (Lit <$> word2)). by rewrite match_atoms_lits.
Qed.

(** A text that holds one of the greeting cues of the context stage is
    matched by the pattern table, so the resolver answers it from the
    learned phrases or from the patterns, whatever the history. *)
Lemma cue_matches_pattern d text user_id b clock :
  response_patterns b = _init_response_patterns clock ->
  existsb (fun q => contains q (lower text)) greeting_cues = true ->
  (exists entry,
     List.find (fun '(pattern, _) => re_search pattern (lower text)) (response_patterns b)
       = Some entry) ∧
  forall f, _generate_response d text user_id (set_history f b)
            = _generate_response d text user_id b.
Proof.
  intros Hpat Hcue.
  assert (Hfind : exists entry,
            List.find (fun '(pattern, _) => re_search pattern (lower text))
              (response_patterns b) = Some entry).
  { destruct (List.find _ (response_patterns b)) as [entry|] eqn:Hfind; [by eexists|].
    exfalso.
    assert (Hentry : In (re_alternatives "как.*дела|как.*жизнь|чего.*ты|как.*ты",
                      [(py "Всё хорошо, а у тебя? 😊", 10%nat)]) (response_patterns b))
      by (rewrite Hpat; right; left; reflexivity).
    pose proof (find_none _ _ Hfind _ Hentry) as Hnone. cbv beta iota in Hnone.
    assert (re_search (re_alternatives "как.*дела|как.*жизнь|чего.*ты|как.*ты")
              (lower text) = true) as Htrue; [|congruence].
    apply existsb_exists in Hcue as (q & Hq & Hin%contains_spec).
    apply list_elem_of_In in Hq. unfold greeting_cues in Hq.
    apply elem_of_cons in Hq as [->|Hq].
    - apply (re_search_two_words _ (py "как") (py "дела")); [|exact Hin].
      vm_compute. by left.
    - apply list_elem_of_singleton in Hq as ->.
      apply (re_search_two_words _ (py "как") (py "ты")); [|exact Hin].
      vm_compute. do 3 right. by left. }
  split; [done|]. intros f. destruct Hfind as [[pattern responses] Hfind].
  unfold _generate_response. simpl. by rewrite Hfind.
Qed.
End Folding.
End CueFacts.

Section CueReplies.
Context `{PyUnicode} `{PyDatetime}.

Lemma _process_learn_command_reply rnd t b b' :
  (_process_learn_command rnd t b).2 = (_process_learn_command rnd t b').2.
Proof.
  unfold _process_learn_command. destruct (learn_match t) as [[group1 group2]|]; [|done].
  destruct (_ || _); [done|]. destruct (_ || _); [done|]. by destruct (choice _ _).
Qed.

(** X14: A message that holds one of the greeting cues of the context stage
    ([как дела], [как ты]) gets the same reply whatever the conversation
    history holds: the pattern table matches it first.  The context stage
    looks for the cues in the message the handler has just stored, so its
    greeting branch decides no reply. *)
Theorem greeting_reply_ignores_history d t_seen t_active m b db clock f :
  (forall c, re_ieq c c = true) ->
  response_patterns b = _init_response_patterns clock ->
  existsb (fun q => contains q (lower (strip (text m)))) greeting_cues = true ->
  (handle_message d t_seen t_active m (set_history f b) db).1.2
    = (handle_message d t_seen t_active m b db).1.2.
Proof.
  intros Hrefl Hpat Hcue. unfold handle_message.
  case_bool_decide as Hblank; [done|].
  set (b3 := set_history _ (match user_data (set_stats _ b) !! _ with
                            | Some u => _ | None => _ end)).
  set (b3' := set_history _ _).
  set (g := fun _ : gmap pystr (list pystr) => conversation_history b3').
  assert (Hb3 : b3' = set_history g b3).
  { subst g b3 b3'. simpl. by destruct (user_data b !! str_of_Z (from_user_id m)). }
  assert (Hpat3 : response_patterns b3 = _init_response_patterns clock).
  { subst b3. simpl. by destruct (user_data b !! _). }
  clearbody g. clearbody b3 b3'. subst b3'.
  destruct (startswith _ _).
  - pose proof (_process_learn_command_reply (pick d 0) (strip (text m))
                  (set_history g b3) b3) as Hreply.
    destruct (_process_learn_command _ _ (set_history g b3)) as [b4' response'].
    destruct (_process_learn_command _ _ b3) as [b4 response].
    simpl in Hreply. subst response'. destruct response as [response|e]; [|done].
    by destruct (periodic_save b4' db), (periodic_save b4 db).
  - rewrite (proj2 (cue_matches_pattern Hrefl d (strip (text m)) _ b3 clock Hpat3 Hcue) g).
    destruct (_generate_response _ _ _ b3) as [response|e]; [|done].
    by destruct (periodic_save (set_history g b3) db), (periodic_save b3 db).
Qed.
End CueReplies.

(** [ну как дела], sent by user 7 to a new bot and to one whose history
    of user 7 holds two earlier messages. *)
Lemma greeting_reply_ignores_history_witness :
  (forall c, re_ieq c c = true) ∧
  response_patterns sample_bot = _init_response_patterns (py "12:00 01.01.2025") ∧
  existsb (fun q => contains q (lower (strip (text (message_of 7 "ну как дела")))))
    greeting_cues = true ∧
  (handle_message first_draws (py "2025-01-01T10:00:00") (py "2025-01-01T10:00:00")
     (message_of 7 "ну как дела")
     (set_history <[py "7" := [py "привет"; py "как ты"]]> sample_bot) empty_database).1.2
    = (handle_message first_draws (py "2025-01-01T10:00:00") (py "2025-01-01T10:00:00")
         (message_of 7 "ну как дела") sample_bot empty_database).1.2.
Proof.
  assert (H1 : forall c, re_ieq c c = true) by (intros c; apply N.eqb_refl).
  assert (H2 : response_patterns sample_bot
               = _init_response_patterns (py "12:00 01.01.2025")) by reflexivity.
  assert (H3 : existsb (fun q => contains q
                                   (lower (strip (text (message_of 7 "ну как дела")))))
                 greeting_cues = true) by (vm_compute; reflexivity).
  split; [exact H1|]. split; [exact H2|]. split; [exact H3|].
  exact (@greeting_reply_ignores_history basic_unicode iso_text_datetime first_draws
           (py "2025-01-01T10:00:00") (py "2025-01-01T10:00:00")
           (message_of 7 "ну как дела") sample_bot empty_database _
           <[py "7" := [py "привет"; py "как ты"]]> H1 H2 H3).
Defined.

(** ** Keyboards and their callbacks *)

Section KeyboardFacts.
Context `{PyUnicode}.





End KeyboardFacts.

(** ** Broadcast *)

Section BroadcastFacts.
Context `{PyUnicode}.

Lemma broadcast_loop_spec delivers text keys sent0 success0 fail0 :
  let '(sent1, success1, fail1) := broadcast_loop delivers text keys (sent0, success0, fail0) in
  (exists new,
     sent1 = sent0 ++ new ∧ success1 = success0 + Z.of_nat (length new) ∧
     Forall (fun out => out.2 = text ∧ delivers out.1 = true ∧
                        exists key, key ∈ keys ∧ py_int key = Some out.1) new) ∧
  fail0 <= fail1 ∧
  success1 + fail1 = success0 + fail0 + Z.of_nat (length keys).
Proof.
  revert sent0 success0 fail0.
  induction keys as [|key keys IH]; intros sent0 success0 fail0.
  - simpl. split; [|lia]. exists []. rewrite app_nil_r. simpl.
    split; [done|]. split; [lia|constructor].
  - cbn [broadcast_loop].
    assert (Hskip :
      let '(sent1, success1, fail1) :=
        broadcast_loop delivers text keys (sent0, success0, fail0 + 1) in
      (exists new,
         sent1 = sent0 ++ new ∧ success1 = success0 + Z.of_nat (length new) ∧
         Forall (fun out => out.2 = text ∧ delivers out.1 = true ∧
                            exists key0, key0 ∈ key :: keys ∧ py_int key0 = Some out.1) new) ∧
      fail0 <= fail1 ∧
      success1 + fail1 = success0 + fail0 + Z.of_nat (length (key :: keys))).
    { specialize (IH sent0 success0 (fail0 + 1)).
      destruct (broadcast_loop _ _ _ _) as [[sent1 success1] fail1].
      destruct IH as ((new & -> & -> & Hnew) & Hfail & Hsum).
      split; [|simpl length; lia]. exists new. split; [done|]. split; [done|].
      eapply Forall_impl; [done|]. intros out (? & ? & key0 & ? & ?).
      split; [done|]. split; [done|]. exists key0. split; [|done].
      apply elem_of_cons. by right. }
    destruct (py_int key) as [chat_id|] eqn:Hkey; [|done].
    destruct (delivers chat_id) eqn:Hsend; [|done].
    specialize (IH (sent0 ++ [(chat_id, text)]) (success0 + 1) fail0).
    destruct (broadcast_loop _ _ _ _) as [[sent1 success1] fail1].
    destruct IH as ((new & -> & -> & Hnew) & Hfail & Hsum).
    split; [|simpl length; lia]. exists ((chat_id, text) :: new).
    split; [by rewrite <- app_assoc|]. split; [simpl length; lia|].
    constructor.
    + split; [done|]. split; [done|]. exists key. split; [|done].
      apply elem_of_cons. by left.
    + eapply Forall_impl; [done|]. intros out (? & ? & key0 & ? & ?).
      split; [done|]. split; [done|]. exists key0. split; [|done].
      apply elem_of_cons. by right.
Qed.

(** X16: A broadcast goes out only on the command of an administrator that
    gives a message.  Each announcement that goes out carries that
    message, joined by single blanks, to the chat of an entry of
    [user_data] that took it; the two counters count the announcements
    sent and the entries left out, and add up to the number of users. *)
Theorem broadcast_accounting delivers m b :
  let report := cmd_admin_broadcast delivers m b in
  (forall chat announcement, (chat, announcement) ∈ sent report ->
     from_user_id m ∈ admin_ids b ∧
     tail (split (text m)) ≠ [] ∧
     announcement = broadcast_text (join (py " ") (tail (split (text m)))) ∧
     delivers chat = true ∧
     exists key, is_Some (user_data b !! key) ∧ py_int key = Some chat) ∧
  success_count report = Z.of_nat (length (sent report)) ∧
  0 <= fail_count report ∧
  (from_user_id m ∉ admin_ids b -> answers report = [admin_denied_reply]) ∧
  (from_user_id m ∈ admin_ids b -> tail (split (text m)) = [] ->
     answers report = [broadcast_usage_reply]) ∧
  (from_user_id m ∈ admin_ids b -> tail (split (text m)) ≠ [] ->
     success_count report + fail_count report = Z.of_nat (size (user_data b)) ∧
     answers report
       = [broadcast_begin_reply (size (user_data b));
          broadcast_done_reply (success_count report) (fail_count report)]).
Proof.
  intros report. subst report. unfold cmd_admin_broadcast.
  case_bool_decide as Hadmin.
  { cbn [sent success_count fail_count answers length].
    split; [intros ? ? Hin; by apply elem_of_nil in Hin|].
    split; [done|]. split; [done|]. split; [done|].
    split; intros Hin; by destruct Hadmin. }
  destruct (tail (split (text m))) as [|arg args] eqn:Hargs.
  { cbn [sent success_count fail_count answers length].
    split; [intros ? ? Hin; by apply elem_of_nil in Hin|].
    split; [done|]. split; [done|]. split; [intros Hno; by destruct Hno|].
    split; [done|]. by intros _ Hne. }
  pose proof (broadcast_loop_spec delivers
                (broadcast_text (join (py " ") (arg :: args)))
                (map_to_list (user_data b)).*1 [] 0 0) as Hloop.
  destruct (broadcast_loop _ _ _ _) as [[sent1 success1] fail1].
  destruct Hloop as ((new & Hsent & Hsuccess & Hnew) & Hfail & Hsum).
  rewrite length_fmap, length_map_to_list in Hsum.
  rewrite app_nil_l in Hsent. subst sent1.
  cbn [sent success_count fail_count answers].
  split.
  { intros chat announcement Hin.
    apply (proj1 (Forall_forall _ _) Hnew) in Hin as (Htext & Hsend & key & Hkey & Hint).
    cbn [fst snd] in Htext, Hsend, Hint.
    split; [done|]. split; [done|]. split; [done|]. split; [done|].
    exists key. split; [|done].
    apply list_elem_of_fmap in Hkey as ([key' u] & -> & Hkey).
    apply elem_of_map_to_list in Hkey. by eexists. }
  split; [lia|]. split; [lia|]. split; [intros Hno; by destruct Hno|].
  split; [by intros _ Hne|]. intros _ _. split; [lia|done].
Qed.
End BroadcastFacts.

(** ** Clearing the history *)

Section ClearFacts.
Context `{PyUnicode} `{PyDatetime}.

(** X17: [/clear] empties the history of its sender and touches nothing else:
    no other history, no counter, no user entry.  The next message of
    that user is then alone in the history, so the context stage, which
    wants two messages, has no say in its reply. *)
Theorem clear_then_message d t_seen t_active m_clear m b db :
  let user_id := str_of_Z (from_user_id m) in
  let cleared := (cmd_clear m_clear b).1 in
  let b' := (handle_message d t_seen t_active m cleared db).1.1.1 in
  from_user_id m_clear = from_user_id m ->
  strip (text m) ≠ [] ->
  (forall other, other ≠ user_id ->
     conversation_history cleared !! other = conversation_history b !! other) ∧
  default [] (conversation_history cleared !! user_id) = [] ∧
  (stats cleared, user_data cleared, learned_responses cleared, active_games cleared,
   current_mood cleared)
    = (stats b, user_data b, learned_responses b, active_games b, current_mood b) ∧
  conversation_history b' !! user_id = Some [strip (text m)] ∧
  forall d' text', _generate_context_response d' text' user_id b' = Ret None.
Proof.
  intros user_id cleared b' Hsame Htext.
  assert (Hothers : forall other, other ≠ user_id ->
            conversation_history cleared !! other = conversation_history b !! other).
  { intros other Hother. subst cleared. unfold cmd_clear. rewrite Hsame. fold user_id.
    simpl. destruct (conversation_history b !! user_id); [|done].
    by rewrite lookup_insert_ne. }
  assert (Hempty : default [] (conversation_history cleared !! user_id) = []).
  { subst cleared. unfold cmd_clear. rewrite Hsame. fold user_id. simpl.
    destruct (conversation_history b !! user_id) eqn:Hh.
    - by rewrite lookup_insert_eq.
    - by rewrite Hh. }
  assert (Hhistory : conversation_history b' !! user_id = Some [strip (text m)]).
  { subst b'. destruct (handle_message_fields d t_seen t_active m cleared db Htext)
      as (-> & _). fold user_id. rewrite lookup_insert_eq, Hempty. done. }
  split; [done|]. split; [done|]. split; [done|]. split; [done|].
  intros d' text'. unfold _generate_context_response. by rewrite Hhistory.
Qed.
End ClearFacts.

(** User 7, whose history holds [ок], clears it and writes [привет]. *)
Lemma clear_then_message_witness :
  from_user_id (message_of 7 "/clear") = from_user_id (message_of 7 "привет") ∧
  strip (text (message_of 7 "привет")) ≠ [] ∧
  conversation_history seen_at_ten !! py "7" = Some [py "ок"] ∧
  conversation_history
    (handle_message first_draws (py "2025-01-01T10:05:00") (py "2025-01-01T10:05:00")
       (message_of 7 "привет") (cmd_clear (message_of 7 "/clear") seen_at_ten).1
       empty_database).1.1.1 !! str_of_Z 7
    = Some [strip (text (message_of 7 "привет"))].
Proof.
  assert (H1 : from_user_id (message_of 7 "/clear")
               = from_user_id (message_of 7 "привет")) by reflexivity.
  assert (H2 : strip (text (message_of 7 "привет")) ≠ []) by (vm_compute; discriminate).
  split; [exact H1|]. split; [exact H2|]. split; [vm_compute; reflexivity|].
  exact (proj1 (proj2 (proj2 (proj2
           (@clear_then_message basic_unicode iso_text_datetime first_draws
              (py "2025-01-01T10:05:00") (py "2025-01-01T10:05:00")
              (message_of 7 "/clear") (message_of 7 "привет") seen_at_ten
              empty_database H1 H2))))).
Defined.

(** ** The periodic flush *)

Section FlushFacts.
Context `{PyUnicode} `{PyDatetime}.

(** X18: On the document backend nothing is ever written, and the handler run
    that brings the message counter to a multiple of ten ends in
    [AttributeError], raised by the flush after the reply has gone out;
    the other runs end without it.  This holds for [/start] and for
    every message that is not blank and is resolved without an
    exception; a run that raises earlier does not reach the flush. *)
Theorem document_backend_flush d t_seen t_active m b db :
  let flush :=
    if bool_decide ((total_messages (stats b) + 1) mod 10 = 0)
    then Some AttributeError else None in
  use_postgres b = false ->
  (cmd_start t_seen t_active m b db).1.1.2 = db ∧
  (cmd_start t_seen t_active m b db).2 = flush ∧
  (handle_message d t_seen t_active m b db).1.1.2 = db ∧
  (strip (text m) ≠ [] ->
   (forall e, (handle_message d t_seen t_active m b db).1.2 ≠ Raised e) ->
     (handle_message d t_seen t_active m b db).2 = flush) ∧
  (forall e, (handle_message d t_seen t_active m b db).1.2 = Raised e ->
     (handle_message d t_seen t_active m b db).2 = None).
Proof.
  intros flush Hdoc.
  assert (Hsave : forall b1 : bot,
            use_postgres b1 = false ->
            total_messages (stats b1) = total_messages (stats b) + 1 ->
            periodic_save b1 db = (db, flush)).
  { intros b1 Hdoc1 Htotal. unfold periodic_save, save_all_data, flush.
    rewrite Htotal, Hdoc1. by case_bool_decide. }
  assert (Hstart : (cmd_start t_seen t_active m b db).1.1.2 = db ∧
                   (cmd_start t_seen t_active m b db).2 = flush).
  { unfold cmd_start. rewrite Hsave; done. }
  destruct Hstart as [Hstart1 Hstart2]. split; [done|]. split; [done|].
  destruct (decide (strip (text m) = [])) as [Hblank|Htext].
  { unfold handle_message. rewrite bool_decide_eq_true_2 by done. simpl.
    split; [done|]. split; done. }
  destruct (handle_message_fields d t_seen t_active m b db Htext)
    as (_ & _ & Htotal & _ & _ & _ & _ & _ & Hpg & _).
  revert Htotal Hpg. unfold handle_message. rewrite bool_decide_eq_false_2 by done.
  set (b3 := set_history _ _). clearbody b3.
  destruct (if startswith _ _ then _ else _) as [b4 [response|e]].
  - destruct (periodic_save b4 db) as [db1 e] eqn:Hflush. simpl.
    intros Htotal Hpg. rewrite Hsave in Hflush by congruence.
    injection Hflush as <- <-.
    split; [done|]. split; [done|]. intros e0. by destruct response.
  - simpl. intros _ _. split; [done|]. split; [|done].
    intros _ Hno. by destruct (Hno e).
Qed.
End FlushFacts.

(** The tenth message to a bot on the document backend. *)
Definition nine_messages_in : bot :=
  set_stats (fun st => {| total_messages := 9; unique_users := unique_users st;
                          games_played := games_played st;
                          commands_used := commands_used st |})
    (new_bot [1] false (py "12:00 01.01.2025")).

Lemma document_backend_flush_witness :
  use_postgres nine_messages_in = false ∧
  (handle_message first_draws (py "2025-01-01T10:00:00") (py "2025-01-01T10:00:00")
     (message_of 7 "привет") nine_messages_in empty_database).1.2
    = Answer (py "Привет, мой господин! 👋") ∧
  (handle_message first_draws (py "2025-01-01T10:00:00") (py "2025-01-01T10:00:00")
     (message_of 7 "привет") nine_messages_in empty_database).2
    = Some AttributeError.
Proof.
  assert (H1 : use_postgres nine_messages_in = false) by reflexivity.
  assert (H2 : (handle_message first_draws (py "2025-01-01T10:00:00")
                  (py "2025-01-01T10:00:00") (message_of 7 "привет") nine_messages_in
                  empty_database).1.2 = Answer (py "Привет, мой господин! 👋"))
    by (vm_compute; reflexivity).
  split; [exact H1|]. split; [exact H2|].
  apply (proj1 (proj2 (proj2 (proj2
           (@document_backend_flush basic_unicode iso_text_datetime first_draws
              (py "2025-01-01T10:00:00") (py "2025-01-01T10:00:00")
              (message_of 7 "привет") nine_messages_in empty_database H1))))).
  - vm_compute. discriminate.
  - intros e. rewrite H2. discriminate.
Defined.

(** ** The save transaction *)

Section TransactionFacts.
Context `{PyUnicode} `{PyDatetime}.

End TransactionFacts.



(** ** The city table runs out *)

Section CitiesBound.
Context `{PyUnicode}.

(** The cities of the table that a session has not used yet. *)
Definition table_left (used : list pystr) : list pystr :=
  filter (fun city => city ∉ used) db_cities.

Lemma table_left_shrinks (used used' : list pystr) next :
  used ⊆ used' -> next ∈ db_cities -> next ∉ used -> next ∈ used' ->
  (length (table_left used') < length (table_left used))%nat.
Proof.
  intros Hsub Hdb Hnew Hold. unfold table_left.
  rewrite <- (list_filter_filter_l (fun city => city ∉ used') (fun city => city ∉ used))
    by (intros city Hout Hin; apply Hout, Hsub, Hin).
  apply (length_filter_lt _ _ next); [|by intros Hout].
  by apply list_elem_of_filter.
Qed.

(** X20: In one session the bot answers at most four moves with a city of
    its own.  A move that the bot answers with a city leaves a session
    whose city to continue from is a table city that was unused, keeps
    every city used before, and so has strictly fewer unused table cities
    than before; there are four at most.  (The city the bot opens with
    is not counted: it need not be a table city.) *)
Theorem cities_table_runs_out rnd m b c command token rest c' :
  let game_id := str_of_Z (from_user_id m) ++ py "_cities" in
  active_games b !! game_id = Some (GCities c) ->
  last_city c ≠ [] ->
  split (text m) = command :: token :: rest ->
  active_games (cmd_game_cities rnd m b).1 !! game_id = Some (GCities c') ->
  c' ≠ c ->
  last_city c' ∈ table_left (used_cities c) ∧
  used_cities c ⊆ used_cities c' ∧
  lower token ∈ used_cities c' ∧
  (length (table_left (used_cities c')) < length (table_left (used_cities c)) <= 4)%nat.
Proof.
  intros game_id Hg Hlast Hs.
  destruct (cities_move rnd m b c _ _ _ Hg Hlast Hs)
    as (first & last & required & _ & _ & _ & ->).
  fold game_id.
  assert (Hfour : (length (table_left (used_cities c)) <= 4)%nat).
  { unfold table_left. etrans; [apply length_filter|]. by rewrite db_cities_eq. }
  destruct (decide (lower token ∈ used_cities c)) as [Hin|Hout].
  { simpl. rewrite Hg. by intros [= <-]. }
  destruct (decide (first ≠ last)) as [Hd|Hd].
  { simpl. rewrite Hg. by intros [= <-]. }
  destruct (_find_city required _) as [next|] eqn:Hf; simpl.
  2:{ by rewrite lookup_delete_eq. }
  rewrite lookup_insert_eq. intros [= <-] _. simpl.
  apply _find_city_Some in Hf as (Hdb & _ & Hnew & _).
  rewrite elem_of_union, elem_of_singleton, elem_of_list_to_set in Hnew.
  assert (Hsub : used_cities c ⊆
                   elements ({[next]} ∪ ({[lower token]} ∪ list_to_set (used_cities c))
                               : gset pystr)).
  { intros city Hcity. rewrite elem_of_elements, !elem_of_union, elem_of_list_to_set.
    tauto. }
  assert (Hnext : next ∈ elements ({[next]} ∪ ({[lower token]}
                                     ∪ list_to_set (used_cities c)) : gset pystr)).
  { rewrite elem_of_elements, !elem_of_union, elem_of_singleton. tauto. }
  assert (Hfresh : next ∉ used_cities c) by (intros Hin; apply Hnew; by right).
  split_and!; [|done| | |done].
  - unfold table_left. by apply list_elem_of_filter.
  - rewrite elem_of_elements, !elem_of_union, !elem_of_singleton. tauto.
  - by apply (table_left_shrinks _ _ next).
Qed.
End CitiesBound.

(** After the bot has opened with [москва], user 7 names [анапа] and the
    bot goes on with [архангельск]. *)
Lemma cities_table_runs_out_witness :
  active_games cities_sample !! (str_of_Z 7 ++ py "_cities")
    = Some (GCities cities_sample_game) ∧
  last_city cities_sample_game ≠ [] ∧
  split (text (message_of 7 "/cities анапа")) = [py "/cities"; py "анапа"] ∧
  exists c',
    active_games (cmd_game_cities 0 (message_of 7 "/cities анапа") cities_sample).1
      !! (str_of_Z 7 ++ py "_cities") = Some (GCities c') ∧
    c' ≠ cities_sample_game ∧
    last_city c' ∈ table_left (used_cities cities_sample_game) ∧
    (length (table_left (used_cities c'))
     < length (table_left (used_cities cities_sample_game)) <= 4)%nat.
Proof.
  assert (H1 : active_games cities_sample !! (str_of_Z 7 ++ py "_cities")
               = Some (GCities cities_sample_game)) by (vm_compute; reflexivity).
  assert (H2 : last_city cities_sample_game ≠ []) by (vm_compute; discriminate).
  assert (H3 : split (text (message_of 7 "/cities анапа")) = [py "/cities"; py "анапа"])
    by (vm_compute; reflexivity).
  split; [exact H1|]. split; [exact H2|]. split; [exact H3|].
  destruct (active_games (cmd_game_cities 0 (message_of 7 "/cities анапа") cities_sample).1
              !! (str_of_Z 7 ++ py "_cities")) as [[c'| | |]|] eqn:H4;
    try (vm_compute in H4; discriminate).
  exists c'. split; [reflexivity|].
  assert (H5 : c' ≠ cities_sample_game).
  { intros ->. vm_compute in H4. discriminate. }
  split; [exact H5|].
  destruct (cities_table_runs_out 0 (message_of 7 "/cities анапа") cities_sample
              cities_sample_game _ _ _ c' H1 H2 H3 H4 H5) as (Hlast & _ & _ & Hless).
  split; [exact Hlast|exact Hless].
Defined.
